(** * Read/write split router: statement routing

    A shallow embedding of
    [server/modules/routing/readwritesplit/rwsplit_route_stmt.cc]
    and the properties of the router session that follow from it.

    The session is a record that is threaded through a small state monad;
    a backend reference ([SRWBackend], a shared pointer) is the index of the
    backend in the session's [backends] vector, the null pointer is [None].
    Unsigned machine integers are [N] with their wrap-around written out,
    [int] values are [Z]. *)

From Stdlib Require Import ZArith NArith List String Ascii Lia Bool.
From Stdlib.Strings Require Import Byte.
From stdpp Require Import base gmap list strings.

(** ** Machine integers *)

Definition UINT32_MOD : N := 2 ^ 32.
Definition UINT64_MOD : N := 2 ^ 64.

Definition wrap32 (n : N) : N := (n mod UINT32_MOD)%N.
Definition wrap64 (n : N) : N := (n mod UINT64_MOD)%N.

(** [x++] on a [uint64_t]. *)
Definition incr64 (n : N) : N := wrap64 (n + 1).

(** The value of [(int) v] for a [long] [v]. *)
Definition to_int32 (v : Z) : Z := ((v + 2 ^ 31) mod 2 ^ 32 - 2 ^ 31)%Z.

#[global] Instance byte_eq_decision : EqDecision byte := byte_eq_dec.

(** ** Protocol constants

    The header [maxscale/protocol/mysql.h] is not among the sources. *)

(** Modelled from the spec: packet framing follows the 4-byte header (3-byte
    little-endian length, 1-byte sequence id); [MYSQL_HEADER_LEN] is missing. *)
Definition MYSQL_HEADER_LEN : N := 4.

(** Modelled from the spec: the MySQL maximum payload of one wire packet,
    2^24 - 1 bytes; [GW_MYSQL_MAX_PACKET_LEN] is missing. *)
Definition GW_MYSQL_MAX_PACKET_LEN : N := 2 ^ 24 - 1.

(** Modelled from the spec: the command bytes the spec names; the enum
    [mxs_mysql_cmd_t] is missing, the values are those of the MySQL
    client/server protocol. *)
Definition MXS_COM_QUIT : byte := x01.
Definition MXS_COM_INIT_DB : byte := x02.
Definition MXS_COM_QUERY : byte := x03.
Definition MXS_COM_CHANGE_USER : byte := x11.
Definition MXS_COM_STMT_PREPARE : byte := x16.
Definition MXS_COM_STMT_EXECUTE : byte := x17.
Definition MXS_COM_STMT_SEND_LONG_DATA : byte := x18.
Definition MXS_COM_STMT_CLOSE : byte := x19.
Definition MXS_COM_STMT_FETCH : byte := x1c.

(** Modelled from the spec: the classifier says whether a response is
    expected; [mxs_mysql_command_will_respond] is missing.  The commands the
    server does not answer are COM_QUIT, COM_STMT_CLOSE and
    COM_STMT_SEND_LONG_DATA. *)
Definition mxs_mysql_command_will_respond (cmd : byte) : bool :=
  negb (bool_decide (cmd = MXS_COM_STMT_SEND_LONG_DATA)) &&
  negb (bool_decide (cmd = MXS_COM_QUIT)) &&
  negb (bool_decide (cmd = MXS_COM_STMT_CLOSE)).

(** Modelled from the spec: the prepared statement manager rewrites the
    client's COM_STMT_EXECUTE / COM_STMT_CLOSE / COM_STMT_FETCH payload;
    [mxs_mysql_is_ps_command] is missing. *)
Definition mxs_mysql_is_ps_command (cmd : byte) : bool :=
  bool_decide (cmd = MXS_COM_STMT_EXECUTE) ||
  bool_decide (cmd = MXS_COM_STMT_CLOSE) ||
  bool_decide (cmd = MXS_COM_STMT_FETCH).

(** Modelled from the spec: the target classes ALL, MASTER, SLAVE,
    NAMED_SERVER and LAG_MAX; the enum [route_target_t] and the
    [TARGET_IS_*] macros of [readwritesplit.hh] are missing.  A route target
    is a bit mask and [TARGET_IS_X(t)] is [t & TARGET_X]. *)
Definition route_target_t := N.
Definition TARGET_UNDEFINED : route_target_t := 0%N.
Definition TARGET_MASTER : route_target_t := 1%N.
Definition TARGET_SLAVE : route_target_t := 2%N.
Definition TARGET_NAMED_SERVER : route_target_t := 4%N.
Definition TARGET_ALL : route_target_t := 8%N.
Definition TARGET_RLAG_MAX : route_target_t := 16%N.

Definition target_has (bit t : route_target_t) : bool :=
  negb (N.land t bit =? 0)%N.
Definition TARGET_IS_MASTER := target_has TARGET_MASTER.
Definition TARGET_IS_SLAVE := target_has TARGET_SLAVE.
Definition TARGET_IS_NAMED_SERVER := target_has TARGET_NAMED_SERVER.
Definition TARGET_IS_ALL := target_has TARGET_ALL.
Definition TARGET_IS_RLAG_MAX := target_has TARGET_RLAG_MAX.

(** Modelled from the spec: the classifier's type bitmap; the enum
    [qc_query_type_t] and [qc_query_is_type] are missing. *)
Definition QUERY_TYPE_PREPARE_NAMED_STMT : N := 0x020000%N.
Definition QUERY_TYPE_PREPARE_STMT : N := 0x040000%N.
Definition qc_query_is_type (typemask type : N) : bool :=
  (N.land typemask type =? type)%N.

(** Modelled from the spec: replication lag limits, "unlimited when the
    maximum is undefined"; the macros of [maxscale/server.h] are missing. *)
Definition MAX_RLAG_NOT_AVAILABLE : Z := (-1)%Z.
Definition MAX_RLAG_UNDEFINED : Z := (-2)%Z.

(** ** Buffers and hints *)

Inductive HINT_TYPE :=
| HINT_ROUTE_TO_MASTER
| HINT_ROUTE_TO_SLAVE
| HINT_ROUTE_TO_NAMED_SERVER
| HINT_ROUTE_TO_UPTODATE_SERVER
| HINT_ROUTE_TO_ALL
| HINT_PARAMETER.

#[global] Instance HINT_TYPE_eq_dec : EqDecision HINT_TYPE.
Proof. solve_decision. Defined.

Record HINT := {
  hint_type : HINT_TYPE;
  hint_data : string;
  hint_value : string
}.

(** A [GWBUF] holds one protocol packet: the wire bytes (header included),
    the type flags and the hint chain. *)
Record GWBUF := {
  gwbuf_data : list byte;
  gwbuf_type : N;
  gwbuf_hint : list HINT
}.

Definition GWBUF_TYPE_COLLECT_RESULT : N := 0x40%N.

Definition gwbuf_length (buf : GWBUF) : N := N.of_nat (length (gwbuf_data buf)).

(** A clone shares the data of the original and carries the same flags
    and hints. *)
Definition gwbuf_clone (buf : GWBUF) : GWBUF := buf.

Definition gwbuf_set_type (buf : GWBUF) (t : N) : GWBUF :=
  {| gwbuf_data := gwbuf_data buf;
     gwbuf_type := N.lor (gwbuf_type buf) t;
     gwbuf_hint := gwbuf_hint buf |}.

(** The command byte is the first byte of the payload. *)
Definition mxs_mysql_get_command (buf : GWBUF) : byte :=
  nth (N.to_nat MYSQL_HEADER_LEN) (gwbuf_data buf) x00.

(** The query queue is a chain of whole packets. *)
Definition gwbuf_append (queue : list GWBUF) (buf : GWBUF) : list GWBUF :=
  queue ++ [buf].

(** Little-endian bytes of a 32-bit value. *)
Definition byte_of_N (n : N) : byte :=
  match Byte.of_N (n mod 256) with Some b => b | None => x00 end.

Definition gw_mysql_set_byte4 (v : N) : list byte :=
  [byte_of_N v; byte_of_N (v / 2 ^ 8); byte_of_N (v / 2 ^ 16); byte_of_N (v / 2 ^ 24)].

Definition gw_mysql_set_byte3 (v : N) : list byte :=
  [byte_of_N v; byte_of_N (v / 2 ^ 8); byte_of_N (v / 2 ^ 16)].

Definition MYSQL_GET_PAYLOAD_LEN (data : list byte) : N :=
  (Byte.to_N (nth 0 data x00) + 2 ^ 8 * Byte.to_N (nth 1 data x00)
   + 2 ^ 16 * Byte.to_N (nth 2 data x00))%N.

(** [overwrite off new data]: the bytes of [new] stored at offset [off]. *)
Definition overwrite (off : nat) (new data : list byte) : list byte :=
  take off data ++ new ++ drop (off + length new) data.

(** Modelled from the spec: the prepared statement manager rewrites the
    statement id of a binary protocol command so that the backend sees the
    internal id; [replace_binary_ps_id] is missing.  The id is the four
    bytes that follow the command byte. *)
Definition replace_binary_ps_id (buf : GWBUF) (id : N) : GWBUF :=
  {| gwbuf_data := overwrite (N.to_nat MYSQL_HEADER_LEN + 1) (gw_mysql_set_byte4 id)
                     (gwbuf_data buf);
     gwbuf_type := gwbuf_type buf;
     gwbuf_hint := gwbuf_hint buf |}.

(** ** Session commands *)

(** Modelled from the spec: a session command has a position, unique within
    the session, the command byte and the raw packet; the class
    [mxs::SessionCommand] is missing.  It is built from the buffer and the
    position alone, the command byte is read from the packet. *)
Record SessionCommand := {
  m_buffer : GWBUF;
  m_pos : N
}.

Definition get_position (c : SessionCommand) : N := m_pos c.
Definition get_command (c : SessionCommand) : byte := mxs_mysql_get_command (m_buffer c).

(** The textual payload two session commands are compared by. *)
Definition payload (c : SessionCommand) : list byte := gwbuf_data (m_buffer c).

(** Modelled from the spec: two session commands are equal when they are
    textually equivalent; [mxs::equal_pointees] and the comparison of
    [mxs::SessionCommand] are missing. *)
Definition equal_pointees (a b : SessionCommand) : Prop := payload a = payload b.

#[global] Instance equal_pointees_dec a b : Decision (equal_pointees a b).
Proof. unfold equal_pointees. apply _. Defined.

(** ** Servers and backends *)

(** Modelled from the spec: a server handle has an address, a current role
    (primary, replica, relay or down) and an observed replication lag; the
    struct [SERVER] is missing. *)
Inductive server_role := ROLE_MASTER | ROLE_SLAVE | ROLE_RELAY | ROLE_DOWN.

#[global] Instance server_role_eq_dec : EqDecision server_role.
Proof. solve_decision. Defined.

Inductive server_type_t := SERVER_TYPE_MARIADB | SERVER_TYPE_MYSQL.

#[global] Instance server_type_eq_dec : EqDecision server_type_t.
Proof. solve_decision. Defined.

Record SERVER := {
  unique_name : string;
  srv_role : server_role;
  rlag : Z;
  srv_reachable : bool;
  server_type : server_type_t
}.

Inductive response_type := NO_RESPONSE | EXPECT_RESPONSE.

#[global] Instance response_type_eq_dec : EqDecision response_type.
Proof. solve_decision. Defined.

Inductive reply_state_t := REPLY_STATE_START | REPLY_STATE_DONE.

(** Record update: [setter eta proj] builds the function that replaces the
    field [proj] in the eta-expansion [eta] of a record. *)
Ltac setter eta proj :=
  let e := eval cbv delta [eta] in eta in
  lazymatch eval pattern proj in e with
  | ?ctx _ => let t := eval cbv beta in (fun v r => ctx (fun _ => v) r) in exact t
  end.

(** Modelled from the spec: a backend is an owned handle to one server with
    an in-use flag, a reply state, a cursor into the session command log, a
    queue of pending session commands, the last-read timestamp and a closed
    flag; the classes [mxs::Backend] and [RWBackend] are missing.
    [b_written] is what was handed to the connection, oldest first, and
    [b_pings] counts keep-alive pings; [b_connect_ok] and [b_write_ok] say
    whether the network lets a connection attempt or a write succeed. *)
Record RWBackend := {
  b_server : SERVER;
  b_in_use : bool;
  b_closed : bool;
  b_waiting_result : bool;
  b_reply_state : reply_state_t;
  b_cursor : N;
  b_session_commands : list SessionCommand;
  b_last_read : Z;
  b_written : list (GWBUF * response_type);
  b_pings : nat;
  b_connect_ok : bool;
  b_write_ok : bool
}.

Definition eta_RWBackend (b : RWBackend) : RWBackend :=
  Build_RWBackend (b_server b) (b_in_use b) (b_closed b) (b_waiting_result b)
    (b_reply_state b) (b_cursor b) (b_session_commands b) (b_last_read b)
    (b_written b) (b_pings b) (b_connect_ok b) (b_write_ok b).

Definition set_b_in_use : bool -> RWBackend -> RWBackend :=
  ltac:(setter eta_RWBackend b_in_use).
Definition set_b_closed : bool -> RWBackend -> RWBackend :=
  ltac:(setter eta_RWBackend b_closed).
Definition set_b_waiting_result : bool -> RWBackend -> RWBackend :=
  ltac:(setter eta_RWBackend b_waiting_result).
Definition set_b_reply_state : reply_state_t -> RWBackend -> RWBackend :=
  ltac:(setter eta_RWBackend b_reply_state).
Definition set_b_cursor : N -> RWBackend -> RWBackend :=
  ltac:(setter eta_RWBackend b_cursor).
Definition set_b_session_commands : list SessionCommand -> RWBackend -> RWBackend :=
  ltac:(setter eta_RWBackend b_session_commands).
Definition set_b_written : list (GWBUF * response_type) -> RWBackend -> RWBackend :=
  ltac:(setter eta_RWBackend b_written).
Definition set_b_pings : nat -> RWBackend -> RWBackend :=
  ltac:(setter eta_RWBackend b_pings).

(** Modelled from the spec: the operations of a backend connection (§4.1);
    the member functions of [mxs::Backend] and [RWBackend] are missing. *)
Module Backend.

Definition in_use (b : RWBackend) : bool := b_in_use b.
Definition is_waiting_result (b : RWBackend) : bool := b_waiting_result b.
Definition server (b : RWBackend) : SERVER := b_server b.
Definition name (b : RWBackend) : string := unique_name (b_server b).

Definition is_master (b : RWBackend) : bool :=
  bool_decide (srv_role (b_server b) = ROLE_MASTER).
Definition is_slave (b : RWBackend) : bool :=
  bool_decide (srv_role (b_server b) = ROLE_SLAVE).
Definition is_relay (b : RWBackend) : bool :=
  bool_decide (srv_role (b_server b) = ROLE_RELAY).

(** True if the server is in a state (reachable, permitted role) from
    which a new connection could succeed. *)
Definition can_connect (b : RWBackend) : bool :=
  srv_reachable (b_server b) &&
  negb (bool_decide (srv_role (b_server b) = ROLE_DOWN)).

(** True when the queue is non-empty. *)
Definition have_session_commands (b : RWBackend) : bool :=
  negb (bool_decide (b_session_commands b = [])).

Definition next_session_command (b : RWBackend) : option SessionCommand :=
  head (b_session_commands b).

Definition append_session_command (c : SessionCommand) (b : RWBackend) : RWBackend :=
  set_b_session_commands (b_session_commands b ++ [c]) b.

Definition set_reply_state (st : reply_state_t) (b : RWBackend) : RWBackend :=
  set_b_reply_state st b.

(** Closes the connection. *)
Definition close (b : RWBackend) : RWBackend :=
  set_b_closed true (set_b_in_use false b).

(** Sends one protocol packet; with [EXPECT_RESPONSE] the backend then
    waits for a result.  A write error closes the backend. *)
Definition write (buf : GWBUF) (mode : response_type) (b : RWBackend)
  : bool * RWBackend :=
  if b_in_use b then
    if b_write_ok b then
      (true,
       set_b_written (b_written b ++ [(buf, mode)])
         (if bool_decide (mode = EXPECT_RESPONSE)
          then set_b_waiting_result true b else b))
    else (false, close b)
  else (false, b).

(** Writes the head of the queue and advances the cursor. *)
Definition execute_session_command (b : RWBackend) : bool * RWBackend :=
  match b_session_commands b with
  | [] => (false, b)
  | c :: rest =>
      let mode := if mxs_mysql_command_will_respond (get_command c)
                  then EXPECT_RESPONSE else NO_RESPONSE in
      let '(ok, b') := write (m_buffer c) mode b in
      if ok
      then (true, set_b_cursor (incr64 (get_position c))
                    (set_b_session_commands rest b'))
      else (false, b')
  end.

(** Opens a connection; on success every command of the log is enqueued
    for replay and the reply state is idle. *)
Definition connect (sescmd_log : list SessionCommand) (b : RWBackend)
  : bool * RWBackend :=
  if b_connect_ok b then
    (true,
     set_b_reply_state REPLY_STATE_DONE
       (set_b_session_commands (b_session_commands b ++ sescmd_log)
          (set_b_closed false (set_b_in_use true b))))
  else (false, b).

End Backend.

(** ** The router, the client and the session *)

Inductive failure_mode := RW_FAIL_INSTANTLY | RW_FAIL_ON_WRITE | RW_ERROR_ON_WRITE.

#[global] Instance failure_mode_eq_dec : EqDecision failure_mode.
Proof. solve_decision. Defined.

(** Modelled from the spec: the configuration options that affect the core
    (§6); the struct [Config] of [readwritesplit.hh] is missing.
    [slave_selection_criteria] is the index into the comparator table. *)
Record Config := {
  slave_selection_criteria : N;
  max_slave_replication_lag : Z;
  master_accept_reads : bool;
  master_reconnection : bool;
  master_failure_mode : failure_mode;
  strict_multi_stmt : bool;
  strict_sp_calls : bool;
  retry_failed_reads : bool;
  connection_keepalive : Z;
  disable_sescmd_history : bool;
  max_sescmd_history : N;
  enable_causal_read : bool;
  causal_read_timeout : string
}.

Definition eta_Config (c : Config) : Config :=
  Build_Config (slave_selection_criteria c) (max_slave_replication_lag c)
    (master_accept_reads c) (master_reconnection c) (master_failure_mode c)
    (strict_multi_stmt c) (strict_sp_calls c) (retry_failed_reads c)
    (connection_keepalive c) (disable_sescmd_history c) (max_sescmd_history c)
    (enable_causal_read c) (causal_read_timeout c).

Definition set_disable_sescmd_history : bool -> Config -> Config :=
  ltac:(setter eta_Config disable_sescmd_history).
Definition set_max_sescmd_history : N -> Config -> Config :=
  ltac:(setter eta_Config max_sescmd_history).

(** Routing counters of the router instance, each a [uint64_t]. *)
Record Stats := {
  n_master : N;
  n_slave : N;
  n_queries : N
}.

(** Modelled from the spec: the router instance a session belongs to, with
    its configuration, its counters, the cap on replicas per session and the
    name of its service; the class [RWSplit] is missing. *)
Record RWSplit := {
  config : Config;
  stats : Stats;
  max_slave_count : Z;
  service_name : string
}.

Definition set_stats (st : Stats) (r : RWSplit) : RWSplit :=
  {| config := config r; stats := st;
     max_slave_count := max_slave_count r; service_name := service_name r |}.

(** Modelled from the spec: the transaction state of the client session
    (in-transaction, read-only transaction, ending with COMMIT/ROLLBACK) and
    the statement archived for a retry; the struct [MXS_SESSION] and the
    functions [session_trx_is_*] and [session_store_stmt] are missing. *)
Record MXS_SESSION := {
  trx_active : bool;
  trx_read_only : bool;
  trx_ending : bool;
  stmt : option (GWBUF * SERVER)
}.

Definition session_trx_is_active (ses : MXS_SESSION) : bool := trx_active ses.
Definition session_trx_is_read_only (ses : MXS_SESSION) : bool := trx_read_only ses.
Definition session_trx_is_ending (ses : MXS_SESSION) : bool := trx_ending ses.

Inductive client_reply := READONLY_ERROR.

(** The client connection: what was sent to the client, oldest first, and
    whether an error packet can be created and sent. *)
Record DCB := {
  user : string;
  remote : string;
  session : MXS_SESSION;
  dcb_replies : list client_reply;
  dcb_reply_ok : bool
}.

Definition set_session (ses : MXS_SESSION) (d : DCB) : DCB :=
  {| user := user d; remote := remote d; session := ses;
     dcb_replies := dcb_replies d; dcb_reply_ok := dcb_reply_ok d |}.

Definition set_dcb_replies (l : list client_reply) (d : DCB) : DCB :=
  {| user := user d; remote := remote d; session := session d;
     dcb_replies := l; dcb_reply_ok := dcb_reply_ok d |}.

Inductive log_level := LOG_ERROR | LOG_WARNING | LOG_INFO | LOG_DEBUG.

#[global] Instance log_level_eq_dec : EqDecision log_level.
Proof. solve_decision. Defined.

(** What is shared by all sessions of the process: the heartbeat clock,
    [errno], the log (oldest message first, a message is its level and its
    format string) and the function-local static [warn_history_exceeded] of
    [route_session_write].  [sigsegv] says that the process has
    dereferenced a null pointer: the process dies at that point, and what a
    function computes after it has set [sigsegv] has not happened. *)
Record Process := {
  hkheartbeat : Z;
  errno : Z;
  mxs_log : list (log_level * string);
  warn_history_exceeded : bool;
  sigsegv : bool
}.

Definition set_errno (e : Z) (p : Process) : Process :=
  {| hkheartbeat := hkheartbeat p; errno := e; mxs_log := mxs_log p;
     warn_history_exceeded := warn_history_exceeded p; sigsegv := sigsegv p |}.

Definition set_mxs_log (l : list (log_level * string)) (p : Process) : Process :=
  {| hkheartbeat := hkheartbeat p; errno := errno p; mxs_log := l;
     warn_history_exceeded := warn_history_exceeded p; sigsegv := sigsegv p |}.

Definition set_warn_history_exceeded (w : bool) (p : Process) : Process :=
  {| hkheartbeat := hkheartbeat p; errno := errno p; mxs_log := mxs_log p;
     warn_history_exceeded := w; sigsegv := sigsegv p |}.

Definition set_sigsegv (v : bool) (p : Process) : Process :=
  {| hkheartbeat := hkheartbeat p; errno := errno p; mxs_log := mxs_log p;
     warn_history_exceeded := warn_history_exceeded p; sigsegv := v |}.

Inductive load_data_state_t :=
| LOAD_DATA_INACTIVE | LOAD_DATA_START | LOAD_DATA_ACTIVE | LOAD_DATA_END.

#[global] Instance load_data_state_eq_dec : EqDecision load_data_state_t.
Proof. solve_decision. Defined.

Inductive wait_gtid_state_t := EXPECTING_NOTHING | EXPECTING_WAIT_GTID_RESULT.

(** The members of [RWSplitSession] that the routing functions use, and the
    process the session runs in. *)
Record RWSplitSession := {
  backends : list RWBackend;
  current_master : option nat;
  target_node : option nat;
  prev_target : option nat;
  large_query : bool;
  rses_config : Config;
  load_data_state : load_data_state_t;
  have_tmp_tables : bool;
  temp_tables : list string;
  wait_gtid_state : wait_gtid_state_t;
  gtid_pos : string;
  sescmd_list : list SessionCommand;
  sescmd_responses : gmap N GWBUF;
  sescmd_count : N;
  sent_sescmd : N;
  recv_sescmd : N;
  expected_responses : Z;
  query_queue : list GWBUF;
  exec_map : gmap N nat;
  ps_manager : list (GWBUF * N);
  router : RWSplit;
  client_dcb : DCB;
  process : Process
}.

Definition eta_RWSplitSession (s : RWSplitSession) : RWSplitSession :=
  Build_RWSplitSession (backends s) (current_master s) (target_node s)
    (prev_target s) (large_query s) (rses_config s) (load_data_state s)
    (have_tmp_tables s) (temp_tables s) (wait_gtid_state s) (gtid_pos s)
    (sescmd_list s) (sescmd_responses s) (sescmd_count s) (sent_sescmd s)
    (recv_sescmd s) (expected_responses s) (query_queue s) (exec_map s)
    (ps_manager s) (router s) (client_dcb s) (process s).

Definition set_backends : list RWBackend -> RWSplitSession -> RWSplitSession :=
  ltac:(setter eta_RWSplitSession backends).
Definition set_current_master : option nat -> RWSplitSession -> RWSplitSession :=
  ltac:(setter eta_RWSplitSession current_master).
Definition set_target_node : option nat -> RWSplitSession -> RWSplitSession :=
  ltac:(setter eta_RWSplitSession target_node).
Definition set_prev_target : option nat -> RWSplitSession -> RWSplitSession :=
  ltac:(setter eta_RWSplitSession prev_target).
Definition set_large_query : bool -> RWSplitSession -> RWSplitSession :=
  ltac:(setter eta_RWSplitSession large_query).
Definition set_rses_config : Config -> RWSplitSession -> RWSplitSession :=
  ltac:(setter eta_RWSplitSession rses_config).
Definition set_load_data_state : load_data_state_t -> RWSplitSession -> RWSplitSession :=
  ltac:(setter eta_RWSplitSession load_data_state).
Definition set_have_tmp_tables : bool -> RWSplitSession -> RWSplitSession :=
  ltac:(setter eta_RWSplitSession have_tmp_tables).
Definition set_temp_tables : list string -> RWSplitSession -> RWSplitSession :=
  ltac:(setter eta_RWSplitSession temp_tables).
Definition set_wait_gtid_state : wait_gtid_state_t -> RWSplitSession -> RWSplitSession :=
  ltac:(setter eta_RWSplitSession wait_gtid_state).
Definition set_sescmd_list : list SessionCommand -> RWSplitSession -> RWSplitSession :=
  ltac:(setter eta_RWSplitSession sescmd_list).
Definition set_sescmd_responses : gmap N GWBUF -> RWSplitSession -> RWSplitSession :=
  ltac:(setter eta_RWSplitSession sescmd_responses).
Definition set_sescmd_count : N -> RWSplitSession -> RWSplitSession :=
  ltac:(setter eta_RWSplitSession sescmd_count).
Definition set_sent_sescmd : N -> RWSplitSession -> RWSplitSession :=
  ltac:(setter eta_RWSplitSession sent_sescmd).
Definition set_recv_sescmd : N -> RWSplitSession -> RWSplitSession :=
  ltac:(setter eta_RWSplitSession recv_sescmd).
Definition set_expected_responses : Z -> RWSplitSession -> RWSplitSession :=
  ltac:(setter eta_RWSplitSession expected_responses).
Definition set_query_queue : list GWBUF -> RWSplitSession -> RWSplitSession :=
  ltac:(setter eta_RWSplitSession query_queue).
Definition set_exec_map : gmap N nat -> RWSplitSession -> RWSplitSession :=
  ltac:(setter eta_RWSplitSession exec_map).
Definition set_ps_manager : list (GWBUF * N) -> RWSplitSession -> RWSplitSession :=
  ltac:(setter eta_RWSplitSession ps_manager).
Definition set_router : RWSplit -> RWSplitSession -> RWSplitSession :=
  ltac:(setter eta_RWSplitSession router).
Definition set_client_dcb : DCB -> RWSplitSession -> RWSplitSession :=
  ltac:(setter eta_RWSplitSession client_dcb).
Definition set_process : Process -> RWSplitSession -> RWSplitSession :=
  ltac:(setter eta_RWSplitSession process).

(** ** The state monad of a router session *)

Definition M (A : Type) : Type := RWSplitSession -> A * RWSplitSession.

Definition ret {A} (a : A) : M A := fun s => (a, s).

Definition bind {A B} (c : M A) (k : A -> M B) : M B :=
  fun s => let '(a, s') := c s in k a s'.

Definition gets {A} (f : RWSplitSession -> A) : M A := fun s => (f s, s).

Definition modify (f : RWSplitSession -> RWSplitSession) : M unit :=
  fun s => (tt, f s).

Notation "'let*' x ':=' c 'in' k" := (bind c (fun x => k))
  (at level 10, x name, c at level 100, k at level 200).
Notation "'let*' ' p ':=' c 'in' k" := (bind c (fun p => k))
  (at level 10, p pattern, c at level 100, k at level 200).
Notation "c ';;;' k" := (bind c (fun _ => k))
  (at level 100, k at level 200, right associativity).

Definition when (c : bool) (m : M unit) : M unit := if c then m else ret tt.

(** [MXS_ERROR], [MXS_WARNING], [MXS_INFO] and [MXS_DEBUG]. *)
Definition mxs_log_message (lvl : log_level) (msg : string) : M unit :=
  modify (fun s =>
    set_process (set_mxs_log (mxs_log (process s) ++ [(lvl, msg)]) (process s)) s).

Definition MXS_ERROR := mxs_log_message LOG_ERROR.
Definition MXS_WARNING := mxs_log_message LOG_WARNING.
Definition MXS_INFO := mxs_log_message LOG_INFO.
Definition MXS_DEBUG := mxs_log_message LOG_DEBUG.

(** The backend a reference points to.  Every reference held by a session
    points into its [backends]; [dummy_backend] is never in use. *)
Definition dummy_backend : RWBackend :=
  {| b_server := {| unique_name := EmptyString; srv_role := ROLE_DOWN; rlag := 0;
                    srv_reachable := false; server_type := SERVER_TYPE_MARIADB |};
     b_in_use := false; b_closed := true; b_waiting_result := false;
     b_reply_state := REPLY_STATE_DONE; b_cursor := 0;
     b_session_commands := []; b_last_read := 0; b_written := []; b_pings := 0;
     b_connect_ok := false; b_write_ok := false |}.

Definition backend_at (s : RWSplitSession) (i : nat) : RWBackend :=
  default dummy_backend (backends s !! i).

(** A member function of the backend [i] that changes it. *)
Definition on_backend {A} (i : nat) (f : RWBackend -> A * RWBackend) : M A :=
  fun s => let '(a, b') := f (backend_at s i) in
           (a, set_backends (<[i := b']> (backends s)) s).

Definition update_backend (i : nat) (f : RWBackend -> RWBackend) : M unit :=
  on_backend i (fun b => (tt, f b)).

(** ** Session command history *)

(** [std::map::lower_bound]: the least key of the map that is not below
    [k], [None] for the end iterator. *)
Definition lower_bound {A} (k : N) (m : gmap N A) : option N :=
  foldr (fun x acc => match acc with
                      | Some y => Some (N.min x y)
                      | None => Some x
                      end)
        None (filter (fun x => (k <= x)%N) (elements (dom m))).

(** [m.erase(m.begin(), it)] for the iterator [it] at the key [k]: the
    entries before [k] are removed. *)
Definition erase_before {A} (k : N) (m : gmap N A) : gmap N A :=
  filter (fun kv => (k <= kv.1)%N) m.

(** The history after [purge_history]: of three commands equal to [sescmd],
    the one stored and the two found, the middle one is removed. *)
Definition purge_history (sescmd : SessionCommand) : M unit :=
  (* As the PS handles map to explicit IDs, all COM_STMT_PREPARE commands
     are retained *)
  if bool_decide (get_command sescmd ≠ MXS_COM_STMT_PREPARE) then
    let* l := gets sescmd_list in
    match list_find (equal_pointees sescmd) l with
    | Some (first, _) =>
        (* at least one of these commands, see if there is a second one *)
        match list_find (equal_pointees sescmd) (drop (S first) l) with
        | Some (off, old_cmd) =>
            let second := (S first + off)%nat in
            modify (fun s => set_sescmd_responses
                               (delete (get_position old_cmd) (sescmd_responses s)) s) ;;;
            modify (fun s => set_sescmd_list (delete second (sescmd_list s)) s)
        | None => ret tt
        end
    | None => ret tt
    end
  else ret tt.

(** The local variables of the loop of [route_session_write] over the
    backends, with the members of the session that the loop changes. *)
Record session_write_acc := {
  nsucc : Z;
  lowest_pos : N;
  acc_expected_responses : Z;
  acc_log : list (log_level * string)
}.

(** One iteration of the loop of [route_session_write]. *)
Definition route_session_write_backend (sescmd : SessionCommand)
    (expecting_response : bool) (backend : RWBackend) (acc : session_write_acc)
  : RWBackend * session_write_acc :=
  if Backend.in_use backend then
    let b1 := Backend.append_session_command sescmd backend in
    let current_pos :=
      match Backend.next_session_command b1 with
      | Some c => get_position c
      | None => lowest_pos acc   (* the queue was just appended to *)
      end in
    let lowest := if (current_pos <? lowest_pos acc)%N
                  then current_pos else lowest_pos acc in
    let '(ok, b2) := Backend.execute_session_command b1 in
    if ok then
      (b2, {| nsucc := nsucc acc + 1;
              lowest_pos := lowest;
              acc_expected_responses :=
                if expecting_response
                then (acc_expected_responses acc + 1)%Z
                else acc_expected_responses acc;
              acc_log := acc_log acc ++ [(LOG_INFO, "Route query to %s \t%s")] |})
    else
      (b2, {| nsucc := nsucc acc;
              lowest_pos := lowest;
              acc_expected_responses := acc_expected_responses acc;
              acc_log := acc_log acc ++
                [(LOG_ERROR, "Failed to execute session command in %s")] |})
  else (backend, acc).

(** [for (auto it = backends.begin(); it != backends.end(); it++)]. *)
Fixpoint route_session_write_loop (sescmd : SessionCommand)
    (expecting_response : bool) (bs : list RWBackend) (acc : session_write_acc)
  : list RWBackend * session_write_acc :=
  match bs with
  | [] => ([], acc)
  | backend :: rest =>
      let '(backend', acc1) :=
        route_session_write_backend sescmd expecting_response backend acc in
      let '(rest', acc2) :=
        route_session_write_loop sescmd expecting_response rest acc1 in
      (backend' :: rest', acc2)
  end.

Definition history_limit_warning : string :=
  "Router session exceeded session command history limit. Server reconnection is disabled and only servers with consistent session state are used for the duration ofthe session. To disable this warning and the session command history, add `disable_sescmd_history=true` to service '%s'. To increase the limit (currently %lu), add `max_sescmd_history` to the same service and increase the value.".

(** [RWSplitSession::route_session_write]: executes a session command in
    the backends the session uses and saves it in the history. *)
Definition route_session_write (querybuf : GWBUF) (command : byte) (type : N) : M bool :=
  (* The SessionCommand takes ownership of the buffer *)
  let* id := gets sescmd_count in
  modify (fun s => set_sescmd_count (incr64 (sescmd_count s)) s) ;;;
  let is_prepare :=
    qc_query_is_type type QUERY_TYPE_PREPARE_NAMED_STMT ||
    qc_query_is_type type QUERY_TYPE_PREPARE_STMT in
  (* the session command and the caller share the buffer *)
  let querybuf := if is_prepare
                  then gwbuf_set_type querybuf GWBUF_TYPE_COLLECT_RESULT
                  else querybuf in
  let sescmd := {| m_buffer := querybuf; m_pos := id |} in
  let expecting_response := mxs_mysql_command_will_respond command in
  when is_prepare
    (modify (fun s => set_ps_manager (ps_manager s ++ [(querybuf, id)]) s)) ;;;
  MXS_INFO "Session write, routing to all servers." ;;;
  let* acc :=
    (fun s =>
       let '(bs, acc) :=
         route_session_write_loop sescmd expecting_response (backends s)
           {| nsucc := 0; lowest_pos := id;
              acc_expected_responses := expected_responses s;
              acc_log := mxs_log (process s) |} in
       (acc, set_process (set_mxs_log (acc_log acc) (process s))
               (set_expected_responses (acc_expected_responses acc)
                  (set_backends bs s)))) in
  let* limit := gets (fun s => max_sescmd_history (rses_config s)) in
  let* size := gets (fun s => N.of_nat (length (sescmd_list s))) in
  when ((0 <? limit)%N && (limit <=? size)%N)
    (let* warn := gets (fun s => warn_history_exceeded (process s)) in
     when warn
       (MXS_WARNING history_limit_warning ;;;
        modify (fun s => set_process (set_warn_history_exceeded false (process s)) s)) ;;;
     modify (fun s => set_rses_config
                        (set_max_sescmd_history 0
                           (set_disable_sescmd_history true (rses_config s))) s) ;;;
     modify (set_sescmd_list [])) ;;;
  let* disabled := gets (fun s => disable_sescmd_history (rses_config s)) in
  (if disabled then
     (* Prune stored responses *)
     let* it := gets (fun s => lower_bound (lowest_pos acc) (sescmd_responses s)) in
     match it with
     | Some k => modify (fun s => set_sescmd_responses
                                    (erase_before k (sescmd_responses s)) s)
     | None => ret tt
     end
   else
     purge_history sescmd ;;;
     modify (fun s => set_sescmd_list (sescmd_list s ++ [sescmd]) s)) ;;;
  when (negb (nsucc acc =? 0)%Z)
    (modify (set_sent_sescmd id) ;;;
     when (negb expecting_response)
       (* The command doesn't generate a response so the completed session
          command count is incremented *)
       (modify (fun s => set_recv_sescmd (incr64 (recv_sescmd s)) s))) ;;;
  ret (negb (nsucc acc =? 0)%Z).

(** ** C library functions on strings *)

Definition tolower (c : ascii) : ascii :=
  let n := N_of_ascii c in
  if ((65 <=? n) && (n <=? 90))%N then ascii_of_N (n + 32) else c.

Fixpoint string_tolower (s : string) : string :=
  match s with
  | EmptyString => EmptyString
  | String c rest => String (tolower c) (string_tolower rest)
  end.

(** [strcasecmp(a, b) == 0]. *)
Definition strcasecmp_eq (a b : string) : bool :=
  bool_decide (string_tolower a = string_tolower b).

(** [strncasecmp(a, b, strlen(b)) == 0]: [b] is a prefix of [a], letter
    case ignored. *)
Definition strncasecmp_prefix (a b : string) : bool :=
  String.prefix (string_tolower b) (string_tolower a).

Definition isspace (c : ascii) : bool :=
  let n := N_of_ascii c in ((n =? 32) || ((9 <=? n) && (n <=? 13)))%N.

Definition digit_of (c : ascii) : option Z :=
  let n := N_of_ascii c in
  if ((48 <=? n) && (n <=? 57))%N then Some (Z.of_N n - 48)%Z else None.

Fixpoint skip_spaces (s : string) : string :=
  match s with
  | String c rest => if isspace c then skip_spaces rest else s
  | EmptyString => s
  end.

Fixpoint read_digits (acc : Z) (s : string) : Z :=
  match s with
  | String c rest =>
      match digit_of c with
      | Some d => read_digits (10 * acc + d)%Z rest
      | None => acc
      end
  | EmptyString => acc
  end.

Definition LONG_MAX : Z := (2 ^ 63 - 1)%Z.
Definition LONG_MIN : Z := (- 2 ^ 63)%Z.
Definition ERANGE : Z := 34%Z.

(** [strtol(s, NULL, 10)]: the value, clamped to the range of [long], and
    whether it was out of range (then [errno] is set to [ERANGE]). *)
Definition strtol (s : string) : Z * bool :=
  let s := skip_spaces s in
  let '(neg, s) :=
    match s with
    | String "-" rest => (true, rest)
    | String "+" rest => (false, rest)
    | _ => (false, s)
    end in
  let v := read_digits 0 s in
  let v := if neg then (- v)%Z else v in
  if (LONG_MAX <? v)%Z then (LONG_MAX, true)
  else if (v <? LONG_MIN)%Z then (LONG_MIN, true)
  else (v, false).

(** ** Helpers of the session that live in other files *)

(** Modelled from the spec: the session is locked to the master when its
    locked backend is the current primary; [locked_to_master] of
    [rwsplitsession.hh] is missing. *)
Definition locked_to_master (s : RWSplitSession) : bool :=
  match current_master s with
  | Some m => bool_decide (target_node s = Some m)
  | None => false
  end.

(** Modelled from the spec: [max_slave_replication_lag] is unlimited when
    negative; [get_max_replication_lag] is missing. *)
Definition get_max_replication_lag (s : RWSplitSession) : Z :=
  let conf := max_slave_replication_lag (rses_config s) in
  if (conf <? 0)%Z then MAX_RLAG_UNDEFINED else conf.

(** Modelled from the spec: the session's slave count, the backends in use
    that are replicas; [get_slave_counts] is missing.  The first component
    counts the replicas that could be used, the second the connected ones. *)
Definition get_slave_counts (bs : list RWBackend) (master : option nat) : Z * Z :=
  let slaves := filter (fun b => Backend.is_slave b = true) bs in
  (Z.of_nat (length (filter (fun b => Backend.in_use b = true ∨
                                      Backend.can_connect b = true) slaves)),
   Z.of_nat (length (filter (fun b => Backend.in_use b = true) slaves))).

(** Modelled from the spec: the cluster's unique primary backend;
    [get_root_master] is missing. *)
Definition get_root_master (bs : list RWBackend) : option nat :=
  fst <$> list_find (fun b => Backend.is_master b = true) bs.

(** Modelled from the spec: replies to the client with a "read-only" error;
    [send_readonly_error] is missing.  It reports whether the error packet
    was made and sent. *)
Definition send_readonly_error : M bool :=
  let* ok := gets (fun s => dcb_reply_ok (client_dcb s)) in
  when ok
    (modify (fun s => set_client_dcb
               (set_dcb_replies (dcb_replies (client_dcb s) ++ [READONLY_ERROR])
                  (client_dcb s)) s)) ;;;
  ret ok.

(** Modelled from the spec: a read marked retryable is archived so that a
    failed replica can be retried on another; [session_store_stmt] is
    missing.  The archive holds the most recent packet. *)
Definition session_store_stmt (buf : GWBUF) (srv : SERVER) : M bool :=
  modify (fun s => set_client_dcb
            (set_session
               {| trx_active := trx_active (session (client_dcb s));
                  trx_read_only := trx_read_only (session (client_dcb s));
                  trx_ending := trx_ending (session (client_dcb s));
                  stmt := Some (gwbuf_clone buf, srv) |}
               (client_dcb s)) s) ;;;
  ret true.

(** Modelled from the spec: an ignorable ping is issued to an idle backend;
    [modutil_ignorable_ping] is missing. *)
Definition modutil_ignorable_ping (b : RWBackend) : RWBackend :=
  set_b_pings (S (b_pings b)) b.

(** Modelled from the spec: if the target is ALL, the statement takes the
    append-and-broadcast flow of the session command log;
    [handle_target_is_all] is missing. *)
Definition handle_target_is_all (route_target : route_target_t) (querybuf : GWBUF)
    (command : byte) (qtype : N) : M bool :=
  route_session_write (gwbuf_clone querybuf) command qtype.

(** [atomic_add_uint64(&counter, 1)] on the router's counters. *)
Definition add_n_master (s : RWSplitSession) : RWSplitSession :=
  set_router (set_stats {| n_master := incr64 (n_master (stats (router s)));
                           n_slave := n_slave (stats (router s));
                           n_queries := n_queries (stats (router s)) |}
                (router s)) s.

Definition add_n_slave (s : RWSplitSession) : RWSplitSession :=
  set_router (set_stats {| n_master := n_master (stats (router s));
                           n_slave := incr64 (n_slave (stats (router s)));
                           n_queries := n_queries (stats (router s)) |}
                (router s)) s.

Definition add_n_queries (s : RWSplitSession) : RWSplitSession :=
  set_router (set_stats {| n_master := n_master (stats (router s));
                           n_slave := n_slave (stats (router s));
                           n_queries := incr64 (n_queries (stats (router s))) |}
                (router s)) s.

Inductive backend_type_t := BE_UNDEFINED | BE_MASTER | BE_JOINED | BE_SLAVE.

#[global] Instance backend_type_eq_dec : EqDecision backend_type_t.
Proof. solve_decision. Defined.

(** The classification of a statement that [route_single_stmt] receives. *)
Record RouteInfo := {
  ri_target : route_target_t;
  ri_command : byte;
  ri_type : N;
  ri_stmt_id : N
}.

(** ** Statement routing *)

Section Routing.

(** The comparator table [criteria_cmpfun], indexed by the selection
    criterion, is defined in another file. *)
Context (criteria_cmpfun : N -> RWBackend -> RWBackend -> Z).

(** [compare_backends]: the backend with the smaller value for the
    selection criterion; if either reference is null, the other one. *)
Definition compare_backends (s : RWSplitSession) (a b : option nat) (sc : N)
  : option nat :=
  match a, b with
  | None, _ => b
  | _, None => a
  | Some ia, Some ib =>
      if (criteria_cmpfun sc (backend_at s ia) (backend_at s ib) <=? 0)%Z
      then a else b
  end.

(** Which backends [handle_connection_keepalive] pings. *)
Definition keepalive_due (s : RWSplitSession) (target : option nat)
    (i : nat) (backend : RWBackend) : bool :=
  (* Each heartbeat is 1/10th of a second *)
  let keepalive := (connection_keepalive (rses_config s) * 10)%Z in
  Backend.in_use backend && negb (bool_decide (Some i = target)) &&
  negb (Backend.is_waiting_result backend) &&
  (let diff := to_int32 (hkheartbeat (process s) - b_last_read backend) in
   (keepalive <? diff)%Z).

Definition handle_connection_keepalive (target : option nat) : M unit :=
  fun s =>
    let due := keepalive_due s target in
    (tt,
     set_process
       (set_mxs_log
          (mxs_log (process s) ++
           concat (imap (fun i b => if due i b
                                    then [(LOG_INFO, "Pinging %s, idle for %ld seconds")]
                                    else []) (backends s)))
          (process s))
       (set_backends
          (imap (fun i b => if due i b then modutil_ignorable_ping b else b)
             (backends s)) s)).

Definition prepare_target (target : nat) (route_target : route_target_t) : M bool :=
  let* t := gets (fun s => backend_at s target) in
  (* Check if we need to connect to the server in order to use it *)
  if negb (Backend.in_use t) && Backend.can_connect t then
    let* cfg := gets rses_config in
    if TARGET_IS_SLAVE route_target ||
       (master_reconnection cfg && TARGET_IS_MASTER route_target) then
      let* recv := gets recv_sescmd in
      if negb (disable_sescmd_history cfg) || (recv =? 0)%N then
        let* log := gets sescmd_list in
        on_backend target (Backend.connect log)
      else
        MXS_ERROR "Cannot reconnect to server '%s', session command history is disabled (session has executed %lu session commands)." ;;;
        ret true
    else if TARGET_IS_MASTER route_target then
      MXS_ERROR "The connection to the master was lost and the connection could be recreated but 'master_reconnection' is not enabled." ;;;
      ret false
    else ret true
  else ret true.

(** Check if replication lag is below acceptable levels. *)
Definition rpl_lag_is_ok (backend : RWBackend) (max_rlag : Z) : bool :=
  bool_decide (max_rlag = MAX_RLAG_UNDEFINED) ||
  (negb (bool_decide (rlag (Backend.server backend) = MAX_RLAG_NOT_AVAILABLE)) &&
   (rlag (Backend.server backend) <=? max_rlag)%Z).

Definition get_hinted_backend (name : string) (s : RWSplitSession) : option nat :=
  (* The server must be a valid slave, relay server, or master *)
  fst <$> list_find
    (fun backend =>
       Backend.in_use backend && strcasecmp_eq name (Backend.name backend) &&
       (Backend.is_slave backend || Backend.is_relay backend ||
        Backend.is_master backend) = true)
    (backends s).

(** One iteration of the loop of [get_slave_backend], for the backend
    [backend] at the index [i]. *)
Definition get_slave_backend_step (s : RWSplitSession) (max_rlag : Z)
    (counts : Z * Z) (rval : option nat) (i : nat) (backend : RWBackend)
  : option nat :=
  if (Backend.is_master backend || Backend.is_slave backend) && (* Either a master or a slave *)
     rpl_lag_is_ok backend max_rlag                             (* Not lagging too much *)
  then
    match rval with
    | None =>
        (* No previous candidate, accept any valid server (includes master) *)
        if (Backend.is_master backend && bool_decide (Some i = current_master s)) ||
           Backend.is_slave backend
        then Some i else rval
    | Some r =>
        if Backend.in_use backend || (counts.2 <? max_slave_count (router s))%Z then
          if negb (master_accept_reads (rses_config s)) &&
             Backend.is_master (backend_at s r)
          then
            (* Pick slaves over masters with master_accept_reads=false *)
            Some i
          else
            (* Compare the two servers and pick the best one *)
            compare_backends s rval (Some i)
              (slave_selection_criteria (rses_config s))
        else rval
    end
  else rval.

Fixpoint get_slave_backend_loop (s : RWSplitSession) (max_rlag : Z)
    (counts : Z * Z) (i : nat) (bs : list RWBackend) (rval : option nat)
  : option nat :=
  match bs with
  | [] => rval
  | backend :: rest =>
      get_slave_backend_loop s max_rlag counts (S i) rest
        (get_slave_backend_step s max_rlag counts rval i backend)
  end.

Definition get_slave_backend (max_rlag : Z) (s : RWSplitSession) : option nat :=
  let counts := get_slave_counts (backends s) (current_master s) in
  get_slave_backend_loop s max_rlag counts 0 (backends s) None.

Definition get_master_backend : M (option nat) :=
  (* get root master from available servers *)
  let* master := gets (fun s => get_root_master (backends s)) in
  match master with
  | Some m =>
      let* b := gets (fun s => backend_at s m) in
      if Backend.in_use b || Backend.can_connect b then
        if Backend.is_master b then ret (Some m)
        else
          MXS_ERROR "Server '%s' does not have the master state and can't be chosen as the master." ;;;
          ret None
      else
        MXS_ERROR "Server '%s' is not in use and can't be chosen as the master." ;;;
        ret None
  | None => ret None
  end.

(** Provide the router with a reference to a suitable backend. *)
Definition get_target_backend (btype : backend_type_t) (name : option string)
    (max_rlag : Z) : M (option nat) :=
  let* tn := gets target_node in
  let* ro := gets (fun s => session_trx_is_read_only (session (client_dcb s))) in
  (* Check whether using target_node as target SLAVE *)
  if bool_decide (tn ≠ None) && ro then
    MXS_DEBUG "In READ ONLY transaction, using server '%s'" ;;;
    ret tn
  else
    match name with
    | Some n => (* Choose backend by name from a hint *)
        gets (get_hinted_backend n)
    | None =>
        if bool_decide (btype = BE_SLAVE) then gets (get_slave_backend max_rlag)
        else if bool_decide (btype = BE_MASTER) then get_master_backend
        else ret None
    end.

(** The loop of [handle_hinted_target] over the hint chain, with its
    local variables [named_server] and [rlag_max]. *)
Fixpoint handle_hints (hints : list HINT) (named_server : option string)
    (rlag_max : Z) : M (option string * Z) :=
  match hints with
  | [] => ret (named_server, rlag_max)
  | hint :: next =>
      if bool_decide (hint_type hint = HINT_ROUTE_TO_NAMED_SERVER) then
        (* Set the name of searched backend server. *)
        MXS_INFO "Hint: route to server '%s'" ;;;
        handle_hints next (Some (hint_data hint)) rlag_max
      else if bool_decide (hint_type hint = HINT_PARAMETER) &&
              strncasecmp_prefix (hint_data hint) "max_slave_replication_lag" then
        let '(v, out_of_range) := strtol (hint_value hint) in
        when out_of_range
          (modify (fun s => set_process (set_errno ERANGE (process s)) s)) ;;;
        let val := to_int32 v in
        let* e := gets (fun s => errno (process s)) in
        if negb (val =? 0)%Z || (e =? 0)%Z then
          (* Set max. acceptable replication lag value for backend srv *)
          MXS_INFO "Hint: max_slave_replication_lag=%d" ;;;
          handle_hints next named_server val
        else handle_hints next named_server rlag_max
      else handle_hints next named_server rlag_max
  end.

Definition handle_hinted_target (querybuf : GWBUF) (route_target : route_target_t)
  : M (option nat) :=
  let* '(named_server, rlag_max) :=
    handle_hints (gwbuf_hint querybuf) None MAX_RLAG_UNDEFINED in
  let* rlag_max :=
    if bool_decide (rlag_max = MAX_RLAG_UNDEFINED) (* no rlag max hint, use config *)
    then gets get_max_replication_lag
    else ret rlag_max in
  (* target may be master or slave *)
  let btype := if TARGET_IS_SLAVE route_target then BE_SLAVE else BE_MASTER in
  (* Search backend server by name or replication lag. *)
  let* target := get_target_backend btype named_server rlag_max in
  when (bool_decide (target = None))
    (if TARGET_IS_NAMED_SERVER route_target then
       MXS_INFO "Was supposed to route to named server %s but couldn't find the server in a suitable state."
     else if TARGET_IS_RLAG_MAX route_target then
       MXS_INFO "Was supposed to route to server with replication lag at most %d but couldn't find such a slave."
     else ret tt) ;;;
  ret target.

(** Handle slave target type. *)
Definition handle_slave_is_target (cmd : byte) (stmt_id : N) : M (option nat) :=
  let* rlag_max := gets get_max_replication_lag in
  let* target :=
    if bool_decide (cmd = MXS_COM_STMT_FETCH) then
      (* The COM_STMT_FETCH must be executed on the same server as the
         COM_STMT_EXECUTE was executed on *)
      let* it := gets (fun s => exec_map s !! stmt_id) in
      match it with
      | Some t => MXS_INFO "COM_STMT_FETCH on %s" ;;; ret (Some t)
      | None =>
          MXS_WARNING "Unknown statement ID %u used in COM_STMT_FETCH" ;;;
          ret None
      end
    else ret None in
  let* target :=
    match target with
    | None => get_target_backend BE_SLAVE None rlag_max
    | Some _ => ret target
    end in
  match target with
  | Some _ => modify add_n_slave
  | None => MXS_INFO "Was supposed to route to slave but finding suitable one failed."
  end ;;;
  ret target.

(** Log master write failure.  In the last case the code reads
    [old_master->is_closed()]: without an old master this dereferences a
    null pointer, the message is never made and the process dies. *)
Definition log_master_routing_failure (found : bool)
    (old_master curr_master : option nat) : M unit :=
  let* s := gets id in
  let old_in_use :=
    match old_master with
    | Some o => Backend.in_use (backend_at s o)
    | None => false
    end in
  let errmsg : option string :=
    if negb found then Some "Could not find a valid master connection"
    else if bool_decide (old_master ≠ None) && bool_decide (curr_master ≠ None)
            && old_in_use then
      (* We found a master but it's not the same connection *)
      Some "Master server changed from '%s' to '%s'"
    else if bool_decide (old_master ≠ None) && old_in_use then
      (* We have an original master connection but we couldn't find it *)
      Some "The connection to master server '%s' is not available"
    else
      (* We never had a master connection, the session must be in
         read-only mode *)
      if negb (bool_decide (master_failure_mode (rses_config s) = RW_FAIL_INSTANTLY))
      then Some "Session is in read-only mode because it was created when no master was available"
      else
        match old_master with
        | Some _ =>
            Some "Was supposed to route to master but the master connection is %s"
        | None => None   (* old_master->is_closed() with a null old_master *)
        end in
  match errmsg with
  | Some errmsg =>
      MXS_WARNING ("[%s] Write query received from %s@%s. " ++ errmsg ++
                   ". Closing client connection.")
  | None => modify (fun s => set_process (set_sigsegv true (process s)) s)
  end.

Definition should_replace_master (target : option nat) (s : RWSplitSession) : bool :=
  master_reconnection (rses_config s) &&
  (* We have a target server and it's not the current master *)
  bool_decide (target ≠ None) && negb (bool_decide (target = current_master s)) &&
  (* We are not inside a transaction (also checks for autocommit=1) *)
  negb (session_trx_is_active (session (client_dcb s))) &&
  (* We are not locked to the old master *)
  negb (locked_to_master s).

Definition replace_master (target : option nat) : M unit :=
  modify (set_current_master target) ;;;
  (* As the master has changed, the temporary table information is reset *)
  modify (set_have_tmp_tables false) ;;;
  modify (set_temp_tables []).

(** Handle master is the target: the success flag and the backend stored
    in [*dest]. *)
Definition handle_master_is_target : M (bool * option nat) :=
  let* target := get_target_backend BE_MASTER None MAX_RLAG_UNDEFINED in
  let* replace := gets (should_replace_master target) in
  when replace
    (MXS_INFO "Replacing old master '%s' with new master '%s'" ;;;
     replace_master target) ;;;
  let* cm := gets current_master in
  let* succp :=
    if bool_decide (target ≠ None) && bool_decide (target = cm) then
      modify add_n_master ;;; ret true
    else
      (* The original master is not available, we can't route the write *)
      let* mode := gets (fun s => master_failure_mode (rses_config s)) in
      if bool_decide (mode = RW_ERROR_ON_WRITE) then
        let* succp := send_readonly_error in
        match cm with
        | Some m =>
            let* used := gets (fun s => Backend.in_use (backend_at s m)) in
            when used (update_backend m Backend.close)
        | None => ret tt
        end ;;;
        ret succp
      else
        log_master_routing_failure true cm target ;;;
        ret false in
  ret (succp, target).

Definition is_large_query (buf : GWBUF) : bool :=
  let buflen := wrap32 (gwbuf_length buf) in
  (* The buffer should contain at most (2^24 - 1) + 4 bytes *)
  (buflen =? MYSQL_HEADER_LEN + GW_MYSQL_MAX_PACKET_LEN)%N.

(** Modelled from the spec: the wait function is MASTER_GTID_WAIT on
    MariaDB and WAIT_FOR_EXECUTED_GTID_SET on MySQL; the macros
    [MARIADB_WAIT_GTID_FUNC] and [MYSQL_WAIT_GTID_FUNC] are missing. *)
Definition wait_gtid_func (srv : SERVER) : string :=
  if bool_decide (server_type srv = SERVER_TYPE_MARIADB)
  then "MASTER_GTID_WAIT" else "WAIT_FOR_EXECUTED_GTID_SET".

(** Modelled from the spec: the statement that wraps the wait; the format
    [gtid_wait_stmt] is missing, the text is the one of the comment in
    [add_prefix_wait_gtid]. *)
Definition gtid_wait_prefix (wait_func gtid_position timeout : string) : string :=
  "SET @maxscale_secret_variable=(SELECT CASE WHEN " ++ wait_func ++ "('" ++
  gtid_position ++ "', " ++ timeout ++
  ") = 0 THEN 1 ELSE (SELECT 1 FROM INFORMATION_SCHEMA.ENGINES) END); ".

(** Modelled from the spec: a COM_QUERY packet for a statement;
    [modutil_create_query] is missing. *)
Definition modutil_create_query (sql : string) : GWBUF :=
  {| gwbuf_data := gw_mysql_set_byte3 (N.of_nat (String.length sql) + 1) ++
                   [x00; MXS_COM_QUERY] ++ list_byte_of_string sql;
     gwbuf_type := 0;
     gwbuf_hint := [] |}.

(** Add a wait gtid query in front of the user's query to achieve a
    causal read. *)
Definition add_prefix_wait_gtid (srv : SERVER) (origin : GWBUF)
    (s : RWSplitSession) : GWBUF :=
  let prefix_sql :=
    gtid_wait_prefix (wait_gtid_func srv) (gtid_pos s)
      (causal_read_timeout (config (router s))) in
  let prefix_buff := modutil_create_query prefix_sql in
  (* Command length = 1; the subtraction is one of [size_t] *)
  let origin_sql_len :=
    wrap64 (MYSQL_GET_PAYLOAD_LEN (gwbuf_data origin) + UINT64_MOD - 1) in
  (* Trim mysql header and command *)
  let origin_data := drop (N.to_nat MYSQL_HEADER_LEN + 1) (gwbuf_data origin) in
  (* Modify total length: prefix sql len + origin sql len + command len *)
  let new_payload_len :=
    wrap64 (N.of_nat (String.length prefix_sql) + origin_sql_len + 1) in
  {| gwbuf_data := overwrite 0 (gw_mysql_set_byte3 new_payload_len)
                     (gwbuf_data prefix_buff ++ origin_data);
     gwbuf_type := gwbuf_type prefix_buff;
     gwbuf_hint := gwbuf_hint prefix_buff |}.

(** Handle writing to a target server. *)
Definition handle_got_target (querybuf : GWBUF) (target : nat) (store : bool)
  : M bool :=
  (* If the transaction is READ ONLY set forced_node to this backend. This
     SLAVE backend will be used until the COMMIT is seen. *)
  let* tn := gets target_node in
  let* ro := gets (fun s => session_trx_is_read_only (session (client_dcb s))) in
  when (bool_decide (tn = None) && ro)
    (modify (set_target_node (Some target)) ;;;
     MXS_DEBUG "Setting forced_node SLAVE to %s within an opened READ ONLY transaction") ;;;
  MXS_INFO "Route query to %s \t%s <" ;;;
  modify (set_wait_gtid_state EXPECTING_NOTHING) ;;;
  let cmd := mxs_mysql_get_command querybuf in
  let* causal := gets (fun s => bool_decide (cmd = MXS_COM_QUERY) &&
                                enable_causal_read (config (router s)) &&
                                negb (bool_decide (gtid_pos s = ""))) in
  let* send_buf :=
    if causal then
      let* buf := gets (fun s => add_prefix_wait_gtid
                                   (Backend.server (backend_at s target))
                                   (gwbuf_clone querybuf) s) in
      modify (set_wait_gtid_state EXPECTING_WAIT_GTID_RESULT) ;;;
      ret buf
    else ret (gwbuf_clone querybuf) in
  let* lds := gets load_data_state in
  let response :=
    if negb (bool_decide (lds = LOAD_DATA_ACTIVE)) &&
       mxs_mysql_command_will_respond cmd
    then EXPECT_RESPONSE else NO_RESPONSE in
  let large := is_large_query querybuf in
  let* written := on_backend target (Backend.write send_buf response) in
  if written then
    when store
      (let* stored := (let* srv := gets (fun s => Backend.server (backend_at s target)) in
                       session_store_stmt querybuf srv) in
       when (negb stored)
         (MXS_ERROR "Failed to store current statement, it won't be retried if it fails.")) ;;;
    modify add_n_queries ;;;
    when (negb large && bool_decide (response = EXPECT_RESPONSE))
      ((* The server will reply to this command *)
       update_backend target (Backend.set_reply_state REPLY_STATE_START) ;;;
       modify (fun s => set_expected_responses (expected_responses s + 1)%Z s) ;;;
       let* lds := gets load_data_state in
       if bool_decide (lds = LOAD_DATA_START) then
         (* The first packet contains the actual query and the server
            will respond to it *)
         modify (set_load_data_state LOAD_DATA_ACTIVE)
       else if bool_decide (lds = LOAD_DATA_END) then
         (* The final packet in a LOAD DATA LOCAL INFILE is an empty packet
            to which the server responds with an OK or an ERR packet *)
         modify (set_load_data_state LOAD_DATA_INACTIVE)
       else ret tt) ;;;
    modify (set_large_query large) ;;;
    (if large then
       (* Store the previous target as we're processing a multi-packet query *)
       modify (set_prev_target (Some target))
     else
       (* Otherwise reset it so we know the query is complete *)
       modify (set_prev_target None)) ;;;
    (* If a READ ONLY transaction is ending set forced_node to NULL *)
    let* tn := gets target_node in
    let* ses := gets (fun s => session (client_dcb s)) in
    when (bool_decide (tn ≠ None) && session_trx_is_read_only ses &&
          session_trx_is_ending ses)
      (MXS_DEBUG "An opened READ ONLY transaction ends: forced_node is set to NULL" ;;;
       modify (set_target_node None)) ;;;
    ret true
  else
    MXS_ERROR "Routing query failed." ;;;
    ret false.

(** The part of [route_single_stmt] that finds the target of a statement
    that is not routed to all servers: the success flag, the target and
    [store_stmt]. *)
Definition route_single_stmt_target (querybuf : GWBUF) (info : RouteInfo)
  : M (bool * option nat * bool) :=
  let route_target := ri_target info in
  let* large := gets large_query in
  if large then
    (* We're processing a large query that's split across multiple packets.
       Route it to the same backend where we routed the previous packet. *)
    let* target := gets prev_target in
    ret (true, target, false)
  else if TARGET_IS_NAMED_SERVER route_target || TARGET_IS_RLAG_MAX route_target then
    (* There is a hint which either names the target backend or hint which
       sets maximum allowed replication lag for the backend. *)
    let* target := handle_hinted_target querybuf route_target in
    ret (bool_decide (target ≠ None), target, false)
  else if TARGET_IS_SLAVE route_target then
    let* target := handle_slave_is_target (ri_command info) (ri_stmt_id info) in
    match target with
    | Some _ =>
        let* store_stmt := gets (fun s => retry_failed_reads (rses_config s)) in
        ret (true, target, store_stmt)
    | None => ret (false, target, false)
    end
  else if TARGET_IS_MASTER route_target then
    let* '(succp, target) := handle_master_is_target in
    let* relaxed := gets (fun s =>
      negb (strict_multi_stmt (rses_config s)) &&
      negb (strict_sp_calls (rses_config s)) &&
      bool_decide (target_node s = current_master s)) in
    when relaxed
      ((* Reset the forced node as we're in relaxed multi-statement mode *)
       modify (set_target_node None)) ;;;
    ret (succp, target, false)
  else ret (false, None, false).

(** The part of [route_single_stmt] that routes a statement to the target
    that was found. *)
Definition route_single_stmt_dispatch (querybuf : GWBUF) (info : RouteInfo)
    (not_locked_to_master : bool) (target : nat) (store_stmt : bool) : M bool :=
  let* prepared := prepare_target target (ri_target info) in
  if negb prepared then
    (* The connection to target was down and we failed to reconnect *)
    ret false
  else
    let* pending := gets (fun s => Backend.have_session_commands (backend_at s target)) in
    if pending then
      (* We need to wait until the session commands are executed *)
      modify (fun s => set_expected_responses (expected_responses s + 1)%Z s) ;;;
      modify (fun s => set_query_queue
                         (gwbuf_append (query_queue s) (gwbuf_clone querybuf)) s) ;;;
      ret true
    else
      (* Target server was found and is in the correct state *)
      let* succp := handle_got_target querybuf target store_stmt in
      when (succp && bool_decide (ri_command info = MXS_COM_STMT_EXECUTE) &&
            not_locked_to_master)
        ((* Track the targets of the COM_STMT_EXECUTE statements. This
            information is used to route all COM_STMT_FETCH commands to the
            same server where the COM_STMT_EXECUTE was done. *)
         modify (fun s => set_exec_map (<[ri_stmt_id info := target]> (exec_map s)) s) ;;;
         MXS_INFO "COM_STMT_EXECUTE on %s") ;;;
      ret succp.

(** Routing function.  Finds the target of the statement and routes the
    statement to it. *)
Definition route_single_stmt (querybuf : GWBUF) (info : RouteInfo) : M bool :=
  let command := ri_command info in
  let route_target := ri_target info in
  let* not_locked_to_master := gets (fun s => negb (locked_to_master s)) in
  let querybuf :=
    if not_locked_to_master && mxs_mysql_is_ps_command command then
      (* Replace the client statement ID with our internal one only if the
         target node is not the current master *)
      replace_binary_ps_id querybuf (ri_stmt_id info)
    else querybuf in
  let* '(succp, target) :=
    if TARGET_IS_ALL route_target then
      let* succp := handle_target_is_all route_target querybuf command (ri_type info) in
      ret (succp, None)
    else
      let* '(succp, target, store_stmt) := route_single_stmt_target querybuf info in
      match target with
      | Some t =>
          if succp then
            let* succp := route_single_stmt_dispatch querybuf info
                            not_locked_to_master t store_stmt in
            ret (succp, target)
          else ret (succp, target)
      | None => ret (succp, target)
      end in
  let* keepalive := gets (fun s => connection_keepalive (config (router s))) in
  when (succp && negb (keepalive =? 0)%Z &&
        (TARGET_IS_SLAVE route_target || TARGET_IS_MASTER route_target))
    (handle_connection_keepalive target) ;;;
  ret succp.

End Routing.

(** * Properties of the router session *)

(** ** Definitions the statements use *)

(** The number of elements of [l] that satisfy [P]. *)
Definition occ {A} (P : A -> Prop) `{!∀ x, Decision (P x)} (l : list A) : nat :=
  length (filter P l).

(** The same payload as [x]. *)
Definition same_payload (x y : SessionCommand) : Prop := payload y = payload x.

#[global] Instance same_payload_dec x y : Decision (same_payload x y).
Proof. unfold same_payload. apply _. Defined.

(** The history after [purge_history sescmd], as a function of the history
    before. *)
Definition purge_list (sescmd : SessionCommand) (l : list SessionCommand)
  : list SessionCommand :=
  if bool_decide (get_command sescmd ≠ MXS_COM_STMT_PREPARE) then
    match list_find (equal_pointees sescmd) l with
    | Some (first, _) =>
        match list_find (equal_pointees sescmd) (drop (S first) l) with
        | Some (off, _) => delete (S first + off)%nat l
        | None => l
        end
    | None => l
    end
  else l.

(** The history that [purge_history] and [push_back] leave. *)
Definition history_append (sescmd : SessionCommand) (l : list SessionCommand)
  : list SessionCommand := purge_list sescmd l ++ [sescmd].

(** The pruning law: between two commands with equal payload there is no
    third command with that payload. *)
Definition pruning_law (l : list SessionCommand) : Prop :=
  ∀ i j k a b c,
    (i < j < k)%nat → l !! i = Some a → l !! j = Some b → l !! k = Some c →
    payload a = payload b → payload b = payload c → False.

(** The pruning law for the commands that are not a COM_STMT_PREPARE. *)
Definition pruning_law_text (l : list SessionCommand) : Prop :=
  ∀ i j k a b c,
    (i < j < k)%nat → l !! i = Some a → l !! j = Some b → l !! k = Some c →
    payload a = payload b → payload b = payload c →
    get_command a = MXS_COM_STMT_PREPARE.

(** The buffer of the session command that [route_session_write] builds. *)
Definition new_buffer (querybuf : GWBUF) (type : N) : GWBUF :=
  if qc_query_is_type type QUERY_TYPE_PREPARE_NAMED_STMT ||
     qc_query_is_type type QUERY_TYPE_PREPARE_STMT
  then gwbuf_set_type querybuf GWBUF_TYPE_COLLECT_RESULT else querybuf.

(** The session command that [route_session_write] builds in the session
    [s]. *)
Definition new_session_command (querybuf : GWBUF) (type : N) (s : RWSplitSession)
  : SessionCommand :=
  {| m_buffer := new_buffer querybuf type; m_pos := sescmd_count s |}.

(** The test of [route_session_write] for the history limit. *)
Definition history_limit_exceeded (s : RWSplitSession) : bool :=
  (0 <? max_sescmd_history (rses_config s))%N &&
  (max_sescmd_history (rses_config s) <=? N.of_nat (length (sescmd_list s)))%N.

(** The loop of [route_session_write] as the session [s] runs it. *)
Definition session_write_loop (querybuf : GWBUF) (command : byte) (type : N)
    (s : RWSplitSession) : list RWBackend * session_write_acc :=
  route_session_write_loop (new_session_command querybuf type s)
    (mxs_mysql_command_will_respond command) (backends s)
    {| nsucc := 0; lowest_pos := sescmd_count s;
       acc_expected_responses := expected_responses s;
       acc_log := mxs_log (process s) ++
                  [(LOG_INFO, "Session write, routing to all servers.")] |}.

(** What one iteration of the loop of [route_session_write] does to a
    backend: a backend in use has the command appended to its queue and the
    head of the queue executed; whether the execution succeeded. *)
Definition session_write_result (sescmd : SessionCommand) (b : RWBackend)
  : bool * RWBackend :=
  if Backend.in_use b
  then Backend.execute_session_command (Backend.append_session_command sescmd b)
  else (false, b).

(** The lowest position the loop of [route_session_write] has seen after
    the backend [b]. *)
Definition session_write_lowest (sescmd : SessionCommand) (lowest : N) (b : RWBackend) : N :=
  if Backend.in_use b then
    let current_pos :=
      match Backend.next_session_command (Backend.append_session_command sescmd b) with
      | Some c => get_position c
      | None => lowest
      end in
    if (current_pos <? lowest)%N then current_pos else lowest
  else lowest.

(** The lowest pending position of a session write: the position of the
    new command or, if lower, the position of the command at the head of
    the queue of a backend in use. *)
Definition lowest_pending (querybuf : GWBUF) (type : N) (s : RWSplitSession) : N :=
  fold_left (session_write_lowest (new_session_command querybuf type s))
    (backends s) (sescmd_count s).

Definition is_warning (e : log_level * string) : Prop := e.1 = LOG_WARNING.

#[global] Instance is_warning_dec e : Decision (is_warning e).
Proof. unfold is_warning. apply _. Defined.

(** The messages a call has logged: the log of [s'] after the log of [s]. *)
Definition logged (s s' : RWSplitSession) : list (log_level * string) :=
  drop (length (mxs_log (process s))) (mxs_log (process s')).

(** The session commands of a session: those of the history and those in
    the queue of a backend. *)
Definition session_command_of (s : RWSplitSession) (c : SessionCommand) : Prop :=
  c ∈ sescmd_list s ∨ ∃ b, b ∈ backends s ∧ c ∈ b_session_commands b.

(** Every session command of the session has a position below the next
    position. *)
Definition positions_fresh (s : RWSplitSession) : Prop :=
  ∀ c, session_command_of s c → (get_position c < sescmd_count s)%N.

(** The backends [get_slave_backend] considers: a master or a slave that is
    not lagging too much. *)
Definition slave_eligible (backend : RWBackend) (max_rlag : Z) : bool :=
  (Backend.is_master backend || Backend.is_slave backend) &&
  rpl_lag_is_ok backend max_rlag.

(** The first backend, from the index [i] on, that [get_slave_backend]
    accepts while it has no candidate: the first eligible backend that is a
    slave or the current master. *)
Fixpoint first_candidate_from (s : RWSplitSession) (max_rlag : Z) (i : nat)
    (bs : list RWBackend) : option nat :=
  match bs with
  | [] => None
  | backend :: rest =>
      if slave_eligible backend max_rlag &&
         ((Backend.is_master backend && bool_decide (Some i = current_master s)) ||
          Backend.is_slave backend)
      then Some i
      else first_candidate_from s max_rlag (S i) rest
  end.

Definition first_candidate (s : RWSplitSession) (max_rlag : Z) : option nat :=
  first_candidate_from s max_rlag 0 (backends s).

(** The session's slave count is below [max_slave_count]. *)
Definition slave_count_below_max (s : RWSplitSession) : bool :=
  ((get_slave_counts (backends s) (current_master s)).2 <? max_slave_count (router s))%Z.

(** The buffer [route_single_stmt] routes: the statement id of a prepared
    statement command is replaced unless the session is locked to the
    master. *)
Definition routed_buffer (querybuf : GWBUF) (info : RouteInfo) (s : RWSplitSession)
  : GWBUF :=
  if negb (locked_to_master s) && mxs_mysql_is_ps_command (ri_command info)
  then replace_binary_ps_id querybuf (ri_stmt_id info)
  else querybuf.

(** What finding and preparing a target leaves alone: the expected
    responses, the query queue, the map of executed statements, the state
    of a large query, the transaction of the client and what was written
    to each backend. *)
Definition routing_frame (s s' : RWSplitSession) : Prop :=
  exec_map s' = exec_map s ∧
  query_queue s' = query_queue s ∧
  expected_responses s' = expected_responses s ∧
  large_query s' = large_query s ∧
  prev_target s' = prev_target s ∧
  session (client_dcb s') = session (client_dcb s) ∧
  ∀ i, b_written (backend_at s' i) = b_written (backend_at s i).

(** The session after the packets [pkts], each with its classification,
    routed one after the other by [route_single_stmt]. *)
Fixpoint route_packets (cmp : N -> RWBackend -> RWBackend -> Z)
    (pkts : list (GWBUF * RouteInfo)) (s : RWSplitSession) : RWSplitSession :=
  match pkts with
  | [] => s
  | (querybuf, info) :: rest =>
      route_packets cmp rest (route_single_stmt cmp querybuf info s).2
  end.

(** ** Example data *)

Definition mk_packet (cmd : byte) (text : string) : GWBUF :=
  {| gwbuf_data := gw_mysql_set_byte3 (N.of_nat (String.length text) + 1) ++
                   [x00; cmd] ++ list_byte_of_string text;
     gwbuf_type := 0;
     gwbuf_hint := [] |}.

Definition use_test : GWBUF := mk_packet MXS_COM_INIT_DB "test".
Definition set_myvar : GWBUF :=
  mk_packet MXS_COM_QUERY "SET @myvar = (SELECT COUNT(*) FROM t1)".
Definition prepare_select : GWBUF := mk_packet MXS_COM_STMT_PREPARE "SELECT 1".
Definition select_one : GWBUF := mk_packet MXS_COM_QUERY "SELECT 1".

Definition example_server (name : string) (role : server_role) : SERVER :=
  {| unique_name := name; srv_role := role; rlag := 0; srv_reachable := true;
     server_type := SERVER_TYPE_MARIADB |}.

Definition example_backend (name : string) (role : server_role) (used : bool)
  : RWBackend :=
  {| b_server := example_server name role;
     b_in_use := used; b_closed := negb used; b_waiting_result := false;
     b_reply_state := REPLY_STATE_DONE; b_cursor := 0;
     b_session_commands := []; b_last_read := 0; b_written := []; b_pings := 0;
     b_connect_ok := true; b_write_ok := true |}.

Definition example_config : Config :=
  {| slave_selection_criteria := 0;
     max_slave_replication_lag := (-1)%Z;
     master_accept_reads := false;
     master_reconnection := false;
     master_failure_mode := RW_FAIL_INSTANTLY;
     strict_multi_stmt := true;
     strict_sp_calls := true;
     retry_failed_reads := true;
     connection_keepalive := 300%Z;
     disable_sescmd_history := false;
     max_sescmd_history := 50;
     enable_causal_read := false;
     causal_read_timeout := "10" |}.

Definition example_router : RWSplit :=
  {| config := example_config;
     stats := {| n_master := 0; n_slave := 0; n_queries := 0 |};
     max_slave_count := 255%Z;
     service_name := "RW-Split-Router" |}.

Definition example_client : DCB :=
  {| user := "maxuser"; remote := "127.0.0.1";
     session := {| trx_active := false; trx_read_only := false;
                   trx_ending := false; stmt := None |};
     dcb_replies := []; dcb_reply_ok := true |}.

Definition example_process : Process :=
  {| hkheartbeat := 0%Z; errno := 0%Z; mxs_log := []; warn_history_exceeded := true;
     sigsegv := false |}.

(** A new session with a master and two slaves; the master and the first
    slave are connected. *)
Definition example_session : RWSplitSession :=
  {| backends := [example_backend "server1" ROLE_MASTER true;
                  example_backend "server2" ROLE_SLAVE true;
                  example_backend "server3" ROLE_SLAVE false];
     current_master := Some 0%nat;
     target_node := None;
     prev_target := None;
     large_query := false;
     rses_config := example_config;
     load_data_state := LOAD_DATA_INACTIVE;
     have_tmp_tables := false;
     temp_tables := [];
     wait_gtid_state := EXPECTING_NOTHING;
     gtid_pos := "";
     sescmd_list := [];
     sescmd_responses := ∅;
     sescmd_count := 1;
     sent_sescmd := 0;
     recv_sescmd := 0;
     expected_responses := 0%Z;
     query_queue := [];
     exec_map := ∅;
     ps_manager := [];
     router := example_router;
     client_dcb := example_client;
     process := example_process |}.

(** The session after the session writes [bufs], each with the type bitmap
    of the classifier, routed one after the other. *)
Fixpoint session_writes (bufs : list (GWBUF * N)) (s : RWSplitSession)
  : RWSplitSession :=
  match bufs with
  | [] => s
  | (buf, type) :: rest =>
      session_writes rest
        (route_session_write buf (mxs_mysql_get_command buf) type s).2
  end.

(** A session whose history holds USE, SET and USE. *)
Definition session_use_set_use : RWSplitSession :=
  session_writes [(use_test, 0%N); (set_myvar, 0%N); (use_test, 0%N)] example_session.

(** A session that has prepared the same statement three times. *)
Definition session_three_prepares : RWSplitSession :=
  session_writes [(prepare_select, QUERY_TYPE_PREPARE_STMT);
                  (prepare_select, QUERY_TYPE_PREPARE_STMT);
                  (prepare_select, QUERY_TYPE_PREPARE_STMT)] example_session.

Definition ok_packet : GWBUF :=
  {| gwbuf_data := [x07; x00; x00; x01; x00; x00; x00; x02; x00; x00; x00];
     gwbuf_type := 0; gwbuf_hint := [] |}.

(** A session whose history, USE, SET and USE, has reached a limit of
    three commands. *)
Definition session_at_limit : RWSplitSession :=
  set_rses_config (set_max_sescmd_history 3 example_config) session_use_set_use.

(** A later session of the process [p]: its history has reached the limit
    of three commands, every backend has executed them, and the responses
    to the three commands are stored. *)
Definition later_session_at_limit (p : Process) : RWSplitSession :=
  set_process p
    (set_sescmd_responses {[ 1%N := ok_packet; 2%N := ok_packet; 3%N := ok_packet ]}
       session_at_limit).

(** A session that has executed a session command and whose history is
    disabled. *)
Definition session_history_disabled : RWSplitSession :=
  set_recv_sescmd 1
    (set_rses_config (set_disable_sescmd_history true example_config) example_session).


(** A session at its slave limit of one that has lost its master: server2
    is connected and lags too much, server3 is not connected. *)
Definition session_slave_limit : RWSplitSession :=
  set_router {| config := example_config;
                stats := {| n_master := 0; n_slave := 0; n_queries := 0 |};
                max_slave_count := 1%Z;
                service_name := "RW-Split-Router" |}
    (set_backends
       [example_backend "server3" ROLE_SLAVE false;
        {| b_server := {| unique_name := "server2"; srv_role := ROLE_SLAVE;
                          rlag := 100%Z; srv_reachable := true;
                          server_type := SERVER_TYPE_MARIADB |};
           b_in_use := true; b_closed := false; b_waiting_result := false;
           b_reply_state := REPLY_STATE_DONE; b_cursor := 0;
           b_session_commands := []; b_last_read := 0; b_written := [];
           b_pings := 0; b_connect_ok := true; b_write_ok := true |}]
       (set_current_master None example_session)).

(** A session that has only its master. *)
Definition session_master_only : RWSplitSession :=
  set_backends [example_backend "server1" ROLE_MASTER true] example_session.


(** A session with a history of three commands whose connected slave lags;
    server3, which is not connected, is the better slave. *)
Definition session_new_slave : RWSplitSession :=
  set_backends
    [example_backend "server1" ROLE_MASTER true;
     {| b_server := {| unique_name := "server2"; srv_role := ROLE_SLAVE;
                       rlag := 5%Z; srv_reachable := true;
                       server_type := SERVER_TYPE_MARIADB |};
        b_in_use := true; b_closed := false; b_waiting_result := false;
        b_reply_state := REPLY_STATE_DONE; b_cursor := 0;
        b_session_commands := []; b_last_read := 0; b_written := [];
        b_pings := 0; b_connect_ok := true; b_write_ok := true |};
     example_backend "server3" ROLE_SLAVE false]
    session_use_set_use.

(** A read that is routed to a slave. *)
Definition read_info : RouteInfo :=
  {| ri_target := TARGET_SLAVE; ri_command := MXS_COM_QUERY;
     ri_type := 0; ri_stmt_id := 0 |}.

(** COM_STMT_EXECUTE of the statement the client knows as 1 and the router
    as 5, routed to a slave. *)
Definition execute_stmt : GWBUF :=
  {| gwbuf_data := [x0a; x00; x00; x00; MXS_COM_STMT_EXECUTE;
                    x01; x00; x00; x00; x00; x01; x00; x00; x00];
     gwbuf_type := 0; gwbuf_hint := [] |}.

Definition execute_info : RouteInfo :=
  {| ri_target := TARGET_SLAVE; ri_command := MXS_COM_STMT_EXECUTE;
     ri_type := 0; ri_stmt_id := 5 |}.

(** A packet of the maximum length: the first packet of a large query. *)
Definition max_packet : GWBUF :=
  {| gwbuf_data := xff :: xff :: xff :: x00 :: MXS_COM_QUERY ::
                   repeat x20 (N.to_nat (GW_MYSQL_MAX_PACKET_LEN - 1));
     gwbuf_type := 0; gwbuf_hint := [] |}.

(** A session in the middle of a large query that goes to server2. *)
Definition session_large_query : RWSplitSession :=
  set_large_query true (set_prev_target (Some 1%nat) example_session).

(** A continuation packet whose first payload byte reads as COM_INIT_DB
    and which is classified as a session write, to be routed to all
    servers. *)
Definition continuation_info : RouteInfo :=
  {| ri_target := TARGET_ALL; ri_command := MXS_COM_INIT_DB;
     ri_type := 0; ri_stmt_id := 0 |}.

(** The session [s] with the log [l]. *)
Definition with_log (l : list (log_level * string)) (s : RWSplitSession)
  : RWSplitSession :=
  set_process (set_mxs_log l (process s)) s.

(** A comparator table: every criterion prefers the server that is less
    behind the master. *)
Definition example_cmpfun (sc : N) (a b : RWBackend) : Z :=
  (rlag (b_server a) - rlag (b_server b))%Z.

(** ** Tactics *)

(** The functions of the router are unfolded by name only. *)
#[local] Arguments purge_history : simpl never.
#[local] Arguments route_session_write : simpl never.
#[local] Arguments handle_connection_keepalive : simpl never.
#[local] Arguments prepare_target : simpl never.
#[local] Arguments get_slave_backend : simpl never.
#[local] Arguments get_master_backend : simpl never.
#[local] Arguments get_target_backend : simpl never.
#[local] Arguments handle_hinted_target : simpl never.
#[local] Arguments handle_slave_is_target : simpl never.
#[local] Arguments handle_master_is_target : simpl never.
#[local] Arguments handle_got_target : simpl never.
#[local] Arguments handle_target_is_all : simpl never.
#[local] Arguments route_single_stmt_target : simpl never.
#[local] Arguments route_single_stmt_dispatch : simpl never.
#[local] Arguments route_single_stmt : simpl never.
#[local] Arguments with_log : simpl never.

(** Runs the monad in the goal. *)
Ltac run_goal :=
  unfold bind, gets, modify, when, ret, on_backend, update_backend, mxs_log_message,
    MXS_INFO, MXS_WARNING, MXS_ERROR, MXS_DEBUG; cbn.

(** Runs the monad in the hypothesis [H]. *)
Ltac run_in H :=
  repeat (progress
    (unfold bind, gets, modify, when, ret, on_backend, update_backend,
       mxs_log_message, MXS_INFO, MXS_WARNING, MXS_ERROR, MXS_DEBUG,
       send_readonly_error, replace_master, log_master_routing_failure,
       session_store_stmt, with_log, backend_at in H;
     cbn in H)).

(** Decides the next test or takes the next result apart in the
    hypothesis [H]. *)
Ltac step_in H :=
  match type of H with
  | context [if ?c then _ else _] => destruct c eqn:?; run_in H
  | context [match ?e with Some _ => _ | None => _ end] => destruct e eqn:?; run_in H
  | context [let '(_, _) := ?e in _] => destruct e eqn:?; run_in H
  end.

Ltac run_monad :=
  unfold bind, gets, modify, when, ret, mxs_log_message,
    MXS_INFO, MXS_WARNING, MXS_ERROR, MXS_DEBUG in *; cbn in *.
(** ** Definitions for further properties *)

(** Whether [handle_got_target] sends the statement as a causal read: a
    COM_QUERY, with causal reads enabled and a known GTID position. *)
Definition causal_read (querybuf : GWBUF) (s : RWSplitSession) : bool :=
  bool_decide (mxs_mysql_get_command querybuf = MXS_COM_QUERY) &&
  enable_causal_read (config (router s)) &&
  negb (bool_decide (gtid_pos s = "")).

(** The buffer [handle_got_target] writes to the target. *)
Definition got_target_send_buf (querybuf : GWBUF) (target : nat)
    (s : RWSplitSession) : GWBUF :=
  if causal_read querybuf s
  then add_prefix_wait_gtid (Backend.server (backend_at s target)) querybuf s
  else querybuf.

(** Whether [handle_got_target] asks the backend for a response. *)
Definition got_target_response (querybuf : GWBUF) (s : RWSplitSession)
  : response_type :=
  if negb (bool_decide (load_data_state s = LOAD_DATA_ACTIVE)) &&
     mxs_mysql_command_will_respond (mxs_mysql_get_command querybuf)
  then EXPECT_RESPONSE else NO_RESPONSE.

(** Whether [handle_got_target] counts a response to the statement: the
    backend is asked for one and the packet is not of the maximum length. *)
Definition response_counted (querybuf : GWBUF) (s : RWSplitSession) : bool :=
  negb (is_large_query querybuf) &&
  bool_decide (got_target_response querybuf s = EXPECT_RESPONSE).

(** The state of a LOAD DATA LOCAL INFILE after a packet whose response is
    counted. *)
Definition load_data_next (lds : load_data_state_t) : load_data_state_t :=
  match lds with
  | LOAD_DATA_START => LOAD_DATA_ACTIVE
  | LOAD_DATA_END => LOAD_DATA_INACTIVE
  | _ => lds
  end.

(** The server that the hints of a statement name: the data of the last
    hint that routes to a named server. *)
Definition last_named_server (hints : list HINT) : option string :=
  foldl (λ named hint,
           if bool_decide (hint_type hint = HINT_ROUTE_TO_NAMED_SERVER)
           then Some (hint_data hint) else named)
        None hints.

(** A session without a master connection whose configuration allows the
    master to be reconnected. *)
Definition session_reconnect : RWSplitSession :=
  set_current_master None
    (set_rses_config
       {| slave_selection_criteria := 0;
          max_slave_replication_lag := (-1)%Z;
          master_accept_reads := false;
          master_reconnection := true;
          master_failure_mode := RW_FAIL_INSTANTLY;
          strict_multi_stmt := true;
          strict_sp_calls := true;
          retry_failed_reads := true;
          connection_keepalive := 300%Z;
          disable_sescmd_history := false;
          max_sescmd_history := 50;
          enable_causal_read := false;
          causal_read_timeout := "10" |}
       example_session).

(** A read with a hint that names server2, in any letter case, and a hint
    that allows no replication lag. *)
Definition hinted_select : GWBUF :=
  {| gwbuf_data := gwbuf_data select_one;
     gwbuf_type := 0;
     gwbuf_hint := [{| hint_type := HINT_ROUTE_TO_NAMED_SERVER;
                       hint_data := "Server2"; hint_value := "" |};
                    {| hint_type := HINT_PARAMETER;
                       hint_data := "max_slave_replication_lag";
                       hint_value := "0" |}] |}.

(** Every stored response belongs to a command of the history. *)
Definition responses_in_history (s : RWSplitSession) : Prop :=
  ∀ k, is_Some (sescmd_responses s !! k) →
       ∃ c, c ∈ sescmd_list s ∧ get_position c = k.

(** A session in relaxed multi-statement mode. *)
Definition session_relaxed : RWSplitSession :=
  set_rses_config
    {| slave_selection_criteria := 0;
       max_slave_replication_lag := (-1)%Z;
       master_accept_reads := false;
       master_reconnection := false;
       master_failure_mode := RW_FAIL_INSTANTLY;
       strict_multi_stmt := false;
       strict_sp_calls := false;
       retry_failed_reads := true;
       connection_keepalive := 300%Z;
       disable_sescmd_history := false;
       max_sescmd_history := 50;
       enable_causal_read := false;
       causal_read_timeout := "10" |}
    example_session.

(** A write that is routed to the master. *)
Definition write_info : RouteInfo :=
  {| ri_target := TARGET_MASTER; ri_command := MXS_COM_QUERY;
     ri_type := 0; ri_stmt_id := 0 |}.

(** The session with the lagging slave, with reads on the master allowed. *)
Definition session_reads_on_master : RWSplitSession :=
  set_rses_config
    {| slave_selection_criteria := 0;
       max_slave_replication_lag := (-1)%Z;
       master_accept_reads := true;
       master_reconnection := false;
       master_failure_mode := RW_FAIL_INSTANTLY;
       strict_multi_stmt := true;
       strict_sp_calls := true;
       retry_failed_reads := true;
       connection_keepalive := 300%Z;
       disable_sescmd_history := false;
       max_sescmd_history := 50;
       enable_causal_read := false;
       causal_read_timeout := "10" |}
    session_new_slave.


(** A backend that a statement can be written to at once: it is in use,
    the network lets a write through, and no session command waits in its
    queue. *)
Definition backend_ready (s : RWSplitSession) (t : nat) : bool :=
  Backend.in_use (backend_at s t) && b_write_ok (backend_at s t) &&
  negb (Backend.have_session_commands (backend_at s t)).

(** The packet [handle_got_target] hands to the target, with the response
    it asks for. *)
Definition got_target_packet (querybuf : GWBUF) (target : nat)
    (s : RWSplitSession) : GWBUF * response_type :=
  (got_target_send_buf querybuf target s, got_target_response querybuf s).

(** The forced node after a statement has been written to the backend
    [t]: none when the statement ends a read-only transaction, [t] when it
    is the first that is written within a read-only transaction, and the
    forced node of before otherwise. *)
Definition forced_node_after (t : nat) (s : RWSplitSession) : option nat :=
  let ses := session (client_dcb s) in
  if session_trx_is_read_only ses && session_trx_is_ending ses then None
  else if bool_decide (target_node s = None) && session_trx_is_read_only ses
       then Some t
       else target_node s.

(** Whether [route_single_stmt] records the target of a statement that it
    has written: the statement is a COM_STMT_EXECUTE and the session is not
    locked to the master. *)
Definition execute_recorded (info : RouteInfo) (s : RWSplitSession) : bool :=
  bool_decide (ri_command info = MXS_COM_STMT_EXECUTE) &&
  negb (locked_to_master s).

(** The packets that the backend [t] has received when [route_single_stmt]
    has written each of the packets [pkts], one after the other, to it. *)
Fixpoint continuation_packets (cmp : N -> RWBackend -> RWBackend -> Z)
    (pkts : list (GWBUF * RouteInfo)) (t : nat) (s : RWSplitSession)
  : list (GWBUF * response_type) :=
  match pkts with
  | [] => []
  | (querybuf, info) :: rest =>
      got_target_packet (routed_buffer querybuf info s) t s ::
      continuation_packets cmp rest t (route_single_stmt cmp querybuf info s).2
  end.

(** A statement that is routed as a read to a slave: its route target has
    the SLAVE bit, carries no hint and does not name all servers. *)
Definition routed_to_slave (info : RouteInfo) : bool :=
  TARGET_IS_SLAVE (ri_target info) &&
  negb (TARGET_IS_ALL (ri_target info)) &&
  negb (TARGET_IS_NAMED_SERVER (ri_target info)) &&
  negb (TARGET_IS_RLAG_MAX (ri_target info)).


(** The backend that the map of executed statements gives to a statement:
    the one recorded for the statement id of a COM_STMT_FETCH. *)
Definition fetch_target (info : RouteInfo) (s : RWSplitSession) : option nat :=
  if bool_decide (ri_command info = MXS_COM_STMT_FETCH)
  then exec_map s !! ri_stmt_id info else None.

(** COM_STMT_FETCH of ten rows of the statement the client knows as 1 and
    the router as 5. *)
Definition fetch_stmt : GWBUF :=
  {| gwbuf_data := [x09; x00; x00; x00; MXS_COM_STMT_FETCH;
                    x01; x00; x00; x00; x0a; x00; x00; x00];
     gwbuf_type := 0; gwbuf_hint := [] |}.

Definition fetch_info (target : route_target_t) : RouteInfo :=
  {| ri_target := target; ri_command := MXS_COM_STMT_FETCH;
     ri_type := 0; ri_stmt_id := 5 |}.

(** COM_STMT_EXECUTE of the same statement, routed to the master. *)
Definition execute_info_master : RouteInfo :=
  {| ri_target := TARGET_MASTER; ri_command := MXS_COM_STMT_EXECUTE;
     ri_type := 0; ri_stmt_id := 5 |}.

(** A session that is locked to its master, server1. *)
Definition session_locked : RWSplitSession :=
  set_target_node (Some 0%nat) example_session.

(** A session whose statement 5 was executed on the backend [t]. *)
Definition session_executed (t : nat) : RWSplitSession :=
  set_exec_map {[5%N := t]} example_session.


(** ** The session command history *)

Lemma purge_history_sescmd_list sescmd s :
  sescmd_list (purge_history sescmd s).2 = purge_list sescmd (sescmd_list s).
Proof.
  unfold purge_history, purge_list.
  destruct (bool_decide _); [|reflexivity].
  unfold bind, gets. cbn.
  destruct (list_find _ (sescmd_list s)) as [[first x]|]; [|reflexivity].
  destruct (list_find _ (drop _ _)) as [[off y]|]; reflexivity.
Qed.

Section Occurrences.
Context {A : Type} (P : A → Prop) {Pdec : ∀ x, Decision (P x)}.

Lemma occ_app l1 l2 : occ P (l1 ++ l2) = (occ P l1 + occ P l2)%nat.
Proof. unfold occ. by rewrite filter_app, length_app. Qed.

Lemma occ_cons x l : occ P (x :: l) = ((if decide (P x) then 1 else 0) + occ P l)%nat.
Proof. unfold occ. rewrite filter_cons. by destruct (decide (P x)). Qed.

Lemma occ_none l : Forall (λ x, ¬ P x) l → occ P l = 0%nat.
Proof.
  induction 1 as [|x l Hx _ IH]; [done|].
  rewrite occ_cons, IH. by destruct (decide (P x)).
Qed.

Lemma occ_split l i x :
  l !! i = Some x → occ P l = (occ P (take i l) + (if decide (P x) then 1 else 0) + occ P (drop (S i) l))%nat.
Proof.
  intros Hi. rewrite <- (take_drop_middle l i x Hi) at 1.
  rewrite occ_app, occ_cons. lia.
Qed.

Lemma occ_delete l i x :
  l !! i = Some x → occ P (delete i l) = (occ P (take i l) + occ P (drop (S i) l))%nat.
Proof.
  intros Hi. rewrite delete_take_drop, occ_app. done.
Qed.

Lemma occ_pos l : (0 < occ P l)%nat → ∃ i x, l !! i = Some x ∧ P x.
Proof.
  induction l as [|y l IH]; [unfold occ; simpl; lia|].
  rewrite occ_cons. destruct (decide (P y)) as [Hy|Hy].
  - intros _. by exists 0%nat, y.
  - intros H. destruct IH as (i & x & Hi & Hx); [lia|]. by exists (S i), x.
Qed.

Lemma occ_lookup l i x : l !! i = Some x → P x → (0 < occ P l)%nat.
Proof.
  intros Hi Hx. rewrite (occ_split l i x Hi). rewrite decide_True by done. lia.
Qed.

(** Three occurrences, in terms of positions. *)
Lemma occ_three l :
  (3 ≤ occ P l)%nat ↔
  ∃ i j k a b c, (i < j < k)%nat ∧ l !! i = Some a ∧ l !! j = Some b ∧
                 l !! k = Some c ∧ P a ∧ P b ∧ P c.
Proof.
  split.
  - induction l as [|y l IH]; [unfold occ; simpl; lia|].
    rewrite occ_cons. destruct (decide (P y)) as [Hy|Hy].
    + intros H.
      assert (∃ j b, l !! j = Some b ∧ P b ∧ (0 < occ P (drop (S j) l))%nat)
        as (j & b & Hj & Hb & Hrest).
      { clear IH Hy. induction l as [|z l IH]; [unfold occ in H; simpl in H; lia|].
        rewrite occ_cons in H. destruct (decide (P z)) as [Hz|Hz].
        - exists 0%nat, z. split_and!; [done|done|].
          change (0 < occ P l)%nat. lia.
        - destruct IH as (j & b & ? & ? & ?); [lia|]. by exists (S j), b. }
      apply occ_pos in Hrest as (k & c & Hk & Hc).
      rewrite lookup_drop in Hk.
      exists 0%nat, (S j), (S (S j + k)), y, b, c.
      split_and!; [lia|lia|done|done|exact Hk|done|done|done].
    + intros H. destruct IH as (i & j & k & a & b & c & ? & ? & ? & ? & ? & ? & ?); [lia|].
      exists (S i), (S j), (S k), a, b, c. split_and!; [lia|lia|done..].
  - intros (i & j & k & a & b & c & [Hij Hjk] & Hi & Hj & Hk & Ha & Hb & Hc).
    rewrite (occ_split l i a Hi), decide_True by done.
    assert (drop (S i) l !! (j - S i)%nat = Some b) as Hj'.
    { rewrite lookup_drop. rewrite <- Hj. f_equal. lia. }
    rewrite (occ_split _ _ b Hj'), decide_True by done.
    assert (drop (S (j - S i)) (drop (S i) l) !! (k - S j)%nat = Some c) as Hk'.
    { rewrite !lookup_drop. rewrite <- Hk. f_equal. lia. }
    pose proof (occ_lookup _ _ _ Hk' Hc). lia.
Qed.
End Occurrences.

Lemma occ_ext {A} (P Q : A → Prop) `{!∀ x, Decision (P x)} `{!∀ x, Decision (Q x)} l :
  (∀ x, P x ↔ Q x) → occ P l = occ Q l.
Proof. intros HPQ. unfold occ. by rewrite (list_filter_iff P Q l HPQ). Qed.

Lemma occ_delete_le {A} (P : A → Prop) `{!∀ x, Decision (P x)} l i :
  (occ P (delete i l) ≤ occ P l)%nat.
Proof.
  destruct (l !! i) as [x|] eqn:Hi.
  - rewrite (occ_delete P l i x Hi), (occ_split P l i x Hi). lia.
  - apply lookup_ge_None in Hi.
    rewrite delete_take_drop, take_ge, drop_ge, app_nil_r by lia. done.
Qed.

Lemma get_command_payload a b : payload a = payload b → get_command a = get_command b.
Proof. unfold get_command, mxs_mysql_get_command, payload. by intros ->. Qed.


Lemma pruning_law_text_occ l :
  pruning_law_text l ↔
  ∀ x, x ∈ l → get_command x ≠ MXS_COM_STMT_PREPARE → (occ (same_payload x) l ≤ 2)%nat.
Proof.
  split.
  - intros Hlaw x Hx Hcmd.
    destruct (decide (3 ≤ occ (same_payload x) l)%nat) as [H3|]; [|lia].
    apply occ_three in H3 as (i & j & k & a & b & c & Hlt & Hi & Hj & Hk & Ha & Hb & Hc).
    unfold same_payload in *.
    exfalso. apply Hcmd. rewrite <- (get_command_payload a x Ha).
    apply (Hlaw i j k a b c); congruence.
  - intros Hocc i j k a b c Hlt Hi Hj Hk Hab Hbc.
    destruct (decide (get_command a = MXS_COM_STMT_PREPARE)) as [|Hcmd]; [done|].
    exfalso.
    assert (3 ≤ occ (same_payload a) l)%nat as H3.
    { apply occ_three. exists i, j, k, a, b, c. unfold same_payload.
      split_and!; try done; try lia; congruence. }
    specialize (Hocc a (list_elem_of_lookup_2 _ _ _ Hi) Hcmd). lia.
Qed.

Lemma occ_purge_list_le (P : SessionCommand → Prop) `{!∀ x, Decision (P x)} c l :
  (occ P (purge_list c l) ≤ occ P l)%nat.
Proof.
  unfold purge_list. destruct (bool_decide _); [|done].
  destruct (list_find _ l) as [[first ?]|]; [|done].
  destruct (list_find _ (drop _ l)) as [[off ?]|]; [|done].
  apply occ_delete_le.
Qed.

Lemma purge_list_sublist c l : sublist (purge_list c l) l.
Proof.
  unfold purge_list. destruct (bool_decide _); [|done].
  destruct (list_find _ l) as [[first ?]|]; [|done].
  destruct (list_find _ (drop _ l)) as [[off ?]|]; [|done].
  apply sublist_delete.
Qed.

Lemma list_find_take_none {A} (P : A → Prop) `{!∀ x, Decision (P x)} l i x :
  list_find P l = Some (i, x) → Forall (λ y, ¬ P y) (take i l).
Proof.
  intros (Hi & Hx & Hbefore)%list_find_Some.
  apply Forall_lookup. intros j y Hj.
  apply lookup_take_Some in Hj as [Hj ?]. by apply (Hbefore j).
Qed.

(** After [purge_history], at most one command with the payload of a
    command that is not a COM_STMT_PREPARE is left in a history that had at
    most two of them. *)
Lemma occ_purge_list c l :
  get_command c ≠ MXS_COM_STMT_PREPARE →
  (occ (same_payload c) l ≤ 2)%nat →
  (occ (same_payload c) (purge_list c l) ≤ 1)%nat.
Proof.
  intros Hcmd Hocc. unfold purge_list. rewrite bool_decide_true by done.
  assert (∀ l', occ (equal_pointees c) l' = occ (same_payload c) l') as Heq.
  { intros l'. apply occ_ext. intros y. unfold equal_pointees, same_payload. split; congruence. }
  destruct (list_find _ l) as [[first a]|] eqn:Hfirst.
  - destruct (list_find _ (drop _ l)) as [[off b]|] eqn:Hsecond.
    + apply list_find_Some in Hsecond as (Hj & Hb & _).
      rewrite lookup_drop in Hj.
      rewrite (occ_delete (same_payload c) l _ b Hj).
      rewrite (occ_split (same_payload c) l _ b Hj) in Hocc.
      rewrite decide_True in Hocc by (unfold same_payload; done).
      lia.
    + pose proof (occ_none (equal_pointees c) _
                    (list_find_take_none _ _ _ _ Hfirst)) as Hbefore.
      rewrite Heq in Hbefore.
      apply list_find_Some in Hfirst as (Hi & Ha & _).
      apply list_find_None in Hsecond.
      apply (occ_none (equal_pointees c)) in Hsecond. rewrite Heq in Hsecond.
      rewrite (occ_split (same_payload c) l first a Hi), Hbefore, Hsecond.
      destruct (decide _); lia.
  - apply list_find_None in Hfirst.
    apply (occ_none (equal_pointees c)) in Hfirst. rewrite Heq in Hfirst. lia.
Qed.


Lemma history_append_law c l :
  pruning_law_text l → pruning_law_text (history_append c l).
Proof.
  rewrite !pruning_law_text_occ. intros Hlaw x Hx Hcmd.
  unfold history_append in *. rewrite occ_app, occ_cons.
  change (occ (same_payload x) []) with 0%nat.
  destruct (decide (same_payload x c)) as [Hxc|Hxc].
  - (* the new command has the payload of [x] *)
    assert (get_command c ≠ MXS_COM_STMT_PREPARE) as Hc.
    { by rewrite (get_command_payload c x Hxc). }
    assert (∀ l', occ (same_payload x) l' = occ (same_payload c) l') as Heq.
    { intros l'. apply occ_ext. intros y. unfold same_payload in *. split; congruence. }
    rewrite Heq.
    assert (occ (same_payload c) l ≤ 2)%nat as Hocc.
    { destruct (decide (0 < occ (same_payload c) l)%nat) as [Hpos|]; [|lia].
      apply occ_pos in Hpos as (i & a & Hi & Ha).
      assert (∀ l', occ (same_payload a) l' = occ (same_payload c) l') as Heq'.
      { intros l'. apply occ_ext. intros y. unfold same_payload in *. split; congruence. }
      rewrite <- Heq'. apply Hlaw; [by eapply list_elem_of_lookup_2|].
      by rewrite (get_command_payload a c Ha). }
    pose proof (occ_purge_list c l Hc Hocc). lia.
  - (* the new command has another payload *)
    apply elem_of_app in Hx as [Hx|Hx].
    + pose proof (occ_purge_list_le (same_payload x) c l).
      assert (x ∈ l) as Hxl by (eapply elem_of_sublist; [done|apply purge_list_sublist]).
      specialize (Hlaw x Hxl Hcmd). lia.
    + apply list_elem_of_singleton in Hx as ->. by destruct Hxc.
Qed.


Lemma purge_history_frame sescmd s :
  let s' := (purge_history sescmd s).2 in
  backends s' = backends s ∧ rses_config s' = rses_config s ∧
  process s' = process s ∧ sescmd_count s' = sescmd_count s ∧
  expected_responses s' = expected_responses s.
Proof.
  unfold purge_history. destruct (bool_decide _); [|done].
  run_monad.
  destruct (list_find _ (sescmd_list s)) as [[first x]|]; [|done].
  destruct (list_find _ (drop _ _)) as [[off y]|]; done.
Qed.

(** [purge_history] in a goal: the history and the members it leaves. *)
Ltac destruct_purge :=
  match goal with
  | |- context [purge_history ?c ?s] =>
      let H := fresh "Hlist" in
      let Hf := fresh "Hframe" in
      pose proof (purge_history_sescmd_list c s) as H;
      pose proof (purge_history_frame c s) as Hf;
      destruct (purge_history c s) as [[] ?]; cbn in H, Hf;
      destruct Hf as (? & ? & ? & ? & ?)
  end.

(** What a session write leaves in the members of the session. *)
Lemma route_session_write_fields querybuf command type s :
  let sescmd := new_session_command querybuf type s in
  let loop := session_write_loop querybuf command type s in
  let r := route_session_write querybuf command type s in
  r.1 = negb (nsucc loop.2 =? 0)%Z ∧
  backends r.2 = loop.1 ∧
  sescmd_count r.2 = incr64 (sescmd_count s) ∧
  expected_responses r.2 = acc_expected_responses loop.2 ∧
  sescmd_list r.2 =
    (if history_limit_exceeded s then []
     else if disable_sescmd_history (rses_config s) then sescmd_list s
     else history_append sescmd (sescmd_list s)) ∧
  rses_config r.2 =
    (if history_limit_exceeded s
     then set_max_sescmd_history 0 (set_disable_sescmd_history true (rses_config s))
     else rses_config s) ∧
  warn_history_exceeded (process r.2) =
    (if history_limit_exceeded s then false else warn_history_exceeded (process s)) ∧
  mxs_log (process r.2) =
    acc_log loop.2 ++
    (if history_limit_exceeded s && warn_history_exceeded (process s)
     then [(LOG_WARNING, history_limit_warning)] else []) ∧
  (disable_sescmd_history (rses_config r.2) = true →
   sescmd_responses r.2 =
     match lower_bound (lowest_pos loop.2) (sescmd_responses s) with
     | Some k => erase_before k (sescmd_responses s)
     | None => sescmd_responses s
     end).
Proof.
  unfold route_session_write, session_write_loop, history_limit_exceeded,
    new_session_command, new_buffer, history_append.
  run_monad.
  set (sescmd := {| m_buffer := _ |}).
  destruct (_ || _); cbn;
    destruct (route_session_write_loop _ _ _ _) as [bs acc]; cbn;
    destruct (_ && _); cbn;
    destruct (warn_history_exceeded (process s)) eqn:Hw; cbn;
    destruct (disable_sescmd_history (rses_config s)) eqn:Hd; cbn;
    try destruct (lower_bound _ _); cbn;
    try destruct_purge; cbn;
    destruct (negb (nsucc acc =? 0)%Z); cbn;
    try destruct (negb (mxs_mysql_command_will_respond command)); cbn;
    rewrite ?app_nil_r; split_and!; try done; try congruence;
    match goal with
    | H : process _ = _ |- _ => rewrite H; cbn; congruence
    end.
Qed.


Lemma route_session_write_backend_spec sescmd e b acc :
  let r := route_session_write_backend sescmd e b acc in
  let res := session_write_result sescmd b in
  r.1 = res.2 ∧
  nsucc r.2 = (nsucc acc + if res.1 then 1 else 0)%Z ∧
  lowest_pos r.2 = session_write_lowest sescmd (lowest_pos acc) b ∧
  acc_expected_responses r.2 =
    (acc_expected_responses acc + if e && res.1 then 1 else 0)%Z ∧
  ∃ new, acc_log r.2 = acc_log acc ++ new ∧ filter is_warning new = [].
Proof.
  unfold route_session_write_backend, session_write_result, session_write_lowest.
  destruct (Backend.in_use b); cbn.
  - destruct (Backend.execute_session_command _) as [[] b2]; cbn.
    + split_and!; [done|done|done|destruct e; cbn; lia|].
      eexists. split; [reflexivity|reflexivity].
    + split_and!; [done|lia|done|destruct e; cbn; lia|].
      eexists. split; [reflexivity|reflexivity].
  - split_and!; [done|lia|done|destruct e; cbn; lia|].
    exists []. by rewrite app_nil_r.
Qed.

Lemma route_session_write_loop_spec sescmd e bs acc :
  let r := route_session_write_loop sescmd e bs acc in
  let succeeded := filter (λ b, (session_write_result sescmd b).1 = true) bs in
  r.1 = map (λ b, (session_write_result sescmd b).2) bs ∧
  nsucc r.2 = (nsucc acc + Z.of_nat (length succeeded))%Z ∧
  lowest_pos r.2 = fold_left (session_write_lowest sescmd) bs (lowest_pos acc) ∧
  acc_expected_responses r.2 =
    (acc_expected_responses acc + if e then Z.of_nat (length succeeded) else 0)%Z ∧
  ∃ new, acc_log r.2 = acc_log acc ++ new ∧ filter is_warning new = [].
Proof.
  revert acc. induction bs as [|b bs IH]; intros acc.
  - cbn. split_and!; try done; try lia.
    + destruct e; lia.
    + exists []. by rewrite app_nil_r.
  - cbn [route_session_write_loop].
    pose proof (route_session_write_backend_spec sescmd e b acc) as Hb.
    destruct (route_session_write_backend sescmd e b acc) as [b' acc1].
    specialize (IH acc1).
    destruct (route_session_write_loop sescmd e bs acc1) as [bs' acc2].
    cbn in IH, Hb.
    destruct IH as (IH1 & IH2 & IH3 & IH4 & new2 & IH5 & IH6).
    destruct Hb as (Hb1 & Hb2 & Hb3 & Hb4 & new1 & Hb5 & Hb6).
    rewrite filter_cons. cbn [fst snd map fold_left].
    rewrite IH1, IH2, IH3, IH4, IH5, Hb1, Hb2, Hb3, Hb4, Hb5.
    destruct (decide _) as [Hok|Hok].
    + rewrite Hok. cbn [length]. split_and!; [done|lia|done|destruct e; cbn; lia|].
      exists (new1 ++ new2). rewrite <- app_assoc, filter_app, Hb6, IH6. done.
    + apply not_true_is_false in Hok. rewrite Hok.
      split_and!; [done|lia|done|destruct e; cbn; lia|].
      exists (new1 ++ new2). rewrite <- app_assoc, filter_app, Hb6, IH6. done.
Qed.

(** ** [lower_bound] and [erase] on the response map *)

Lemma list_min_spec (xs : list N) :
  match foldr (fun x acc => match acc with
                            | Some y => Some (N.min x y)
                            | None => Some x
                            end) None xs with
  | Some j => j ∈ xs ∧ ∀ x, x ∈ xs → (j <= x)%N
  | None => xs = []
  end.
Proof.
  induction xs as [|x xs IH]; [done|]. cbn.
  destruct (foldr _ None xs) as [y|].
  - destruct IH as [Hy Hmin]. split.
    + destruct (N.min_spec x y) as [[_ ->]|[_ ->]]; [left|by right].
    + intros z [->|Hz]%elem_of_cons; [lia|]. specialize (Hmin z Hz). lia.
  - subst xs. split; [left|]. intros z Hz%list_elem_of_singleton. lia.
Qed.

Lemma lower_bound_Some {A} k (m : gmap N A) j :
  lower_bound k m = Some j →
  j ∈ dom m ∧ (k <= j)%N ∧ ∀ x, x ∈ dom m → (k <= x)%N → (j <= x)%N.
Proof.
  unfold lower_bound. intros H.
  pose proof (list_min_spec (filter (λ x, (k <= x)%N) (elements (dom m)))) as Hmin.
  rewrite H in Hmin. destruct Hmin as [Hj Hmin].
  apply list_elem_of_filter in Hj as [Hkj Hj]. apply elem_of_elements in Hj.
  split_and!; [done|done|].
  intros x Hx Hkx. apply Hmin. apply list_elem_of_filter. split; [done|].
  by apply elem_of_elements.
Qed.

Lemma lower_bound_None {A} k (m : gmap N A) :
  lower_bound k m = None → ∀ x, x ∈ dom m → (x < k)%N.
Proof.
  unfold lower_bound. intros H x Hx.
  pose proof (list_min_spec (filter (λ x, (k <= x)%N) (elements (dom m)))) as Hmin.
  rewrite H in Hmin.
  destruct (decide (k <= x)%N) as [Hkx|]; [|lia].
  assert (x ∈ filter (λ x, (k <= x)%N) (elements (dom m))) as Hin.
  { apply list_elem_of_filter. split; [done|]. by apply elem_of_elements. }
  rewrite Hmin in Hin. by apply elem_of_nil in Hin.
Qed.

Lemma erase_before_lower_bound {A} k (m : gmap N A) j :
  lower_bound k m = Some j → erase_before j m = erase_before k m.
Proof.
  intros (Hj & Hkj & Hmin)%lower_bound_Some. unfold erase_before.
  apply map_filter_ext. intros x v Hx. cbn.
  assert (x ∈ dom m) as Hdom by (apply elem_of_dom; eauto).
  specialize (Hmin x Hdom). lia.
Qed.




Lemma purge_list_elem c x l :
  x ∈ l → get_command x = MXS_COM_STMT_PREPARE → x ∈ purge_list c l.
Proof.
  intros Hx Hcmd. unfold purge_list.
  destruct (bool_decide_reflect (get_command c ≠ MXS_COM_STMT_PREPARE)) as [Hc|]; [|done].
  destruct (list_find _ l) as [[first a]|]; [|done].
  destruct (list_find _ (drop _ l)) as [[off b]|] eqn:Hsecond; [|done].
  apply list_find_Some in Hsecond as (Hj & Hb & _). rewrite lookup_drop in Hj.
  apply list_elem_of_lookup in Hx as [k Hk].
  assert (k ≠ S first + off)%nat as Hne.
  { intros ->. rewrite Hj in Hk. injection Hk as ->.
    apply Hc. by rewrite (get_command_payload c x Hb). }
  destruct (decide (k < S first + off)%nat).
  - apply list_elem_of_lookup. exists k. by rewrite list_lookup_delete_lt.
  - apply list_elem_of_lookup. exists (k - 1)%nat.
    rewrite list_lookup_delete_ge by lia. rewrite <- Hk. f_equal. lia.
Qed.

Lemma purge_list_first c l i a :
  list_find (equal_pointees c) l = Some (i, a) → purge_list c l !! i = Some a.
Proof.
  intros Hfirst. unfold purge_list. destruct (bool_decide _).
  - rewrite Hfirst. apply list_find_Some in Hfirst as (Hi & _).
    destruct (list_find _ (drop _ l)) as [[off b]|]; [|done].
    by rewrite list_lookup_delete_lt by lia.
  - by apply list_find_Some in Hfirst as (Hi & _).
Qed.

Lemma purge_list_middle c l i j a b :
  pruning_law_text l → (i < j)%nat →
  l !! i = Some a → l !! j = Some b →
  payload a = payload c → payload b = payload c →
  get_command c ≠ MXS_COM_STMT_PREPARE →
  purge_list c l = delete j l.
Proof.
  intros Hlaw Hij Hi Hj Ha Hb Hc.
  assert (get_command a ≠ MXS_COM_STMT_PREPARE) as Hca
    by (by rewrite (get_command_payload a c Ha)).
  unfold purge_list. rewrite bool_decide_true by done.
  assert (list_find (equal_pointees c) l = Some (i, a)) as ->.
  { apply list_find_Some. split_and!; [done|by unfold equal_pointees|].
    intros k x Hk Hki Hx. unfold equal_pointees in Hx.
    assert (get_command x ≠ MXS_COM_STMT_PREPARE) as Hcx
      by (by rewrite <- (get_command_payload c x Hx)).
    apply Hcx. apply (Hlaw k i j x a b); [lia|done..|congruence|congruence]. }
  assert (list_find (equal_pointees c) (drop (S i) l) = Some ((j - S i)%nat, b)) as ->.
  { apply list_find_Some. split_and!.
    - rewrite lookup_drop, <- Hj. f_equal. lia.
    - by unfold equal_pointees.
    - intros k x Hk Hkj Hx. rewrite lookup_drop in Hk. unfold equal_pointees in Hx.
      apply Hca. apply (Hlaw i (S i + k)%nat j a x b); [lia|done..|congruence|congruence]. }
  f_equal. lia.
Qed.

(** C1 (amended).  After any append of a session command by
    [route_session_write], the pruning law holds for the commands that are
    not a COM_STMT_PREPARE: between two retained commands with equal payload
    there is no third with that payload.  While the history is retained, the
    new command is the last one, no COM_STMT_PREPARE is pruned, the first
    command equal to the new one stays where it is, and of two stored
    commands equal to a new command that is not a COM_STMT_PREPARE the
    second, the middle one of the three, is deleted. *)
Theorem purge_duplicates_law querybuf command type s :
  let sescmd := new_session_command querybuf type s in
  let s' := (route_session_write querybuf command type s).2 in
  pruning_law_text (sescmd_list s) →
  pruning_law_text (sescmd_list s') ∧
  (disable_sescmd_history (rses_config s') = false →
   last (sescmd_list s') = Some sescmd ∧
   (∀ c, c ∈ sescmd_list s → get_command c = MXS_COM_STMT_PREPARE →
         c ∈ sescmd_list s') ∧
   (∀ i a, list_find (equal_pointees sescmd) (sescmd_list s) = Some (i, a) →
           sescmd_list s' !! i = Some a) ∧
   (∀ i j a b, (i < j)%nat →
      sescmd_list s !! i = Some a → sescmd_list s !! j = Some b →
      payload a = payload sescmd → payload b = payload sescmd →
      get_command sescmd ≠ MXS_COM_STMT_PREPARE →
      sescmd_list s' = delete j (sescmd_list s) ++ [sescmd])).
Proof.
  intros sescmd s' Hlaw.
  destruct (route_session_write_fields querybuf command type s)
    as (_ & _ & _ & _ & Hlist & Hcfg & _).
  fold sescmd s' in Hlist, Hcfg.
  split.
  - rewrite Hlist. destruct (history_limit_exceeded s).
    + intros i j k a b c _ Hi. by rewrite lookup_nil in Hi.
    + destruct (disable_sescmd_history (rses_config s)); [done|].
      by apply history_append_law.
  - intros Hon. rewrite Hcfg in Hon.
    destruct (history_limit_exceeded s); [done|].
    rewrite Hon in Hlist. rewrite Hlist. unfold history_append.
    split_and!.
    + apply last_snoc.
    + intros c Hc Hcmd. apply elem_of_app. left. by apply purge_list_elem.
    + intros i a Hfirst. rewrite lookup_app_l.
      * by apply purge_list_first.
      * eapply lookup_lt_Some. by apply purge_list_first.
    + intros i j a b Hij Hi Hj Ha Hb Hcmd.
      by rewrite (purge_list_middle sescmd _ i j a b).
Qed.


Lemma session_use_set_use_law : pruning_law_text (sescmd_list session_use_set_use).
Proof.
  apply pruning_law_text_occ. intros x Hx _.
  vm_compute in Hx.
  repeat (apply elem_of_cons in Hx as [->|Hx]); [vm_compute; lia ..|].
  by apply elem_of_nil in Hx.
Qed.

Lemma purge_duplicates_law_witness :
  pruning_law_text
    (sescmd_list
       (route_session_write use_test MXS_COM_INIT_DB 0 session_use_set_use).2).
Proof.
  exact (proj1 (purge_duplicates_law use_test MXS_COM_INIT_DB 0 session_use_set_use
                  session_use_set_use_law)).
Defined.

(** C1, as stated, fails: three equal COM_STMT_PREPARE commands are all
    retained, so the second lies between two commands with its payload. *)
Lemma purge_duplicates_law_counterexample :
  ¬ pruning_law (sescmd_list session_three_prepares).
Proof.
  intros Hlaw.
  apply (Hlaw 0 1 2
           {| m_buffer := new_buffer prepare_select QUERY_TYPE_PREPARE_STMT; m_pos := 1 |}
           {| m_buffer := new_buffer prepare_select QUERY_TYPE_PREPARE_STMT; m_pos := 2 |}
           {| m_buffer := new_buffer prepare_select QUERY_TYPE_PREPARE_STMT; m_pos := 3 |})%nat;
    [lia|by vm_compute..].
Qed.

(** ** Session writes *)

Lemma write_session_commands buf mode b :
  b_session_commands (Backend.write buf mode b).2 = b_session_commands b.
Proof.
  unfold Backend.write. destruct (b_in_use b); [|done].
  destruct (b_write_ok b); [|done]. by destruct (bool_decide _).
Qed.

Lemma execute_session_command_queue b c :
  c ∈ b_session_commands (Backend.execute_session_command b).2 →
  c ∈ b_session_commands b.
Proof.
  unfold Backend.execute_session_command.
  destruct (b_session_commands b) as [|c0 rest] eqn:Hq; [cbn; by rewrite Hq|].
  pose proof (write_session_commands (m_buffer c0)
    (if mxs_mysql_command_will_respond (get_command c0)
     then EXPECT_RESPONSE else NO_RESPONSE) b) as Hw.
  destruct (Backend.write _ _ b) as [[] b']; cbn in *.
  - intros Hc. by right.
  - by rewrite Hw, Hq.
Qed.

Lemma session_write_result_queue sescmd b c :
  c ∈ b_session_commands (session_write_result sescmd b).2 →
  c ∈ b_session_commands b ∨ c = sescmd.
Proof.
  unfold session_write_result. destruct (Backend.in_use b); [|by left].
  intros Hc%execute_session_command_queue. cbn in Hc.
  apply elem_of_app in Hc as [Hc|Hc%list_elem_of_singleton]; [by left|by right].
Qed.

Lemma history_append_elem sescmd l c :
  c ∈ history_append sescmd l → c ∈ l ∨ c = sescmd.
Proof.
  unfold history_append. intros [Hc|Hc%list_elem_of_singleton]%elem_of_app; [left|by right].
  eapply elem_of_sublist; [done|apply purge_list_sublist].
Qed.

Lemma incr64_no_wrap n : (n + 1 < UINT64_MOD)%N → incr64 n = (n + 1)%N.
Proof. intros H. unfold incr64, wrap64. by apply N.mod_small. Qed.

Lemma session_write_loop_spec querybuf command type s :
  let sescmd := new_session_command querybuf type s in
  let r := session_write_loop querybuf command type s in
  let succeeded := filter (λ b, (session_write_result sescmd b).1 = true) (backends s) in
  r.1 = map (λ b, (session_write_result sescmd b).2) (backends s) ∧
  nsucc r.2 = Z.of_nat (length succeeded) ∧
  lowest_pos r.2 = lowest_pending querybuf type s ∧
  acc_expected_responses r.2 =
    (expected_responses s +
     if mxs_mysql_command_will_respond command
     then Z.of_nat (length succeeded) else 0)%Z ∧
  ∃ new, acc_log r.2 =
           mxs_log (process s) ++
           (LOG_INFO, "Session write, routing to all servers.") :: new ∧
         filter is_warning new = [].
Proof.
  cbv zeta. unfold session_write_loop, lowest_pending.
  destruct (route_session_write_loop_spec (new_session_command querybuf type s)
              (mxs_mysql_command_will_respond command) (backends s)
              {| nsucc := 0; lowest_pos := sescmd_count s;
                 acc_expected_responses := expected_responses s;
                 acc_log := mxs_log (process s) ++
                   [(LOG_INFO, "Session write, routing to all servers.")] |})
    as (H1 & H2 & H3 & H4 & new & H5 & H6).
  cbn in H2, H3, H4, H5. split_and!; [done..|].
  exists new. by rewrite H5, <- app_assoc.
Qed.

(** C2.  A session write routed by [route_session_write] gets the next
    position of the session, which is above the position of every earlier
    session command, and leaves every position below the next one; the
    command is appended to the queue of every backend in use, whose queue is
    then executed, and the other backends are left alone; the call reports
    success exactly when the execution succeeded on a backend in use. *)
Theorem route_session_write_broadcast querybuf command type s :
  let sescmd := new_session_command querybuf type s in
  let r := route_session_write querybuf command type s in
  positions_fresh s →
  (sescmd_count s + 1 < UINT64_MOD)%N →
  get_position sescmd = sescmd_count s ∧
  (∀ c, session_command_of s c → (get_position c < get_position sescmd)%N) ∧
  positions_fresh r.2 ∧
  (∀ i b, backends s !! i = Some b →
     backends r.2 !! i =
       Some (if Backend.in_use b
             then (Backend.execute_session_command
                     (Backend.append_session_command sescmd b)).2
             else b)) ∧
  (r.1 = true ↔
   ∃ i b, backends s !! i = Some b ∧ Backend.in_use b = true ∧
          (Backend.execute_session_command
             (Backend.append_session_command sescmd b)).1 = true).
Proof.
  intros sescmd r Hfresh Hbound.
  destruct (route_session_write_fields querybuf command type s)
    as (Hres & Hbs & Hcount & _ & Hlist & _).
  destruct (session_write_loop_spec querybuf command type s)
    as (Hloop1 & Hloop2 & _).
  fold r sescmd in Hres, Hbs, Hcount, Hlist, Hloop1, Hloop2.
  split_and!.
  - done.
  - intros c Hc. by apply Hfresh.
  - intros c Hc. rewrite Hcount, incr64_no_wrap by done.
    assert (session_command_of s c ∨ c = sescmd) as [Hold| ->].
    { destruct Hc as [Hc|(b' & Hb' & Hc)].
      - rewrite Hlist in Hc. destruct (history_limit_exceeded s).
        + by apply elem_of_nil in Hc.
        + destruct (disable_sescmd_history (rses_config s)).
          * left. by left.
          * apply history_append_elem in Hc as [Hc|Hc]; [left; by left|by right].
      - rewrite Hbs, Hloop1 in Hb'.
        apply list_elem_of_fmap in Hb' as (b & -> & Hb).
        apply session_write_result_queue in Hc as [Hc|Hc]; [|by right].
        left. right. by exists b. }
    + specialize (Hfresh c Hold). lia.
    + cbn. lia.
  - intros i b Hi. rewrite Hbs, Hloop1, list_lookup_fmap, Hi. cbn.
    unfold session_write_result. by destruct (Backend.in_use b).
  - rewrite Hres, Hloop2, negb_true_iff, Z.eqb_neq.
    set (ok := λ b, (session_write_result sescmd b).1 = true).
    split.
    + intros Hn.
      destruct (filter ok (backends s)) as [|b ?] eqn:Hf; [cbn in Hn; lia|].
      assert (b ∈ filter ok (backends s)) as Hb by (rewrite Hf; left).
      apply list_elem_of_filter in Hb as [Hok Hb].
      apply list_elem_of_lookup in Hb as [i Hi].
      exists i, b. unfold ok, session_write_result in Hok.
      destruct (Backend.in_use b); [done|]. by cbn in Hok.
    + intros (i & b & Hi & Huse & Hok).
      assert (b ∈ filter ok (backends s)) as Hb.
      { apply list_elem_of_filter. split; [|by eapply list_elem_of_lookup_2].
        unfold ok, session_write_result. by rewrite Huse. }
      destruct (filter ok (backends s)); [by apply elem_of_nil in Hb|].
      cbn. lia.
Qed.

Lemma session_use_set_use_fresh : positions_fresh session_use_set_use.
Proof.
  intros c [Hc|(b & Hb & Hc)].
  - vm_compute in Hc.
    repeat (apply elem_of_cons in Hc as [->|Hc]); [by vm_compute ..|].
    by apply elem_of_nil in Hc.
  - vm_compute in Hb.
    repeat (apply elem_of_cons in Hb as [->|Hb]);
      [vm_compute in Hc; by apply elem_of_nil in Hc ..|].
    by apply elem_of_nil in Hb.
Qed.

Lemma route_session_write_broadcast_witness :
  positions_fresh (route_session_write set_myvar MXS_COM_QUERY 0 session_use_set_use).2.
Proof.
  refine (proj1 (proj2 (proj2
    (route_session_write_broadcast set_myvar MXS_COM_QUERY 0 session_use_set_use
       session_use_set_use_fresh _)))).
  by vm_compute.
Defined.

(** ** The history limit *)

Lemma logged_app s s' new :
  mxs_log (process s') = mxs_log (process s) ++ new → logged s s' = new.
Proof. intros H. unfold logged. by rewrite H, drop_app_length. Qed.

(** C4 (amended).  If the history limit is configured and the history has
    reached it, a session write clears the history, latches
    [disable_sescmd_history] on, sets the limit to 0 and emits the warning
    only if no session of the process has emitted it before; the latch stays
    on in later session writes.  While the history is disabled, a session
    write erases the stored responses below the lowest pending position if
    a stored response at or above that position exists, and leaves the
    stored responses alone otherwise. *)
Theorem history_limit_latch querybuf command type s :
  let r := route_session_write querybuf command type s in
  let m := sescmd_responses s in
  let lowest := lowest_pending querybuf type s in
  (history_limit_exceeded s = true →
   sescmd_list r.2 = [] ∧
   disable_sescmd_history (rses_config r.2) = true ∧
   max_sescmd_history (rses_config r.2) = 0%N ∧
   warn_history_exceeded (process r.2) = false) ∧
  filter is_warning (logged s r.2) =
    (if history_limit_exceeded s && warn_history_exceeded (process s)
     then [(LOG_WARNING, history_limit_warning)] else []) ∧
  (disable_sescmd_history (rses_config s) = true →
   disable_sescmd_history (rses_config r.2) = true) ∧
  (disable_sescmd_history (rses_config r.2) = true →
   ((∃ k, k ∈ dom m ∧ (lowest <= k)%N) →
    sescmd_responses r.2 = filter (λ kv, (lowest <= kv.1)%N) m) ∧
   ((∀ k, k ∈ dom m → (k < lowest)%N) → sescmd_responses r.2 = m)).
Proof.
  intros r m lowest.
  destruct (route_session_write_fields querybuf command type s)
    as (_ & _ & _ & _ & Hlist & Hcfg & Hwarn & Hlog & Hresp).
  destruct (session_write_loop_spec querybuf command type s)
    as (_ & _ & Hlowest & _ & new & Hnew & Hnowarn).
  fold r in Hlist, Hcfg, Hwarn, Hlog, Hresp.
  fold lowest in Hlowest. fold m in Hresp.
  rewrite Hlowest in Hresp. rewrite Hnew in Hlog.
  split_and!.
  - intros Hex. rewrite Hex in Hlist, Hcfg, Hwarn. by rewrite Hcfg.
  - rewrite <- app_assoc in Hlog. rewrite (logged_app _ _ _ Hlog).
    rewrite filter_app, filter_cons_False by (unfold is_warning; done).
    rewrite Hnowarn. cbn [app].
    by destruct (history_limit_exceeded s && warn_history_exceeded (process s)).
  - intros Hon. rewrite Hcfg. by destruct (history_limit_exceeded s).
  - intros Hon. specialize (Hresp Hon). rewrite Hresp. split.
    + intros (k & Hk & Hle).
      destruct (lower_bound lowest m) as [j|] eqn:Hlb.
      * by apply erase_before_lower_bound.
      * pose proof (lower_bound_None lowest m Hlb k Hk). lia.
    + intros Hbelow.
      destruct (lower_bound lowest m) as [j|] eqn:Hlb; [|done].
      apply lower_bound_Some in Hlb as (Hj & Hle & _).
      specialize (Hbelow j Hj). lia.
Qed.

Lemma history_limit_latch_witness :
  sescmd_list (route_session_write set_myvar MXS_COM_QUERY 0 session_at_limit).2 = [] ∧
  disable_sescmd_history
    (rses_config (route_session_write set_myvar MXS_COM_QUERY 0 session_at_limit).2) = true ∧
  max_sescmd_history
    (rses_config (route_session_write set_myvar MXS_COM_QUERY 0 session_at_limit).2) = 0%N ∧
  warn_history_exceeded
    (process (route_session_write set_myvar MXS_COM_QUERY 0 session_at_limit).2) = false.
Proof.
  apply (proj1 (history_limit_latch set_myvar MXS_COM_QUERY 0 session_at_limit)).
  by vm_compute.
Defined.

(** C4, as stated, fails.  A first session of the process exceeds the limit
    and is warned.  A later session of the same process exceeds the limit
    too: its history is latched off without a warning, and the stored
    response to the command at position 1 is not pruned although the lowest
    pending position is 4. *)
Lemma history_limit_latch_counterexample :
  let rA := route_session_write set_myvar MXS_COM_QUERY 0 session_at_limit in
  let sB := later_session_at_limit (process rA.2) in
  let rB := route_session_write set_myvar MXS_COM_QUERY 0 sB in
  filter is_warning (logged session_at_limit rA.2) =
    [(LOG_WARNING, history_limit_warning)] ∧
  history_limit_exceeded sB = true ∧
  disable_sescmd_history (rses_config rB.2) = true ∧
  filter is_warning (logged sB rB.2) = [] ∧
  lowest_pending set_myvar 0 sB = 4%N ∧
  sescmd_responses rB.2 !! 1%N = Some ok_packet.
Proof. cbv zeta. split_and!; by vm_compute. Qed.

(** ** Preparing the target *)

(** [prepare_target] connects a backend only if the backend is not in use
    and can connect, the target is a slave or a master that may be
    reconnected, and the history is enabled or no session command has
    completed; otherwise the backends are left alone. *)
Lemma prepare_target_connects target route_target s :
  let r := prepare_target target route_target s in
  backends r.2 ≠ backends s →
  Backend.in_use (backend_at s target) = false ∧
  Backend.can_connect (backend_at s target) = true ∧
  (disable_sescmd_history (rses_config s) = false ∨ recv_sescmd s = 0%N).
Proof.
  unfold prepare_target. run_monad.
  destruct (Backend.in_use (backend_at s target)); cbn; [done|].
  destruct (Backend.can_connect (backend_at s target)); cbn; [|done].
  destruct (_ || _); cbn.
  - destruct (disable_sescmd_history (rses_config s)); cbn.
    + destruct (recv_sescmd s =? 0)%N eqn:Hrecv; cbn; [|done].
      apply N.eqb_eq in Hrecv. intros _. split_and!; [done|done|by right].
    + intros _. split_and!; [done|done|by left].
  - by destruct (TARGET_IS_MASTER route_target).
Qed.

(** C5 (the code at the failing input).  The history is disabled and a
    session command has been executed; the slave server3 is not in use and
    can connect.  [prepare_target] logs the error and does not connect, but
    reports success. *)
Theorem prepare_target_history_disabled :
  let s := session_history_disabled in
  let r := prepare_target 2 TARGET_SLAVE s in
  Backend.in_use (backend_at s 2) = false ∧
  Backend.can_connect (backend_at s 2) = true ∧
  disable_sescmd_history (rses_config s) = true ∧
  recv_sescmd s = 1%N ∧
  r.1 = true ∧
  backends r.2 = backends s ∧
  logged s r.2 =
    [(LOG_ERROR, "Cannot reconnect to server '%s', session command history is disabled (session has executed %lu session commands).")].
Proof. cbv zeta. split_and!; by vm_compute. Qed.

(** ** Routing to the master *)

Lemma with_log_id s : with_log (mxs_log (process s)) s = s.
Proof. by destruct s as [? ? ? ? ? ? ? ? ? ? ? ? ? ? ? ? ? ? ? ? ? ? []]. Qed.

Lemma with_log_with_log l l' s : with_log l (with_log l' s) = with_log l s.
Proof. done. Qed.

(** Finding a target backend changes nothing but the log, which grows by
    messages that are not warnings. *)
Lemma get_target_backend_log cmp btype name max_rlag s :
  ∃ new, (get_target_backend cmp btype name max_rlag s).2 =
         with_log (mxs_log (process s) ++ new) s ∧
         filter is_warning new = [].
Proof.
  unfold get_target_backend, get_master_backend. run_goal.
  destruct (bool_decide (target_node s ≠ None) && _); cbn.
  { by eexists. }
  assert (∃ new, s = with_log (mxs_log (process s) ++ new) s ∧
                 filter is_warning new = []) as Hid.
  { exists []. by rewrite app_nil_r, with_log_id. }
  destruct name; cbn; [done|].
  destruct (bool_decide (btype = BE_SLAVE)); cbn; [done|].
  destruct (bool_decide (btype = BE_MASTER)); cbn; [|done].
  destruct (get_root_master (backends s)); cbn; [|done].
  destruct (_ || _); cbn; [destruct (Backend.is_master _); cbn|]; try done;
    by eexists.
Qed.

(** ** Choosing a slave *)

Lemma rpl_lag_is_ok_spec backend max_rlag :
  rpl_lag_is_ok backend max_rlag = true ↔
  max_rlag = MAX_RLAG_UNDEFINED ∨
  (rlag (Backend.server backend) ≠ MAX_RLAG_NOT_AVAILABLE ∧
   (rlag (Backend.server backend) <= max_rlag)%Z).
Proof.
  unfold rpl_lag_is_ok.
  rewrite orb_true_iff, andb_true_iff, negb_true_iff, bool_decide_eq_true,
    bool_decide_eq_false, Z.leb_le. done.
Qed.

Lemma compare_backends_cases cmp s r i sc :
  compare_backends cmp s (Some r) (Some i) sc = Some r ∨
  compare_backends cmp s (Some r) (Some i) sc = Some i.
Proof. unfold compare_backends. destruct (_ <=? _)%Z; [by left|by right]. Qed.

(** One iteration of the loop of [get_slave_backend]: the candidate stays,
    or the backend of the iteration becomes the candidate; then it is
    eligible and it was accepted as the first candidate or admitted. *)
Lemma get_slave_backend_step_cases cmp s max_rlag rval i backend :
  let counts := get_slave_counts (backends s) (current_master s) in
  let rval' := get_slave_backend_step cmp s max_rlag counts rval i backend in
  rval' = rval ∨
  (rval' = Some i ∧ slave_eligible backend max_rlag = true ∧
   match rval with
   | None => (Backend.is_master backend && bool_decide (Some i = current_master s)) ||
             Backend.is_slave backend = true
   | Some _ => Backend.in_use backend || slave_count_below_max s = true
   end).
Proof.
  cbv zeta. unfold get_slave_backend_step, slave_eligible, slave_count_below_max.
  destruct (_ && rpl_lag_is_ok backend max_rlag); [|by left].
  destruct rval as [r|].
  - destruct (Backend.in_use backend || _) eqn:Hadmit; [|by left].
    destruct (negb _ && _); [by right|].
    destruct (compare_backends_cases cmp s r i
                (slave_selection_criteria (rses_config s))) as [->| ->];
      [by left|by right].
  - destruct (_ || Backend.is_slave backend) eqn:Hfirst; [by right|by left].
Qed.

Lemma get_slave_backend_loop_spec cmp s max_rlag bs i0 rval i :
  let counts := get_slave_counts (backends s) (current_master s) in
  get_slave_backend_loop cmp s max_rlag counts i0 bs rval = Some i →
  rval = Some i ∨
  ∃ b, bs !! (i - i0)%nat = Some b ∧ (i0 <= i)%nat ∧
       slave_eligible b max_rlag = true ∧
       (Backend.in_use b = false →
        (rval = None ∧ first_candidate_from s max_rlag i0 bs = Some i) ∨
        slave_count_below_max s = true).
Proof.
  cbv zeta. revert i0 rval. induction bs as [|b0 rest IH]; intros i0 rval Hloop.
  - by left.
  - cbn [get_slave_backend_loop] in Hloop.
    pose proof (get_slave_backend_step_cases cmp s max_rlag rval i0 b0) as Hstep.
    cbv zeta in Hstep.
    set (rval' := get_slave_backend_step _ _ _ _ rval i0 b0) in *.
    destruct (IH (S i0) rval' Hloop) as [Hsame|(b & Hb & Hle & Hel & Hadm)].
    + (* the candidate after this iteration is the result *)
      destruct Hstep as [Heq|(Heq & Hel & Hacc)].
      * left. congruence.
      * assert (i = i0) as -> by congruence.
        right. exists b0. rewrite Nat.sub_diag. split_and!; [done|lia|done|].
        intros Huse. destruct rval as [r|].
        -- right. by rewrite Huse in Hacc.
        -- left. split; [done|]. cbn [first_candidate_from]. by rewrite Hel, Hacc.
    + (* a later backend is the result *)
      right. exists b. split_and!; [|lia|done|].
      * replace (i - i0)%nat with (S (i - S i0)) by lia. done.
      * intros Huse. destruct (Hadm Huse) as [[Hnone Hfirst]|Hcount]; [|by right].
        left. destruct Hstep as [Heq|(Heq & _)]; [|congruence].
        assert (rval = None) as -> by congruence. split; [done|].
        cbn [first_candidate_from].
        destruct (slave_eligible b0 max_rlag && _) eqn:Hcand; [|done].
        exfalso. subst rval'. unfold get_slave_backend_step in Hnone.
        apply andb_true_iff in Hcand as [Hel0 Hacc0].
        unfold slave_eligible in Hel0. by rewrite Hel0, Hacc0 in Hnone.
Qed.

(** ** Writing to the target *)

Lemma on_backend_other {A} i (f : RWBackend → A * RWBackend) s j :
  j ≠ i → backend_at (on_backend i f s).2 j = backend_at s j.
Proof.
  intros Hne. unfold on_backend, backend_at.
  destruct (f _) as [a b']. cbn. by rewrite list_lookup_insert_ne.
Qed.

Lemma session_eta_tn_log s :
  with_log (mxs_log (process s) ++ []) (set_target_node (target_node s) s) = s.
Proof.
  rewrite app_nil_r.
  by destruct s as [? ? ? ? ? ? ? ? ? ? ? ? ? ? ? ? ? ? ? ? ? ? []].
Qed.

(** A step that sets or resets the forced node under a condition changes
    the forced node and the log at most. *)
Lemma forced_node_shape (c : bool) (f : RWSplitSession → unit * RWSplitSession)
    tn sk u s' :
  (∀ s, ∃ l, (f s).2 = with_log (mxs_log (process s) ++ l) (set_target_node tn s)) →
  (if c then f else (λ s, (tt, s))) sk = (u, s') →
  ∃ l, s' = with_log (mxs_log (process sk) ++ l)
              (set_target_node (if c then tn else target_node sk) sk).
Proof.
  intros Hf Hs. destruct c.
  - destruct (Hf sk) as (l & Hsk). rewrite Hs in Hsk. by eexists.
  - injection Hs as <-. exists []. by rewrite session_eta_tn_log.
Qed.

(** The next step of [H], which sets or resets the forced node. *)
Ltac forced_node_step H :=
  match type of H with
  | context [let '(_, _) := ?e in _] =>
      lazymatch e with
      | (if _ then _ else _) _ =>
          let s' := fresh "s'" in
          let Hs := fresh "Hstep" in
          let l := fresh "l" in
          destruct e as [[] s'] eqn:Hs;
          eapply forced_node_shape in Hs; [|intros ?; by eexists [_]];
          destruct Hs as (l & ->)
      end
  end.

(** Decides the next test in the hypothesis [H], the end of a read-only
    transaction excepted. *)
Ltac step_got_target H :=
  match type of H with
  | context [if ?c then _ else _] =>
      lazymatch c with
      | context [trx_ending] => fail
      | _ => destruct c eqn:?; run_in H; try discriminate
      end
  end.

(** What [handle_got_target] leaves in the members of the session.  The
    result is the result of the write, which succeeds if the target is in
    use and the network lets the write through. *)
Lemma handle_got_target_fields querybuf target store s :
  let r := handle_got_target querybuf target store s in
  let ses := session (client_dcb s) in
  let pinned :=
    if bool_decide (target_node s = None) && session_trx_is_read_only ses
    then Some target else target_node s in
  r.1 = b_in_use (backend_at s target) && b_write_ok (backend_at s target) ∧
  exec_map r.2 = exec_map s ∧
  query_queue r.2 = query_queue s ∧
  rses_config r.2 = rses_config s ∧
  current_master r.2 = current_master s ∧
  session_trx_is_read_only (session (client_dcb r.2)) = session_trx_is_read_only ses ∧
  session_trx_is_ending (session (client_dcb r.2)) = session_trx_is_ending ses ∧
  target_node r.2 =
    (if r.1 && session_trx_is_read_only ses && session_trx_is_ending ses
     then None else pinned) ∧
  large_query r.2 = (if r.1 then is_large_query querybuf else large_query s) ∧
  prev_target r.2 =
    (if r.1 then if is_large_query querybuf then Some target else None
     else prev_target s) ∧
  (∀ i, i ≠ target → backend_at r.2 i = backend_at s i).
Proof.
  intros r. assert (Hr : r = handle_got_target querybuf target store s) by done.
  clearbody r. cbv zeta.
  unfold handle_got_target in Hr.
  unfold bind, gets, modify, when, ret in Hr. cbn beta in Hr.
  forced_node_step Hr. run_in Hr.
  unfold backend_at.
  destruct (backends s !! target) as [b|] eqn:Hlk; cbn in *.
  all: destruct (_ && negb (bool_decide (gtid_pos s = ""))) eqn:Hcausal; run_in Hr.
  all: unfold Backend.write in Hr; rewrite ?Hlk in Hr; cbn in Hr.
  all: try (destruct (b_in_use b) eqn:Huse; run_in Hr).
  all: try (destruct (b_write_ok b) eqn:Hwok; run_in Hr).
  all: rewrite ?Hlk in Hr; cbn in Hr.
  all: repeat step_got_target Hr.
  all: try forced_node_step Hr.
  all: subst r; unfold with_log; cbn.
  all: unfold session_trx_is_read_only, session_trx_is_ending in *.
  all: split_and!; try done.
  all: try (intros i Hne; by rewrite ?list_lookup_insert_ne by done).
  all: destruct (target_node s), (trx_read_only (session (client_dcb s))),
         (trx_ending (session (client_dcb s))); done.
Qed.

Lemma b_written_insert (bs : list RWBackend) i b j :
  b_written b = b_written (default dummy_backend (bs !! i)) →
  b_written (default dummy_backend (<[i := b]> bs !! j)) =
  b_written (default dummy_backend (bs !! j)).
Proof.
  intros Hb. destruct (decide (j = i)) as [->|Hne].
  - destruct (bs !! i) eqn:Hi.
    + rewrite list_lookup_insert_eq by (by eapply lookup_lt_Some). done.
    + rewrite list_insert_ge by (by apply lookup_ge_None). by rewrite Hi.
  - by rewrite list_lookup_insert_ne.
Qed.

(** What [prepare_target] leaves in the session: it may connect the
    target, it writes nothing. *)
Lemma prepare_target_fields target route_target s :
  let r := prepare_target target route_target s in
  exec_map r.2 = exec_map s ∧
  query_queue r.2 = query_queue s ∧
  expected_responses r.2 = expected_responses s ∧
  large_query r.2 = large_query s ∧
  prev_target r.2 = prev_target s ∧
  target_node r.2 = target_node s ∧
  client_dcb r.2 = client_dcb s ∧
  (∀ i, i ≠ target → backend_at r.2 i = backend_at s i) ∧
  (∀ i, b_written (backend_at r.2 i) = b_written (backend_at s i)).
Proof.
  intros r. assert (Hr : r = prepare_target target route_target s) by done.
  clearbody r. unfold prepare_target in Hr. run_in Hr.
  destruct (negb _ && _); run_in Hr; [|by subst r].
  destruct (_ || _); run_in Hr.
  - destruct (_ || _); run_in Hr; [|by subst r].
    unfold Backend.connect in Hr.
    destruct (b_connect_ok _) eqn:Hok; run_in Hr; subst r; cbn;
      (split_and!; [done..| |]); intros i; unfold backend_at; cbn.
    + intros Hne. by rewrite list_lookup_insert_ne.
    + by apply b_written_insert.
    + intros Hne. by rewrite list_lookup_insert_ne.
    + by apply b_written_insert.
  - destruct (TARGET_IS_MASTER route_target); run_in Hr; by subst r.
Qed.

(** The keep-alive pings change the ping counters and the log, nothing
    else; the target is not pinged. *)
Lemma handle_connection_keepalive_fields target s :
  let r := handle_connection_keepalive target s in
  exec_map r.2 = exec_map s ∧
  query_queue r.2 = query_queue s ∧
  expected_responses r.2 = expected_responses s ∧
  large_query r.2 = large_query s ∧
  prev_target r.2 = prev_target s ∧
  target_node r.2 = target_node s ∧
  client_dcb r.2 = client_dcb s ∧
  (∀ i, b_written (backend_at r.2 i) = b_written (backend_at s i)) ∧
  (∀ t, target = Some t → backend_at r.2 t = backend_at s t).
Proof.
  cbv zeta. unfold handle_connection_keepalive. cbn.
  split_and!; try done; unfold backend_at; cbn.
  - intros i. rewrite list_lookup_imap.
    destruct (backends s !! i); [|done]. cbn. by destruct (keepalive_due _ _ _ _).
  - intros t ->. rewrite list_lookup_imap.
    destruct (backends s !! t) eqn:Ht; [|done]. cbn.
    unfold keepalive_due. rewrite bool_decide_true by done.
    by rewrite andb_false_r.
Qed.

(** ** Read-only transactions *)


(** ** Finding the target *)

Lemma routing_frame_refl s : routing_frame s s.
Proof. by unfold routing_frame. Qed.

Lemma routing_frame_trans s1 s2 s3 :
  routing_frame s1 s2 → routing_frame s2 s3 → routing_frame s1 s3.
Proof.
  unfold routing_frame.
  intros (? & ? & ? & ? & ? & ? & Hw1) (? & ? & ? & ? & ? & ? & Hw2).
  split_and!; first [congruence|intros i; by rewrite Hw2, Hw1].
Qed.

Lemma routing_frame_set_process p s : routing_frame s (set_process p s).
Proof. by unfold routing_frame. Qed.

Lemma handle_hints_process hints named_server rlag_max s :
  ∃ p, (handle_hints hints named_server rlag_max s).2 = set_process p s.
Proof.
  revert named_server rlag_max s.
  induction hints as [|hint next IH]; intros named_server rlag_max s.
  - exists (process s). by destruct s.
  - cbn [handle_hints].
    destruct (bool_decide (hint_type hint = HINT_ROUTE_TO_NAMED_SERVER)).
    { run_goal.
      destruct (IH (Some (hint_data hint)) rlag_max
                  (set_process
                     (set_mxs_log
                        (mxs_log (process s) ++ [(LOG_INFO, "Hint: route to server '%s'")])
                        (process s)) s)) as [p Hp].
      exists p. by rewrite Hp. }
    destruct (_ && _); [|apply IH].
    destruct (strtol (hint_value hint)) as [v out_of_range]. run_goal.
    destruct out_of_range; cbn;
      match goal with
      | |- context [if ?c then _ else _] => destruct c
      end; cbn;
      match goal with
      | |- context [handle_hints next ?ns ?rl ?st] =>
          destruct (IH ns rl st) as [p Hp]; exists p; by rewrite Hp
      end.
Qed.

Lemma get_target_backend_process cmp btype name max_rlag s :
  ∃ p, (get_target_backend cmp btype name max_rlag s).2 = set_process p s.
Proof.
  destruct (get_target_backend_log cmp btype name max_rlag s) as (new & -> & _).
  by eexists.
Qed.

Lemma handle_hinted_target_frame cmp querybuf route_target s :
  routing_frame s (handle_hinted_target cmp querybuf route_target s).2.
Proof.
  unfold handle_hinted_target. run_goal.
  destruct (handle_hints_process (gwbuf_hint querybuf) None MAX_RLAG_UNDEFINED s)
    as [p Hp].
  destruct (handle_hints _ _ _ s) as [[named_server rlag_max] s1].
  cbn in Hp. subst s1. cbn.
  destruct (bool_decide (rlag_max = MAX_RLAG_UNDEFINED)); cbn;
    match goal with
    | |- context [get_target_backend cmp ?bt ?nm ?rl ?st] =>
        destruct (get_target_backend_process cmp bt nm rl st) as [p' Hp'];
        destruct (get_target_backend cmp bt nm rl st) as [target s2]
    end;
    cbn in Hp'; subst s2; cbn;
    destruct (bool_decide (target = None)); cbn; try done;
    destruct (TARGET_IS_NAMED_SERVER route_target); cbn; try done;
    destruct (TARGET_IS_RLAG_MAX route_target); cbn; done.
Qed.

Lemma handle_slave_is_target_frame cmp command stmt_id s :
  routing_frame s (handle_slave_is_target cmp command stmt_id s).2.
Proof.
  unfold handle_slave_is_target. run_goal.
  destruct (bool_decide (command = MXS_COM_STMT_FETCH)); cbn;
    [destruct (exec_map s !! stmt_id); cbn|]; try done;
    match goal with
    | |- context [get_target_backend cmp ?bt ?nm ?rl ?st] =>
        destruct (get_target_backend_process cmp bt nm rl st) as [p' Hp'];
        destruct (get_target_backend cmp bt nm rl st) as [target s2]
    end;
    cbn in Hp'; subst s2; cbn; by destruct target.
Qed.

Lemma handle_master_is_target_frame cmp s :
  routing_frame s (handle_master_is_target cmp s).2.
Proof.
  assert (∃ r, r = handle_master_is_target cmp s) as [r Hr] by by eexists.
  rewrite <- Hr. unfold handle_master_is_target in Hr. run_in Hr.
  destruct (get_target_backend_process cmp BE_MASTER None MAX_RLAG_UNDEFINED s)
    as [p Hp].
  destruct (get_target_backend cmp BE_MASTER None MAX_RLAG_UNDEFINED s)
    as [target s1].
  cbn in Hp. subst s1. run_in Hr.
  repeat step_in Hr.
  all: subst r; unfold routing_frame; cbn; split_and!; try done.
  all: intros i; unfold backend_at; cbn; by apply b_written_insert.
Qed.

(** Finding the target leaves the frame alone. *)
Lemma route_single_stmt_target_frame cmp querybuf info s :
  routing_frame s (route_single_stmt_target cmp querybuf info s).2.
Proof.
  unfold route_single_stmt_target. run_goal.
  destruct (large_query s); cbn; [apply routing_frame_refl|].
  destruct (_ || _); cbn.
  { pose proof (handle_hinted_target_frame cmp querybuf (ri_target info) s) as H.
    by destruct (handle_hinted_target _ _ _ s). }
  destruct (TARGET_IS_SLAVE (ri_target info)); cbn.
  { pose proof (handle_slave_is_target_frame cmp (ri_command info) (ri_stmt_id info) s)
      as H.
    destruct (handle_slave_is_target _ _ _ s) as [[t|] s1]; by cbn. }
  destruct (TARGET_IS_MASTER (ri_target info)); cbn; [|apply routing_frame_refl].
  pose proof (handle_master_is_target_frame cmp s) as H.
  destruct (handle_master_is_target cmp s) as [[succp target] s1]. cbn in *.
  by destruct (_ && _).
Qed.

(** ** Routing a statement *)

(** C3.  [route_single_stmt] has found a target for a statement that is
    not routed to all servers and the target is prepared; if the target
    then has session commands pending, the routing succeeds, one more
    response is expected, a clone of the packet is at the end of the query
    queue, and nothing is written to the target or to any other backend. *)
Theorem deferred_behind_session_commands cmp querybuf info s t store s1 s2 :
  let q := routed_buffer querybuf info s in
  let r := route_single_stmt cmp querybuf info s in
  TARGET_IS_ALL (ri_target info) = false →
  route_single_stmt_target cmp q info s = ((true, Some t, store), s1) →
  prepare_target t (ri_target info) s1 = (true, s2) →
  Backend.have_session_commands (backend_at s2 t) = true →
  r.1 = true ∧
  expected_responses r.2 = (expected_responses s + 1)%Z ∧
  query_queue r.2 = query_queue s ++ [gwbuf_clone q] ∧
  (∀ i, b_written (backend_at r.2 i) = b_written (backend_at s i)) ∧
  backend_at r.2 t = backend_at s2 t.
Proof.
  intros q r Hall Htarget Hprepare Hpending.
  pose proof (route_single_stmt_target_frame cmp q info s) as Hframe1.
  rewrite Htarget in Hframe1. cbn in Hframe1.
  destruct Hframe1 as (_ & Hq1 & He1 & _ & _ & _ & Hw1).
  destruct (prepare_target_fields t (ri_target info) s1)
    as (_ & Hq2 & He2 & _ & _ & _ & _ & _ & Hw2).
  rewrite Hprepare in Hq2, He2, Hw2. cbn in Hq2, He2, Hw2.
  assert (Hr : r = route_single_stmt cmp querybuf info s) by done. clearbody r.
  unfold route_single_stmt in Hr. run_in Hr.
  fold (routed_buffer querybuf info s) in Hr. fold q in Hr.
  rewrite Hall in Hr. run_in Hr. rewrite Htarget in Hr. run_in Hr.
  unfold route_single_stmt_dispatch in Hr. run_in Hr.
  rewrite Hprepare in Hr. run_in Hr.
  unfold backend_at in Hpending. rewrite Hpending in Hr. run_in Hr.
  match type of Hr with
  | context [if ?c then _ else _] => destruct c
  end; run_in Hr.
  - match type of Hr with
    | context [handle_connection_keepalive ?tg ?st] =>
        destruct (handle_connection_keepalive_fields tg st)
          as (_ & Hq3 & He3 & _ & _ & _ & _ & Hw3 & Ht3);
        destruct (handle_connection_keepalive tg st) as [[] s3]
    end.
    subst r. cbn in *.
    split_and!; [done|congruence|congruence| |by apply Ht3].
    intros i. rewrite Hw3. unfold backend_at in *. cbn. by rewrite Hw2, Hw1.
  - subst r. cbn. split_and!; [done|congruence|congruence| |done].
    intros i. unfold backend_at in *. cbn. by rewrite Hw2, Hw1.
Qed.

Lemma deferred_behind_session_commands_witness :
  let r := route_single_stmt example_cmpfun select_one read_info session_new_slave in
  r.1 = true ∧
  expected_responses r.2 = (expected_responses session_new_slave + 1)%Z ∧
  query_queue r.2 = query_queue session_new_slave ++ [select_one].
Proof.
  cbv zeta.
  destruct (deferred_behind_session_commands example_cmpfun select_one read_info
              session_new_slave 2 true
              (route_single_stmt_target example_cmpfun select_one read_info
                 session_new_slave).2
              (prepare_target 2 TARGET_SLAVE
                 (route_single_stmt_target example_cmpfun select_one read_info
                    session_new_slave).2).2)
    as (Hres & Hexp & Hqueue & _); [by vm_compute..|].
  split_and!; [exact Hres|exact Hexp|exact Hqueue].
Defined.

(** ** Prepared statements *)

Lemma get_slave_backend_loop_process cmp p s max_rlag counts i bs rval :
  get_slave_backend_loop cmp (set_process p s) max_rlag counts i bs rval =
  get_slave_backend_loop cmp s max_rlag counts i bs rval.
Proof.
  revert i rval. induction bs as [|b bs IH]; intros i rval; [done|].
  cbn [get_slave_backend_loop]. by rewrite IH.
Qed.

(** The backend that is found does not depend on the log. *)
Lemma get_target_backend_process_result cmp btype name max_rlag p s :
  (get_target_backend cmp btype name max_rlag (set_process p s)).1 =
  (get_target_backend cmp btype name max_rlag s).1.
Proof.
  unfold get_target_backend, get_master_backend. run_goal.
  destruct (bool_decide (target_node s ≠ None) && _); cbn; [done|].
  destruct name; cbn; [done|].
  destruct (bool_decide (btype = BE_SLAVE)); cbn.
  { unfold get_slave_backend. cbn. apply get_slave_backend_loop_process. }
  destruct (bool_decide (btype = BE_MASTER)); cbn; [|done].
  unfold get_root_master.
  destruct (fst <$> list_find _ (backends s)); cbn; [|done].
  unfold backend_at. cbn.
  destruct (_ || _); cbn; [by destruct (Backend.is_master _)|done].
Qed.

(** ** Large queries *)

Lemma overwrite_length off new (data : list byte) :
  (off + length new ≤ length data)%nat →
  length (overwrite off new data) = length data.
Proof.
  intros H. unfold overwrite.
  rewrite !length_app, length_take, length_drop. lia.
Qed.

(** A packet of the maximum length keeps its length when its statement id
    is replaced. *)
Lemma is_large_query_routed querybuf info s :
  is_large_query querybuf = true →
  is_large_query (routed_buffer querybuf info s) = true.
Proof.
  intros Hlarge. unfold routed_buffer. destruct (_ && _); [|done].
  unfold is_large_query, gwbuf_length, replace_binary_ps_id in *. cbn [gwbuf_data].
  rewrite overwrite_length; [done|].
  apply N.eqb_eq in Hlarge. unfold wrap32 in Hlarge.
  pose proof (N.Div0.mod_le (N.of_nat (length (gwbuf_data querybuf))) UINT32_MOD) as Hle.
  rewrite Hlarge in Hle.
  change (N.to_nat MYSQL_HEADER_LEN + 1 + length (gw_mysql_set_byte4 (ri_stmt_id info)))%nat
    with 9%nat.
  assert (9 <= N.of_nat (length (gwbuf_data querybuf)))%N as H9.
  { etrans; [|exact Hle]. by vm_compute. }
  lia.
Qed.

Lemma route_single_stmt_target_large cmp querybuf info s :
  large_query s = true →
  route_single_stmt_target cmp querybuf info s = ((true, prev_target s, false), s).
Proof. intros Hlarge. unfold route_single_stmt_target. run_goal. by rewrite Hlarge. Qed.

Lemma is_large_query_max_packet : is_large_query max_packet = true.
Proof.
  unfold is_large_query, gwbuf_length, max_packet. cbn [gwbuf_data length].
  rewrite repeat_length, !Nat2N.inj_succ, N2Nat.id. by vm_compute.
Qed.

(** ** Choosing a backend by name *)

(** X1.  [get_hinted_backend] returns the first backend, in the order of
    the session's backends, that is in use, whose name equals the hinted
    name when letter case is ignored, and that is a slave, a relay server
    or a master; it returns no backend exactly when no backend passes that
    test. *)
Theorem hinted_backend_first_match name s :
  let valid b :=
    Backend.in_use b = true ∧
    string_tolower name = string_tolower (Backend.name b) ∧
    (Backend.is_slave b = true ∨ Backend.is_relay b = true ∨
     Backend.is_master b = true) in
  match get_hinted_backend name s with
  | Some i =>
      (∃ b, backends s !! i = Some b ∧ valid b) ∧
      ∀ j b, (j < i)%nat → backends s !! j = Some b → ¬ valid b
  | None => ∀ b, b ∈ backends s → ¬ valid b
  end.
Proof.
  intros valid.
  assert (Hvalid : ∀ b,
    Backend.in_use b && strcasecmp_eq name (Backend.name b) &&
    (Backend.is_slave b || Backend.is_relay b || Backend.is_master b) = true ↔
    valid b).
  { intros b. unfold valid, strcasecmp_eq.
    rewrite !andb_true_iff, !orb_true_iff, bool_decide_eq_true. tauto. }
  unfold get_hinted_backend.
  destruct (list_find _ (backends s)) as [[i b]|] eqn:Hfind; cbn.
  - apply list_find_Some in Hfind as (Hi & Hb & Hbefore). split.
    + exists b. split; [done|]. by apply Hvalid.
    + intros j b' Hj Hb' Hv. apply (Hbefore j b' Hb' Hj). by apply Hvalid.
  - intros b Hin Hv. rewrite list_find_None, Forall_forall in Hfind.
    apply (Hfind b Hin). by apply Hvalid.
Qed.


(** ** Choosing the master *)

(** X2.  [get_master_backend] returns the root master only if it has the
    master state and is in use or can be connected to, and then changes
    nothing; without a root master it returns no backend and logs nothing;
    a root master that it refuses costs one error in the log and nothing
    else. *)
Theorem master_backend_usable s :
  let r := get_master_backend s in
  match r.1 with
  | Some m =>
      get_root_master (backends s) = Some m ∧
      Backend.is_master (backend_at s m) = true ∧
      (Backend.in_use (backend_at s m) = true ∨
       Backend.can_connect (backend_at s m) = true) ∧
      r.2 = s
  | None =>
      match get_root_master (backends s) with
      | None => r.2 = s
      | Some m =>
          (Backend.is_master (backend_at s m) = false ∨
           (Backend.in_use (backend_at s m) = false ∧
            Backend.can_connect (backend_at s m) = false)) ∧
          ∃ msg, r.2 = with_log (mxs_log (process s) ++ [(LOG_ERROR, msg)]) s
      end
  end.
Proof.
  unfold get_master_backend. run_goal.
  destruct (get_root_master (backends s)) as [m|] eqn:Hroot; cbn; [|done].
  destruct (Backend.in_use (backend_at s m)) eqn:Huse; cbn.
  - destruct (Backend.is_master (backend_at s m)) eqn:Hm; cbn.
    + split_and!; [done|done|by left|done].
    + split; [by left|]. by eexists.
  - destruct (Backend.can_connect (backend_at s m)) eqn:Hcan; cbn.
    + destruct (Backend.is_master (backend_at s m)) eqn:Hm; cbn.
      * split_and!; [done|done|by right|done].
      * split; [by left|]. by eexists.
    + split; [by right|]. by eexists.
Qed.

(** ** Choosing a slave *)

(** Once [get_slave_backend] has a candidate it returns a backend. *)
Lemma get_slave_backend_loop_Some cmp s max_rlag counts i0 bs r :
  is_Some (get_slave_backend_loop cmp s max_rlag counts i0 bs (Some r)).
Proof.
  revert i0 r. induction bs as [|b bs IH]; intros i0 r; cbn; [by eexists|].
  unfold get_slave_backend_step.
  repeat (case_match; try apply IH).
  destruct (compare_backends_cases cmp s r i0 (slave_selection_criteria (rses_config s)))
    as [-> | ->]; apply IH.
Qed.

(** X3.  [get_slave_backend] returns no backend exactly when no backend
    qualifies as a first candidate: none is a slave, or the master the
    session holds as its current master, with a replication lag within the
    limit.  Neither the connection state of the backends, nor the slave
    count, nor [master_accept_reads] can make it return nothing. *)
Theorem slave_backend_none cmp max_rlag s :
  get_slave_backend cmp max_rlag s = None ↔
  ∀ i b, backends s !! i = Some b →
    ¬ ((Backend.is_slave b = true ∨
        (Backend.is_master b = true ∧ current_master s = Some i)) ∧
       rpl_lag_is_ok b max_rlag = true).
Proof.
  unfold get_slave_backend.
  generalize (get_slave_counts (backends s) (current_master s)). intros counts.
  assert (Hloop : ∀ bs i0,
    get_slave_backend_loop cmp s max_rlag counts i0 bs None = None ↔
    ∀ j b, bs !! j = Some b →
      ¬ ((Backend.is_slave b = true ∨
          (Backend.is_master b = true ∧ current_master s = Some (i0 + j)%nat)) ∧
         rpl_lag_is_ok b max_rlag = true)).
  { induction bs as [|b bs IH]; intros i0; cbn; [done|].
    assert (Hcand :
      ((Backend.is_master b || Backend.is_slave b) && rpl_lag_is_ok b max_rlag) &&
      ((Backend.is_master b && bool_decide (Some i0 = current_master s)) ||
       Backend.is_slave b) = true ↔
      (Backend.is_slave b = true ∨
       (Backend.is_master b = true ∧ current_master s = Some i0)) ∧
      rpl_lag_is_ok b max_rlag = true).
    { rewrite !andb_true_iff, !orb_true_iff, andb_true_iff, bool_decide_eq_true.
      intuition congruence. }
    unfold get_slave_backend_step.
    destruct ((Backend.is_master b || Backend.is_slave b) && rpl_lag_is_ok b max_rlag)
      eqn:Helig; cbn in Hcand.
    - destruct ((Backend.is_master b && bool_decide (Some i0 = current_master s)) ||
                Backend.is_slave b) eqn:Hfirst.
      + split.
        * intros Hnone.
          destruct (get_slave_backend_loop_Some cmp s max_rlag counts (S i0) bs i0)
            as [x Hx]. congruence.
        * intros Hall. exfalso. apply (Hall 0%nat b); [done|].
          rewrite Nat.add_0_r. by apply Hcand.
      + rewrite IH. split.
        * intros Hall [|j] b' Hb'; cbn in Hb'.
          -- injection Hb' as <-. rewrite Nat.add_0_r. rewrite <- Hcand. done.
          -- rewrite Nat.add_succ_r. by apply (Hall j b').
        * intros Hall j b' Hb'. specialize (Hall (S j) b' Hb').
          by rewrite Nat.add_succ_r in Hall.
    - rewrite IH. split.
      + intros Hall [|j] b' Hb'; cbn in Hb'.
        * injection Hb' as <-. rewrite Nat.add_0_r. rewrite <- Hcand. done.
        * rewrite Nat.add_succ_r. by apply (Hall j b').
      + intros Hall j b' Hb'. specialize (Hall (S j) b' Hb').
        by rewrite Nat.add_succ_r in Hall. }
  apply (Hloop (backends s) 0%nat).
Qed.

(** ** Packet lengths *)

Lemma byte_of_N_to_N n : Byte.to_N (byte_of_N n) = (n mod 256)%N.
Proof.
  unfold byte_of_N.
  destruct (Byte.of_N (n mod 256)) as [b|] eqn:Hb.
  - by apply Byte.to_of_N.
  - apply Byte.of_N_None_iff in Hb.
    pose proof (N.mod_lt n 256). lia.
Qed.

(** The three bytes that [gw_mysql_set_byte3] stores read back as the low
    24 bits of the value. *)
Lemma payload_len_set_byte3 v rest :
  MYSQL_GET_PAYLOAD_LEN (gw_mysql_set_byte3 v ++ rest) = (v mod 2 ^ 24)%N.
Proof.
  unfold MYSQL_GET_PAYLOAD_LEN, gw_mysql_set_byte3. cbn [app nth].
  rewrite !byte_of_N_to_N.
  change (2 ^ 8)%N with 256%N. change (2 ^ 16)%N with 65536%N.
  change (2 ^ 24)%N with 16777216%N.
  pose proof (N.div_mod' v 256). pose proof (N.mod_lt v 256).
  pose proof (N.div_mod' (v / 256) 256). pose proof (N.mod_lt (v / 256) 256).
  assert (v / 65536 = v / 256 / 256)%N as -> by (by rewrite N.Div0.div_div).
  pose proof (N.div_mod' (v / 256 / 256) 256).
  pose proof (N.mod_lt (v / 256 / 256) 256).
  pose proof (N.div_mod' v 16777216). pose proof (N.mod_lt v 16777216).
  assert (v / 16777216 = v / 256 / 256 / 256)%N as Hq by (by rewrite !N.Div0.div_div).
  rewrite Hq in *. lia.
Qed.

Lemma length_list_byte_of_string str :
  length (list_byte_of_string str) = String.length str.
Proof.
  unfold list_byte_of_string. rewrite length_map.
  induction str as [|c str IH]; cbn; [done|by rewrite IH].
Qed.

(** X4.  Under the two conditions that [is_large_query] asserts, a buffer
    of at most 2^32 - 1 bytes that holds one packet whose length field
    counts the bytes after the header, the packet is a large query exactly
    when its three length bytes are all 0xff. *)
Theorem large_query_length_field buf :
  (gwbuf_length buf < UINT32_MOD)%N →
  (MYSQL_HEADER_LEN <= gwbuf_length buf)%N →
  MYSQL_GET_PAYLOAD_LEN (gwbuf_data buf) = (gwbuf_length buf - MYSQL_HEADER_LEN)%N →
  is_large_query buf = true ↔ take 3 (gwbuf_data buf) = [xff; xff; xff].
Proof.
  unfold is_large_query, wrap32, gwbuf_length, UINT32_MOD, MYSQL_HEADER_LEN,
    GW_MYSQL_MAX_PACKET_LEN, MYSQL_GET_PAYLOAD_LEN.
  change (2 ^ 8)%N with 256%N. change (2 ^ 16)%N with 65536%N.
  change (2 ^ 24 - 1)%N with 16777215%N. change (2 ^ 32)%N with 4294967296%N.
  intros Hlt Hhdr Hlen. rewrite N.mod_small by done. rewrite N.eqb_eq.
  destruct (gwbuf_data buf) as [|b0 [|b1 [|b2 rest]]]; cbn [length] in *;
    [lia..|].
  cbn [nth take] in *. rewrite take_0.
  pose proof (Byte.to_N_bounded b0). pose proof (Byte.to_N_bounded b1).
  pose proof (Byte.to_N_bounded b2).
  split.
  - intros Hlarge.
    assert (Byte.to_N b0 = 255 ∧ Byte.to_N b1 = 255 ∧ Byte.to_N b2 = 255)%N
      as (Hb0 & Hb1 & Hb2) by lia.
    apply Byte.to_of_N_iff in Hb0, Hb1, Hb2. cbn in Hb0, Hb1, Hb2. congruence.
  - intros [= -> -> ->]. cbn in Hlen. lia.
Qed.

Lemma large_query_length_field_witness :
  is_large_query select_one = true ↔
  take 3 (gwbuf_data select_one) = [xff; xff; xff].
Proof.
  apply (large_query_length_field select_one); by vm_compute.
Defined.

(** ** The prefix of a causal read *)

(** The packet that [add_prefix_wait_gtid] builds. *)
Lemma add_prefix_wait_gtid_data srv origin s :
  let prefix := gtid_wait_prefix (wait_gtid_func srv) (gtid_pos s)
                  (causal_read_timeout (config (router s))) in
  gwbuf_data (add_prefix_wait_gtid srv origin s) =
  gw_mysql_set_byte3
    (wrap64 (N.of_nat (String.length prefix) +
             wrap64 (MYSQL_GET_PAYLOAD_LEN (gwbuf_data origin) + UINT64_MOD - 1) +
             1)) ++
  [x00; MXS_COM_QUERY] ++ list_byte_of_string prefix ++
  drop 5 (gwbuf_data origin).
Proof. done. Qed.

(** The low 24 bits of a [size_t]. *)
Lemma wrap64_mod_24 n : (wrap64 n mod 2 ^ 24 = n mod 2 ^ 24)%N.
Proof.
  unfold wrap64, UINT64_MOD.
  change (2 ^ 64)%N with (2 ^ 24 * 2 ^ 40)%N.
  rewrite N.Div0.mod_mul_r.
  rewrite (N.mul_comm (2 ^ 24)), N.Div0.mod_add. apply N.Div0.mod_mod.
Qed.

(** X5.  For a packet with at least a command byte whose length field
    counts the bytes after the header, [add_prefix_wait_gtid] builds one
    packet: sequence number 0, COM_QUERY, the wait statement, then the
    statement of the original packet without its header and command byte;
    its length field holds the low 24 bits of the number of bytes after
    the header. *)
Theorem wait_gtid_prefix_packet srv origin s :
  let prefix := gtid_wait_prefix (wait_gtid_func srv) (gtid_pos s)
                  (causal_read_timeout (config (router s))) in
  let r := add_prefix_wait_gtid srv origin s in
  (MYSQL_HEADER_LEN + 1 <= gwbuf_length origin)%N →
  MYSQL_GET_PAYLOAD_LEN (gwbuf_data origin) =
    (gwbuf_length origin - MYSQL_HEADER_LEN)%N →
  drop 3 (gwbuf_data r) =
    [x00; MXS_COM_QUERY] ++ list_byte_of_string prefix ++
    drop 5 (gwbuf_data origin) ∧
  MYSQL_GET_PAYLOAD_LEN (gwbuf_data r) =
    ((gwbuf_length r - MYSQL_HEADER_LEN) mod 2 ^ 24)%N.
Proof.
  intros prefix r Hlen Hfield. subst r.
  unfold gwbuf_length in *. rewrite add_prefix_wait_gtid_data.
  fold prefix. split; [done|].
  rewrite payload_len_set_byte3, wrap64_mod_24. f_equal.
  rewrite Hfield. unfold MYSQL_HEADER_LEN in *.
  rewrite !length_app, length_list_byte_of_string, length_drop.
  cbn [length gw_mysql_set_byte3].
  assert (wrap64 (N.of_nat (length (gwbuf_data origin)) - 4 + UINT64_MOD - 1) =
          N.of_nat (length (gwbuf_data origin)) - 5)%N as ->.
  { unfold wrap64.
    replace (N.of_nat (length (gwbuf_data origin)) - 4 + UINT64_MOD - 1)%N
      with (N.of_nat (length (gwbuf_data origin)) - 5 + 1 * UINT64_MOD)%N by lia.
    rewrite N.Div0.mod_add. apply N.mod_small.
    pose proof (N.mod_lt (N.of_nat (length (gwbuf_data origin)) - 4) (2 ^ 24))
      as Hlt.
    rewrite <- Hfield in *. unfold UINT64_MOD.
    assert (MYSQL_GET_PAYLOAD_LEN (gwbuf_data origin) < 2 ^ 24)%N; [|lia].
    unfold MYSQL_GET_PAYLOAD_LEN.
    pose proof (Byte.to_N_bounded (nth 0 (gwbuf_data origin) x00)).
    pose proof (Byte.to_N_bounded (nth 1 (gwbuf_data origin) x00)).
    pose proof (Byte.to_N_bounded (nth 2 (gwbuf_data origin) x00)).
    change (2 ^ 8)%N with 256%N. change (2 ^ 16)%N with 65536%N.
    change (2 ^ 24)%N with 16777216%N. lia. }
  lia.
Qed.

Lemma wait_gtid_prefix_packet_witness :
  let r := add_prefix_wait_gtid (example_server "server2" ROLE_SLAVE) select_one
             example_session in
  drop 3 (gwbuf_data r) =
    [x00; MXS_COM_QUERY] ++
    list_byte_of_string
      (gtid_wait_prefix "MASTER_GTID_WAIT" (gtid_pos example_session) "10") ++
    list_byte_of_string "SELECT 1" ∧
  MYSQL_GET_PAYLOAD_LEN (gwbuf_data r) =
    ((gwbuf_length r - MYSQL_HEADER_LEN) mod 2 ^ 24)%N.
Proof.
  apply (wait_gtid_prefix_packet (example_server "server2" ROLE_SLAVE) select_one
           example_session); by vm_compute.
Defined.

(** ** Preparing the target *)

(** Runs the monad in the hypothesis [H] and keeps the backends by name. *)
Ltac run_at H :=
  repeat (progress
    (unfold bind, gets, modify, when, ret, on_backend, update_backend,
       mxs_log_message, MXS_INFO, MXS_WARNING, MXS_ERROR, MXS_DEBUG in H;
     cbn in H)).

(** A connection attempt that fails leaves the backend out of use. *)
Lemma connect_failure log target s :
  Backend.in_use (backend_at s target) = false →
  (on_backend target (Backend.connect log) s).1 = false →
  (Backend.connect log (backend_at s target)).1 = false ∧
  Backend.in_use (backend_at (on_backend target (Backend.connect log) s).2 target)
    = false.
Proof.
  intros Huse. unfold on_backend, Backend.connect.
  destruct (b_connect_ok (backend_at s target)); cbn; [done|].
  intros _. split; [done|]. unfold backend_at in *. cbn.
  destruct (decide (target < length (backends s))%nat).
  - by rewrite list_lookup_insert_eq.
  - by rewrite list_insert_ge by lia.
Qed.

(** X6.  [prepare_target] leaves a target that is in use, or that cannot
    be connected to, as it is and reports success without logging; it
    reports failure only for a target that is not in use and can be
    connected to, either because the connection attempt failed or because
    the statement goes to the master alone and [master_reconnection] is
    off, and such a target is still not in use afterwards. *)
Theorem prepare_target_outcome target route_target s :
  let t := backend_at s target in
  let r := prepare_target target route_target s in
  (Backend.in_use t = true ∨ Backend.can_connect t = false → r = (true, s)) ∧
  (r.1 = false →
   Backend.in_use t = false ∧ Backend.can_connect t = true ∧
   Backend.in_use (backend_at r.2 target) = false ∧
   ((Backend.connect (sescmd_list s) t).1 = false ∨
    (TARGET_IS_SLAVE route_target = false ∧
     TARGET_IS_MASTER route_target = true ∧
     master_reconnection (rses_config s) = false ∧
     backends r.2 = backends s))).
Proof.
  intros t r. subst t.
  assert (Hr : r = prepare_target target route_target s) by done.
  clearbody r. unfold prepare_target in Hr. run_at Hr.
  destruct (Backend.in_use (backend_at s target)) eqn:Huse; run_at Hr.
  { subst r. split; [done|]. by intros [=]. }
  destruct (Backend.can_connect (backend_at s target)) eqn:Hcan; run_at Hr.
  2: { subst r. split; [done|]. by intros [=]. }
  split; [by intros [?|?]|].
  assert (Hconnect :
    r = on_backend target (Backend.connect (sescmd_list s)) s → r.1 = false →
    false = false ∧ true = true ∧
    Backend.in_use (backend_at r.2 target) = false ∧
    ((Backend.connect (sescmd_list s) (backend_at s target)).1 = false ∨
     (TARGET_IS_SLAVE route_target = false ∧
      TARGET_IS_MASTER route_target = true ∧
      master_reconnection (rses_config s) = false ∧
      backends r.2 = backends s))).
  { intros -> Hfail.
    destruct (connect_failure (sescmd_list s) target s Huse Hfail) as [Hc Hu].
    split_and!; [done|done|done|by left]. }
  destruct (TARGET_IS_SLAVE route_target) eqn:Hslave; run_at Hr.
  - destruct (disable_sescmd_history (rses_config s)); run_at Hr.
    + destruct (recv_sescmd s =? 0)%N; run_at Hr; [by apply Hconnect|].
      by subst r; intros [=].
    + by apply Hconnect.
  - destruct (master_reconnection (rses_config s)) eqn:Hrec; run_at Hr.
    + destruct (TARGET_IS_MASTER route_target) eqn:Hmaster; run_at Hr.
      * destruct (disable_sescmd_history (rses_config s)); run_at Hr.
        -- destruct (recv_sescmd s =? 0)%N; run_at Hr; [by apply Hconnect|].
           by subst r; intros [=].
        -- by apply Hconnect.
      * by subst r; intros [=].
    + destruct (TARGET_IS_MASTER route_target) eqn:Hmaster; run_at Hr.
      * subst r. cbn. intros _. split_and!; [done|done|done|]. by right.
      * by subst r; intros [=].
Qed.

(** ** Counters of a session write *)

(** [purge_history] changes the history and the stored responses only. *)
Lemma purge_history_shape sescmd s :
  ∃ l m, (purge_history sescmd s).2 = set_sescmd_list l (set_sescmd_responses m s).
Proof.
  assert (Hid : s = set_sescmd_list (sescmd_list s)
                      (set_sescmd_responses (sescmd_responses s) s))
    by (by destruct s).
  unfold purge_history. destruct (bool_decide _); [|by eauto].
  run_monad.
  destruct (list_find _ (sescmd_list s)) as [[first x]|]; [|by eauto].
  destruct (list_find _ (drop _ _)) as [[off y]|]; [|by eauto].
  cbn. by eexists _, _.
Qed.

(** The counters and the prepared statements after [route_session_write]. *)
Lemma route_session_write_counters querybuf command type s :
  let r := route_session_write querybuf command type s in
  sent_sescmd r.2 = (if r.1 then sescmd_count s else sent_sescmd s) ∧
  recv_sescmd r.2 =
    (if r.1 && negb (mxs_mysql_command_will_respond command)
     then incr64 (recv_sescmd s) else recv_sescmd s) ∧
  ps_manager r.2 =
    (if qc_query_is_type type QUERY_TYPE_PREPARE_NAMED_STMT ||
        qc_query_is_type type QUERY_TYPE_PREPARE_STMT
     then ps_manager s ++ [(new_buffer querybuf type, sescmd_count s)]
     else ps_manager s).
Proof.
  unfold route_session_write, new_buffer.
  run_monad.
  destruct (_ || _); cbn;
    destruct (route_session_write_loop _ _ _ _) as [bs acc]; cbn;
    destruct (_ && _); cbn;
    destruct (warn_history_exceeded (process s)) eqn:Hw; cbn;
    destruct (disable_sescmd_history (rses_config s)) eqn:Hd; cbn;
    try destruct (lower_bound _ _); cbn;
    try match goal with
        | |- context [purge_history ?c ?s] =>
            let H := fresh "Hshape" in
            destruct (purge_history_shape c s) as (l & m & H);
            destruct (purge_history c s) as [[] s']; cbn in H; subst s'
        end; cbn;
    destruct (negb (nsucc acc =? 0)%Z); cbn;
    try destruct (negb (mxs_mysql_command_will_respond command)); cbn;
    done.
Qed.

Lemma filter_none {A} (P : A → Prop) `{!∀ x, Decision (P x)} (l : list A) :
  (∀ x, x ∈ l → ¬ P x) → filter P l = [].
Proof.
  induction l as [|x l IH]; intros Hl; [done|].
  rewrite filter_cons_False by (apply Hl; left).
  apply IH. intros y Hy. apply Hl. by right.
Qed.

(** X7.  [route_session_write] takes a position whether or not a backend
    executes the command.  With [executed] the number of backends in use
    that executed the command: the call succeeds when [executed] is not
    zero and then records the position as the last one sent; a command the
    server answers adds [executed] to the expected responses, and a
    command the server does not answer counts as completed at once, if it
    was executed at all. *)
Theorem session_write_accounting querybuf command type s :
  let sescmd := new_session_command querybuf type s in
  let r := route_session_write querybuf command type s in
  let executed :=
    length (filter (λ b, (session_write_result sescmd b).1 = true) (backends s)) in
  sescmd_count r.2 = incr64 (sescmd_count s) ∧
  r.1 = negb (executed =? 0)%nat ∧
  sent_sescmd r.2 = (if r.1 then sescmd_count s else sent_sescmd s) ∧
  (if mxs_mysql_command_will_respond command
   then expected_responses r.2 = (expected_responses s + Z.of_nat executed)%Z ∧
        recv_sescmd r.2 = recv_sescmd s
   else expected_responses r.2 = expected_responses s ∧
        recv_sescmd r.2 = if r.1 then incr64 (recv_sescmd s) else recv_sescmd s).
Proof.
  intros sescmd r executed.
  destruct (route_session_write_fields querybuf command type s)
    as (Hres & _ & Hcount & Hexp & _).
  destruct (session_write_loop_spec querybuf command type s)
    as (_ & Hn & _ & Hacc & _).
  destruct (route_session_write_counters querybuf command type s)
    as (Hsent & Hrecv & _).
  fold r sescmd in Hres, Hcount, Hexp, Hn, Hacc, Hsent, Hrecv.
  fold executed in Hn, Hacc.
  rewrite Hexp, Hacc, Hrecv. split_and!; [done| |done|].
  - rewrite Hres, Hn. by destruct executed.
  - destruct (mxs_mysql_command_will_respond command); cbn.
    + by rewrite andb_false_r.
    + rewrite andb_true_r. split; [lia|done].
Qed.

(** X8.  In a session none of whose backends is in use,
    [route_session_write] fails and touches no backend and no response
    counter, but the command has taken its position and, while the
    history is kept, it is stored in the history. *)
Theorem session_write_without_backend querybuf command type s :
  let r := route_session_write querybuf command type s in
  (∀ b, b ∈ backends s → Backend.in_use b = false) →
  r.1 = false ∧
  backends r.2 = backends s ∧
  expected_responses r.2 = expected_responses s ∧
  sent_sescmd r.2 = sent_sescmd s ∧
  recv_sescmd r.2 = recv_sescmd s ∧
  sescmd_count r.2 = incr64 (sescmd_count s) ∧
  (history_limit_exceeded s = false →
   disable_sescmd_history (rses_config s) = false →
   sescmd_list r.2 =
     history_append (new_session_command querybuf type s) (sescmd_list s)).
Proof.
  intros r Hunused.
  destruct (route_session_write_fields querybuf command type s)
    as (Hres & Hbs & Hcount & Hexp & Hlist & _).
  destruct (session_write_loop_spec querybuf command type s)
    as (Hloop & Hn & _ & Hacc & _).
  destruct (route_session_write_counters querybuf command type s)
    as (Hsent & Hrecv & _).
  fold r in Hres, Hbs, Hcount, Hexp, Hlist, Hsent, Hrecv.
  assert (Hnone :
    filter (λ b, (session_write_result (new_session_command querybuf type s) b).1
                 = true) (backends s) = []).
  { apply filter_none. intros b Hb.
    unfold session_write_result. by rewrite (Hunused b Hb). }
  rewrite Hnone in Hn, Hacc. cbn in Hn, Hacc.
  assert (Hfalse : r.1 = false) by (by rewrite Hres, Hn).
  rewrite Hfalse in Hsent, Hrecv. cbn in Hsent, Hrecv.
  split_and!; try done.
  - rewrite Hbs, Hloop. rewrite <- (list_fmap_id (backends s)) at 2.
    apply list_fmap_ext. intros i b Hb.
    unfold session_write_result.
    by rewrite (Hunused b (list_elem_of_lookup_2 _ _ _ Hb)).
  - rewrite Hexp, Hacc. destruct (mxs_mysql_command_will_respond command); lia.
  - intros Hlimit Hdis. by rewrite Hlist, Hlimit, Hdis.
Qed.

Lemma session_write_without_backend_witness :
  let s := set_backends [example_backend "server1" ROLE_MASTER false] example_session in
  let r := route_session_write use_test MXS_COM_INIT_DB 0 s in
  r.1 = false ∧ sescmd_count r.2 = incr64 (sescmd_count s) ∧
  length (sescmd_list r.2) = S (length (sescmd_list s)).
Proof.
  cbv zeta.
  destruct (session_write_without_backend use_test MXS_COM_INIT_DB 0
              (set_backends [example_backend "server1" ROLE_MASTER false]
                 example_session))
    as (Hres & _ & _ & _ & _ & Hcount & Hlist).
  { intros b Hb. apply list_elem_of_singleton in Hb as ->. reflexivity. }
  split_and!; [done|done|].
  rewrite Hlist by (by vm_compute). by vm_compute.
Defined.

(** ** Writing to the target: what is sent and what is counted *)

(** What [handle_got_target] does to the counters, to the state of a LOAD
    DATA LOCAL INFILE, to the target, to the archived statement and to
    the log. *)
Lemma handle_got_target_effects querybuf target store s :
  let r := handle_got_target querybuf target store s in
  let counted := response_counted querybuf s in
  wait_gtid_state r.2 =
    (if causal_read querybuf s then EXPECTING_WAIT_GTID_RESULT
     else EXPECTING_NOTHING) ∧
  stats (router r.2) =
    (if r.1 then stats (router (add_n_queries s)) else stats (router s)) ∧
  expected_responses r.2 =
    (if r.1 && counted then (expected_responses s + 1)%Z
     else expected_responses s) ∧
  load_data_state r.2 =
    (if r.1 && counted then load_data_next (load_data_state s)
     else load_data_state s) ∧
  b_written (backend_at r.2 target) =
    (if r.1
     then b_written (backend_at s target) ++
          [(got_target_send_buf querybuf target s, got_target_response querybuf s)]
     else b_written (backend_at s target)) ∧
  b_reply_state (backend_at r.2 target) =
    (if r.1 && counted then REPLY_STATE_START
     else b_reply_state (backend_at s target)) ∧
  b_in_use (backend_at r.2 target) = r.1 ∧
  stmt (session (client_dcb r.2)) =
    (if r.1 && store
     then Some (querybuf, Backend.server (backend_at s target))
     else stmt (session (client_dcb s))) ∧
  ∃ new, mxs_log (process r.2) = mxs_log (process s) ++ new ∧
         (r.1 = false → last new = Some (LOG_ERROR, "Routing query failed.")).
Proof.
  intros r counted. subst counted.
  unfold response_counted, got_target_send_buf, got_target_response, causal_read.
  assert (Hr : r = handle_got_target querybuf target store s) by done.
  clearbody r. unfold handle_got_target in Hr.
  unfold bind, gets, modify, when, ret in Hr. cbn beta in Hr.
  forced_node_step Hr. run_in Hr.
  unfold backend_at.
  destruct (backends s !! target) as [b|] eqn:Hlk; cbn in *.
  all: destruct (_ && negb (bool_decide (gtid_pos s = ""))) eqn:Hcausal; run_in Hr.
  all: unfold Backend.write in Hr; rewrite ?Hlk in Hr; cbn in Hr.
  all: try (destruct (b_in_use b) eqn:Huse; run_in Hr).
  all: try (destruct (b_write_ok b) eqn:Hwok; run_in Hr).
  all: rewrite ?Hlk in Hr; cbn in Hr.
  all: repeat step_got_target Hr.
  all: try forced_node_step Hr.
  all: subst r; unfold with_log; cbn.
  all: rewrite ?list_lookup_insert_eq
         by (rewrite ?length_insert; eapply lookup_lt_Some; eassumption).
  all: rewrite ?list_insert_ge by (by apply lookup_ge_None).
  all: rewrite ?Hlk; cbn; rewrite ?Huse.
  all: split_and!; try done.
  all: try (eexists; split; [by rewrite <- ?app_assoc|]; try done; intros _;
            by rewrite ?last_app).
  all: repeat match goal with
              | H : bool_decide _ = true |- _ => apply bool_decide_eq_true in H
              | H : bool_decide _ = false |- _ => apply bool_decide_eq_false in H
              end.
  all: destruct (load_data_state s); done.
Qed.

(** X9.  When the write to the target fails, because the target is not in
    use or the write itself fails, [handle_got_target] reports failure and
    logs an error; no backend has received anything, no response is
    expected, nothing is counted and the state of a large query is kept,
    and the target is not in use afterwards.  The pin of a read-only
    transaction, set before the write, stays on the target. *)
Theorem got_target_write_failure querybuf target store s :
  let r := handle_got_target querybuf target store s in
  r.1 = false →
  (b_in_use (backend_at s target) = false ∨
   b_write_ok (backend_at s target) = false) ∧
  b_in_use (backend_at r.2 target) = false ∧
  (∀ i, b_written (backend_at r.2 i) = b_written (backend_at s i)) ∧
  expected_responses r.2 = expected_responses s ∧
  stats (router r.2) = stats (router s) ∧
  load_data_state r.2 = load_data_state s ∧
  large_query r.2 = large_query s ∧
  prev_target r.2 = prev_target s ∧
  target_node r.2 =
    (if bool_decide (target_node s = None) &&
        session_trx_is_read_only (session (client_dcb s))
     then Some target else target_node s) ∧
  last (logged s r.2) = Some (LOG_ERROR, "Routing query failed.").
Proof.
  intros r Hfail.
  destruct (handle_got_target_fields querybuf target store s)
    as (Hres & _ & _ & _ & _ & _ & _ & Htn & Hlarge & Hprev & Hother).
  destruct (handle_got_target_effects querybuf target store s)
    as (_ & Hstats & Hexp & Hlds & Hwritten & _ & Huse & _ & new & Hlog & Hlast).
  fold r in Hres, Htn, Hlarge, Hprev, Hother, Hstats, Hexp, Hlds, Hwritten, Huse,
    Hlog, Hlast.
  rewrite Hfail in *. cbn in *.
  split_and!; try done.
  - symmetry in Hres. apply andb_false_iff in Hres. done.
  - intros i. destruct (decide (i = target)) as [->|Hne]; [done|].
    by rewrite Hother.
  - rewrite (logged_app _ _ _ Hlog). by apply Hlast.
Qed.

Lemma got_target_write_failure_witness :
  let r := handle_got_target select_one 2 false example_session in
  r.1 = false ∧
  b_in_use (backend_at r.2 2) = false ∧
  expected_responses r.2 = expected_responses example_session ∧
  last (logged example_session r.2) = Some (LOG_ERROR, "Routing query failed.").
Proof.
  cbv zeta.
  destruct (got_target_write_failure select_one 2 false example_session)
    as (_ & Huse & _ & Hexp & _ & _ & _ & _ & _ & Hlast); [by vm_compute|].
  split_and!; [by vm_compute|done|done|done].
Defined.

(** X10.  When the write to the target succeeds, [handle_got_target] has
    written exactly one packet to the target and has counted one query.
    A response is expected, and the reply of the target awaited, only if
    the command is one the server answers, no LOAD DATA LOCAL INFILE is
    sending its data and the packet is not of the maximum length; such a
    packet moves a LOAD DATA LOCAL INFILE from its start to the sending of
    the data and from its end to inactive. *)
Theorem got_target_accounting querybuf target store s :
  let r := handle_got_target querybuf target store s in
  let responds :=
    negb (bool_decide (load_data_state s = LOAD_DATA_ACTIVE)) &&
    mxs_mysql_command_will_respond (mxs_mysql_get_command querybuf) in
  let counted := negb (is_large_query querybuf) && responds in
  b_in_use (backend_at s target) = true →
  b_write_ok (backend_at s target) = true →
  r.1 = true ∧
  (∃ buf, b_written (backend_at r.2 target) =
          b_written (backend_at s target) ++
          [(buf, if responds then EXPECT_RESPONSE else NO_RESPONSE)]) ∧
  n_queries (stats (router r.2)) = incr64 (n_queries (stats (router s))) ∧
  expected_responses r.2 =
    (if counted then (expected_responses s + 1)%Z else expected_responses s) ∧
  b_reply_state (backend_at r.2 target) =
    (if counted then REPLY_STATE_START else b_reply_state (backend_at s target)) ∧
  load_data_state r.2 =
    (if counted
     then match load_data_state s with
          | LOAD_DATA_START => LOAD_DATA_ACTIVE
          | LOAD_DATA_END => LOAD_DATA_INACTIVE
          | lds => lds
          end
     else load_data_state s).
Proof.
  intros r responds counted Huse Hwok.
  destruct (handle_got_target_fields querybuf target store s) as (Hres & _).
  destruct (handle_got_target_effects querybuf target store s)
    as (_ & Hstats & Hexp & Hlds & Hwritten & Hreply & _).
  fold r in Hres, Hstats, Hexp, Hlds, Hwritten, Hreply.
  rewrite Huse, Hwok in Hres. cbn in Hres. rewrite Hres in *. cbn in *.
  assert (Hcounted : response_counted querybuf s = counted).
  { unfold response_counted, got_target_response, counted, responds.
    by destruct (_ && mxs_mysql_command_will_respond _). }
  rewrite Hcounted in *.
  split_and!; try done.
  - eexists. rewrite Hwritten. unfold got_target_response. by fold responds.
  - by rewrite Hstats.
  - rewrite Hlds. unfold load_data_next. by destruct counted, (load_data_state s).
Qed.

Lemma got_target_accounting_witness :
  let r := handle_got_target select_one 1 false example_session in
  r.1 = true ∧
  n_queries (stats (router r.2)) = 1%N ∧
  expected_responses r.2 = (expected_responses example_session + 1)%Z.
Proof.
  cbv zeta.
  destruct (got_target_accounting select_one 1 false example_session)
    as (Hres & _ & Hq & Hexp & _); [by vm_compute|by vm_compute|].
  split_and!; [done|by rewrite Hq|by rewrite Hexp].
Defined.

(** X11.  [handle_got_target] sends a causal read, the statement behind
    the wait for the GTID position, exactly for a COM_QUERY with causal
    reads enabled and a known GTID position, and then expects the result
    of the wait; every other statement is sent as it is and nothing is
    expected of a wait, whatever was expected before.  The statement
    archived for a retry is the statement of the client, without the
    wait. *)
Theorem got_target_causal_read querybuf target store s :
  let r := handle_got_target querybuf target store s in
  let causal :=
    bool_decide (mxs_mysql_get_command querybuf = MXS_COM_QUERY) &&
    enable_causal_read (config (router s)) &&
    negb (bool_decide (gtid_pos s = "")) in
  wait_gtid_state r.2 =
    (if causal then EXPECTING_WAIT_GTID_RESULT else EXPECTING_NOTHING) ∧
  (r.1 = true →
   (∃ response,
      b_written (backend_at r.2 target) =
      b_written (backend_at s target) ++
      [(if causal
        then add_prefix_wait_gtid (Backend.server (backend_at s target)) querybuf s
        else querybuf, response)]) ∧
   (store = true →
    stmt (session (client_dcb r.2)) =
      Some (querybuf, Backend.server (backend_at s target)))).
Proof.
  intros r causal.
  destruct (handle_got_target_effects querybuf target store s)
    as (Hwait & _ & _ & _ & Hwritten & _ & _ & Hstmt & _).
  fold r in Hwait, Hwritten, Hstmt.
  split; [done|]. intros Hres. rewrite Hres in *. cbn in *. split.
  - eexists. by rewrite Hwritten.
  - intros ->. by rewrite Hstmt.
Qed.

(** ** What a routed statement writes *)

(** Routing to a target that was found fails and writes nothing, or writes
    one packet to the target, or queues the statement and writes nothing. *)
Lemma route_single_stmt_dispatch_writes querybuf info not_locked t store s :
  let r := route_single_stmt_dispatch querybuf info not_locked t store s in
  let kept := ∀ i, b_written (backend_at r.2 i) = b_written (backend_at s i) in
  (∀ i, i ≠ t → b_written (backend_at r.2 i) = b_written (backend_at s i)) ∧
  ((r.1 = false ∧ kept ∧ query_queue r.2 = query_queue s ∧
    expected_responses r.2 = expected_responses s) ∨
   (r.1 = true ∧ query_queue r.2 = query_queue s ∧
    (expected_responses r.2 = expected_responses s ∨
     expected_responses r.2 = (expected_responses s + 1)%Z) ∧
    ∃ pkt, b_written (backend_at r.2 t) = b_written (backend_at s t) ++ [pkt]) ∨
   (r.1 = true ∧ kept ∧ query_queue r.2 = query_queue s ++ [querybuf] ∧
    expected_responses r.2 = (expected_responses s + 1)%Z)).
Proof.
  intros r kept. subst kept.
  assert (Hr : r = route_single_stmt_dispatch querybuf info not_locked t store s)
    by done.
  clearbody r. unfold route_single_stmt_dispatch in Hr. run_in Hr.
  destruct (prepare_target_fields t (ri_target info) s)
    as (_ & Hq1 & He1 & _ & _ & _ & _ & _ & Hw1).
  destruct (prepare_target t (ri_target info) s) as [prepared s1].
  cbn in Hq1, He1, Hw1. run_in Hr.
  destruct prepared; run_in Hr.
  2: { subst r. cbn. split; [done|]. left. done. }
  destruct (Backend.have_session_commands _); run_in Hr.
  { subst r. cbn. unfold gwbuf_append, gwbuf_clone. split.
    - intros i _. unfold backend_at in *. cbn. apply Hw1.
    - right. right. split_and!; [done| |congruence|congruence].
      intros i. unfold backend_at in *. cbn. apply Hw1. }
  destruct (handle_got_target_fields querybuf t store s1)
    as (_ & _ & Hq2 & _ & _ & _ & _ & _ & _ & _ & Hb2).
  destruct (handle_got_target_effects querybuf t store s1)
    as (_ & _ & He2 & _ & Hw2 & _).
  destruct (handle_got_target querybuf t store s1) as [succp s2].
  cbn in Hq2, Hb2, He2, Hw2. run_in Hr.
  assert (∀ i, i ≠ t → b_written (backend_at s2 i) = b_written (backend_at s i)) as Hw.
  { intros i Hne. rewrite (Hb2 i Hne). apply Hw1. }
  destruct succp; run_in Hr.
  - assert (∃ pkt, b_written (backend_at s2 t) = b_written (backend_at s t) ++ [pkt])
      as Hpkt by (eexists; by rewrite Hw2, Hw1).
    assert (expected_responses s2 = expected_responses s ∨
            expected_responses s2 = (expected_responses s + 1)%Z) as Hexp.
    { rewrite He2, He1. cbn. destruct (response_counted querybuf s1); [by right|by left]. }
    destruct (bool_decide (ri_command info = MXS_COM_STMT_EXECUTE) && not_locked);
      run_in Hr; subst r; cbn; (split; [exact Hw|]); right; left;
      (split_and!; [done|congruence|exact Hexp|exact Hpkt]).
  - subst r. cbn. split; [exact Hw|]. left. split_and!; [done| |congruence|].
    + intros i. destruct (decide (i = t)) as [->|Hne]; [|by apply Hw].
      by rewrite Hw2, Hw1.
    + cbn in He2. congruence.
Qed.

(** X12.  A statement that is not routed to all servers is written to at
    most one backend, as one packet, or it is queued; it is never both
    written and queued.  When the routing fails, nothing has been written
    or queued and no response is expected; a response is expected of a
    queued statement, and at most one of a written statement. *)
Theorem route_single_stmt_writes cmp querybuf info s :
  let r := route_single_stmt cmp querybuf info s in
  let kept := ∀ i, b_written (backend_at r.2 i) = b_written (backend_at s i) in
  TARGET_IS_ALL (ri_target info) = false →
  (kept ∧ query_queue r.2 = query_queue s ∧
   expected_responses r.2 = expected_responses s) ∨
  (r.1 = true ∧ query_queue r.2 = query_queue s ∧
   (expected_responses r.2 = expected_responses s ∨
    expected_responses r.2 = (expected_responses s + 1)%Z) ∧
   ∃ t pkt,
     b_written (backend_at r.2 t) = b_written (backend_at s t) ++ [pkt] ∧
     ∀ i, i ≠ t → b_written (backend_at r.2 i) = b_written (backend_at s i)) ∨
  (r.1 = true ∧ kept ∧
   query_queue r.2 = query_queue s ++ [routed_buffer querybuf info s] ∧
   expected_responses r.2 = (expected_responses s + 1)%Z).
Proof.
  intros r kept Hall. subst kept.
  assert (Hr : r = route_single_stmt cmp querybuf info s) by done. clearbody r.
  unfold route_single_stmt in Hr. run_in Hr.
  fold (routed_buffer querybuf info s) in Hr.
  set (q := routed_buffer querybuf info s) in *.
  rewrite Hall in Hr. run_in Hr.
  destruct (route_single_stmt_target_frame cmp q info s)
    as (_ & Hq0 & He0 & _ & _ & _ & Hw0).
  destruct (route_single_stmt_target cmp q info s) as [[[succp target] store] s0].
  cbn in Hq0, He0, Hw0. run_in Hr.
  set (outcome := λ (res : bool) (s1 : RWSplitSession),
    ((∀ i, b_written (backend_at s1 i) = b_written (backend_at s i)) ∧
     query_queue s1 = query_queue s ∧
     expected_responses s1 = expected_responses s) ∨
    (res = true ∧ query_queue s1 = query_queue s ∧
     (expected_responses s1 = expected_responses s ∨
      expected_responses s1 = (expected_responses s + 1)%Z) ∧
     ∃ t pkt,
       b_written (backend_at s1 t) = b_written (backend_at s t) ++ [pkt] ∧
       ∀ i, i ≠ t → b_written (backend_at s1 i) = b_written (backend_at s i)) ∨
    (res = true ∧
     (∀ i, b_written (backend_at s1 i) = b_written (backend_at s i)) ∧
     query_queue s1 = query_queue s ++ [q] ∧
     expected_responses s1 = (expected_responses s + 1)%Z)).
  change (outcome r.1 r.2).
  assert (Hrest : ∀ (c succp' : bool) s1,
    outcome succp' s1 →
    r = (let '(_, s') :=
           (if c then handle_connection_keepalive target else λ s, (tt, s)) s1 in
         (succp', s')) →
    outcome r.1 r.2).
  { intros c succp' s1 Hs1 ->. destruct c; cbn; [|done].
    destruct (handle_connection_keepalive_fields target s1)
      as (_ & Hq3 & He3 & _ & _ & _ & _ & Hw3 & _).
    destruct (handle_connection_keepalive target s1) as [[] s3].
    cbn in *. unfold outcome. setoid_rewrite Hw3. by rewrite Hq3, He3. }
  assert (Hsame : outcome succp s0) by (left; split_and!; [done|done|done]).
  destruct target as [t|]; run_in Hr.
  2: { destruct succp; run_in Hr; [by eapply Hrest|by subst r]. }
  destruct succp; run_in Hr; [|by subst r].
  match type of Hr with
  | context [route_single_stmt_dispatch ?a ?b ?c ?d ?e ?f] =>
      destruct (route_single_stmt_dispatch_writes a b c d e f) as (Hw & Hcases);
      destruct (route_single_stmt_dispatch a b c d e f) as [succp s1]
  end.
  cbn in Hw, Hcases.
  assert (outcome succp s1) as Hout.
  { destruct Hcases
      as [(-> & Hk & Hq & He)|[(-> & Hq & He & pkt & Hpkt)|(-> & Hk & Hq & He)]].
    - left. split_and!; [|congruence|congruence]. intros i. by rewrite Hk.
    - right. left. split_and!; [done|congruence|by rewrite He0 in He|].
      exists t, pkt. split.
      + by rewrite Hpkt, Hw0.
      + intros i Hne. by rewrite Hw.
    - right. right. split_and!; [done| |congruence|congruence].
      intros i. by rewrite Hk. }
  run_in Hr. destruct succp; run_in Hr; [by eapply Hrest|by subst r].
Qed.

Lemma route_single_stmt_writes_witness :
  let s := example_session in
  let r := route_single_stmt example_cmpfun select_one read_info s in
  let kept := ∀ i, b_written (backend_at r.2 i) = b_written (backend_at s i) in
  (kept ∧ query_queue r.2 = query_queue s ∧
   expected_responses r.2 = expected_responses s) ∨
  (r.1 = true ∧ query_queue r.2 = query_queue s ∧
   (expected_responses r.2 = expected_responses s ∨
    expected_responses r.2 = (expected_responses s + 1)%Z) ∧
   ∃ t pkt,
     b_written (backend_at r.2 t) = b_written (backend_at s t) ++ [pkt] ∧
     ∀ i, i ≠ t → b_written (backend_at r.2 i) = b_written (backend_at s i)) ∨
  (r.1 = true ∧ kept ∧
   query_queue r.2 = query_queue s ++ [routed_buffer select_one read_info s] ∧
   expected_responses r.2 = (expected_responses s + 1)%Z).
Proof.
  apply (route_single_stmt_writes example_cmpfun select_one read_info
           example_session).
  by vm_compute.
Defined.

(** X13.  A statement whose route target names neither all servers, nor a
    hint, nor a slave, nor the master is not routed while no large query
    is in progress: the call fails and the session is left as it is. *)
Theorem route_single_stmt_no_target cmp querybuf info s :
  large_query s = false →
  TARGET_IS_ALL (ri_target info) = false →
  TARGET_IS_NAMED_SERVER (ri_target info) = false →
  TARGET_IS_RLAG_MAX (ri_target info) = false →
  TARGET_IS_SLAVE (ri_target info) = false →
  TARGET_IS_MASTER (ri_target info) = false →
  route_single_stmt cmp querybuf info s = (false, s).
Proof.
  intros Hlarge Hall Hnamed Hrlag Hslave Hmaster.
  unfold route_single_stmt, route_single_stmt_target. run_goal.
  by rewrite Hall, Hlarge, Hnamed, Hrlag, Hslave, Hmaster.
Qed.

Lemma route_single_stmt_no_target_witness :
  route_single_stmt example_cmpfun select_one
    {| ri_target := TARGET_UNDEFINED; ri_command := MXS_COM_QUERY;
       ri_type := 0; ri_stmt_id := 0 |} example_session =
  (false, example_session).
Proof.
  apply route_single_stmt_no_target; by vm_compute.
Defined.

(** ** Keeping idle connections alive *)

(** X14.  With a keep-alive interval that fits the 32-bit computation,
    [handle_connection_keepalive] pings exactly the backends that are in
    use, are not the target, are not waiting for a result and have been
    idle for more than [connection_keepalive] seconds, ten heartbeats to
    the second; every other backend is left as it is, and the log gains
    nothing but the notices of the pings. *)
Theorem keepalive_pings target s :
  let r := handle_connection_keepalive target s in
  let keepalive := (connection_keepalive (rses_config s) * 10)%Z in
  (- 2 ^ 31 <= keepalive < 2 ^ 31)%Z →
  length (backends r.2) = length (backends s) ∧
  (∀ i b, backends s !! i = Some b →
     let idle := to_int32 (hkheartbeat (process s) - b_last_read b) in
     backends r.2 !! i =
       Some (if bool_decide (Backend.in_use b = true ∧ Some i ≠ target ∧
                             Backend.is_waiting_result b = false ∧
                             (keepalive < idle)%Z)
             then modutil_ignorable_ping b else b)) ∧
  Forall (λ e, e = (LOG_INFO, "Pinging %s, idle for %ld seconds")%string)
    (logged s r.2).
Proof.
  intros r keepalive _. subst r keepalive.
  unfold handle_connection_keepalive. cbn. split_and!.
  - by rewrite length_imap.
  - intros i b Hb. rewrite list_lookup_imap, Hb. cbn. f_equal.
    assert (Hdue : keepalive_due s target i b = true ↔
                   Backend.in_use b = true ∧ Some i ≠ target ∧
                   Backend.is_waiting_result b = false ∧
                   (connection_keepalive (rses_config s) * 10 <
                    to_int32 (hkheartbeat (process s) - b_last_read b))%Z).
    { unfold keepalive_due.
      rewrite !andb_true_iff, !negb_true_iff, bool_decide_eq_false, Z.ltb_lt.
      tauto. }
    destruct (keepalive_due s target i b).
    + rewrite bool_decide_true; [done|by apply Hdue].
    + rewrite bool_decide_false; [done|]. intros Hd. by apply Hdue in Hd.
  - unfold logged. cbn. rewrite drop_app_length.
    apply Forall_concat, Forall_forall. intros l Hl.
    apply elem_of_lookup_imap in Hl as (i & b & -> & _).
    destruct (keepalive_due s target i b); by repeat constructor.
Qed.

Lemma keepalive_pings_witness :
  let s := set_process {| hkheartbeat := 5000; errno := 0; mxs_log := [];
                          warn_history_exceeded := true;
                          sigsegv := false |} example_session in
  let r := handle_connection_keepalive (Some 1%nat) s in
  backends r.2 !! 0%nat =
    Some (modutil_ignorable_ping (example_backend "server1" ROLE_MASTER true)) ∧
  backends r.2 !! 1%nat = Some (example_backend "server2" ROLE_SLAVE true) ∧
  backends r.2 !! 2%nat = Some (example_backend "server3" ROLE_SLAVE false).
Proof.
  cbv zeta.
  destruct (keepalive_pings (Some 1%nat)
              (set_process {| hkheartbeat := 5000; errno := 0; mxs_log := [];
                              warn_history_exceeded := true;
                          sigsegv := false |} example_session))
    as (_ & Hping & _); [by vm_compute|].
  split_and!.
  - by rewrite (Hping 0%nat (example_backend "server1" ROLE_MASTER true)).
  - by rewrite (Hping 1%nat (example_backend "server2" ROLE_SLAVE true)).
  - by rewrite (Hping 2%nat (example_backend "server3" ROLE_SLAVE false)).
Defined.

(** ** Routing to the master *)

(** The master that [get_master_backend] returns has the master state and
    is in use or can be connected to; the session is left as it is. *)
Lemma get_master_backend_Some s m :
  (get_master_backend s).1 = Some m →
  Backend.is_master (backend_at s m) = true ∧
  (Backend.in_use (backend_at s m) || Backend.can_connect (backend_at s m)) = true ∧
  (get_master_backend s).2 = s.
Proof.
  unfold get_master_backend. run_goal.
  destruct (get_root_master (backends s)) as [m'|]; cbn; [|done].
  destruct (_ || _) eqn:Huse; cbn; [|done].
  destruct (Backend.is_master (backend_at s m')) eqn:Hm; cbn; [|done].
  by intros [= <-].
Qed.

(** X15.  [handle_master_is_target] replaces the master of the session by
    the master it has found exactly when [master_reconnection] is on, the
    master found is not the current one, no transaction is active and the
    session is not locked to its master; the write then goes to the new
    master and the information on temporary tables is reset.  In every
    other case the master of the session and the information on temporary
    tables are kept. *)
Theorem master_replacement cmp s :
  let target := (get_target_backend cmp BE_MASTER None MAX_RLAG_UNDEFINED s).1 in
  let r := handle_master_is_target cmp s in
  let replace :=
    master_reconnection (rses_config s) = true ∧
    target ≠ None ∧ target ≠ current_master s ∧
    session_trx_is_active (session (client_dcb s)) = false ∧
    locked_to_master s = false in
  (replace →
   r.1 = (true, target) ∧ current_master r.2 = target ∧
   have_tmp_tables r.2 = false ∧ temp_tables r.2 = [] ∧
   n_master (stats (router r.2)) = incr64 (n_master (stats (router s))) ∧
   backends r.2 = backends s) ∧
  (¬ replace →
   current_master r.2 = current_master s ∧
   have_tmp_tables r.2 = have_tmp_tables s ∧
   temp_tables r.2 = temp_tables s).
Proof.
  intros target r replace. subst replace.
  assert (Hr : r = handle_master_is_target cmp s) by done. clearbody r.
  unfold handle_master_is_target in Hr. run_in Hr.
  destruct (get_target_backend_process cmp BE_MASTER None MAX_RLAG_UNDEFINED s)
    as [p Hp].
  subst target.
  destruct (get_target_backend cmp BE_MASTER None MAX_RLAG_UNDEFINED s)
    as [target s1].
  cbn in Hp. subst s1. cbn. run_in Hr.
  assert (Hsrm : should_replace_master target (set_process p s) = true ↔
    master_reconnection (rses_config s) = true ∧
    target ≠ None ∧ target ≠ current_master s ∧
    session_trx_is_active (session (client_dcb s)) = false ∧
    locked_to_master s = false).
  { unfold should_replace_master, locked_to_master. cbn.
    rewrite !andb_true_iff, !negb_true_iff, bool_decide_eq_true,
      bool_decide_eq_false. tauto. }
  destruct (should_replace_master target (set_process p s)) eqn:Hrep; run_in Hr.
  - split; [|intros Hno; exfalso; by apply Hno, Hsrm].
    intros (_ & Hsome & _). 
    rewrite (bool_decide_true (target ≠ None)) in Hr by done.
    rewrite (bool_decide_true (target = target)) in Hr by done.
    run_in Hr. by subst r.
  - split; [intros Hyes; apply Hsrm in Hyes; done|]. intros _.
    repeat step_in Hr; by subst r.
Qed.

Lemma master_replacement_witness :
  let r := handle_master_is_target example_cmpfun session_reconnect in
  r.1 = (true, Some 0%nat) ∧ current_master r.2 = Some 0%nat ∧
  have_tmp_tables r.2 = false ∧ temp_tables r.2 = [].
Proof.
  cbv zeta.
  destruct (master_replacement example_cmpfun session_reconnect) as [Hrep _].
  destruct Hrep as (Hres & Hcm & Htmp & Htab & _); [by vm_compute|].
  split_and!; [by rewrite Hres|by rewrite Hcm|done|done].
Defined.

(** X16.  Unless writes without a master are answered with an error,
    [handle_master_is_target] succeeds only with a target, and the target
    is the master the session now holds; the write is counted for the
    master and no backend is touched.  Outside a pinned read-only
    transaction the target has the master state and is in use or can be
    connected to. *)
Theorem master_target_is_current cmp s :
  let r := handle_master_is_target cmp s in
  master_failure_mode (rses_config s) ≠ RW_ERROR_ON_WRITE →
  r.1.1 = true →
  ∃ t, r.1.2 = Some t ∧ current_master r.2 = Some t ∧
       n_master (stats (router r.2)) = incr64 (n_master (stats (router s))) ∧
       backends r.2 = backends s ∧
       (target_node s = None ∨
        session_trx_is_read_only (session (client_dcb s)) = false →
        Backend.is_master (backend_at s t) = true ∧
        (Backend.in_use (backend_at s t) = true ∨
         Backend.can_connect (backend_at s t) = true)).
Proof.
  intros r Hmode.
  assert (Hr : r = handle_master_is_target cmp s) by done. clearbody r.
  unfold handle_master_is_target in Hr. run_in Hr.
  assert (Hfound : ∀ t,
    (get_target_backend cmp BE_MASTER None MAX_RLAG_UNDEFINED s).1 = Some t →
    target_node s = None ∨
    session_trx_is_read_only (session (client_dcb s)) = false →
    Backend.is_master (backend_at s t) = true ∧
    (Backend.in_use (backend_at s t) = true ∨
     Backend.can_connect (backend_at s t) = true)).
  { intros t Ht Hfree. unfold get_target_backend in Ht. run_in Ht.
    assert (bool_decide (target_node s ≠ None) &&
            session_trx_is_read_only (session (client_dcb s)) = false) as Hpin.
    { destruct Hfree as [-> | ->]; [done|by rewrite andb_false_r]. }
    rewrite Hpin in Ht. run_in Ht.
    apply get_master_backend_Some in Ht as (Hm & Hu & _).
    split; [done|]. by apply orb_true_iff. }
  destruct (get_target_backend_process cmp BE_MASTER None MAX_RLAG_UNDEFINED s)
    as [p Hp].
  destruct (get_target_backend cmp BE_MASTER None MAX_RLAG_UNDEFINED s)
    as [target s1].
  cbn in Hp, Hfound. subst s1. run_in Hr.
  repeat step_in Hr; subst r; cbn; intros Hres; try done.
  all: try (exfalso;
            match goal with
            | H : bool_decide (master_failure_mode _ = _) = true |- _ =>
                by apply bool_decide_eq_true in H
            end).
  all: repeat match goal with
       | H : _ && _ = true |- _ => apply andb_true_iff in H as [? ?]
       | H : bool_decide _ = true |- _ => apply bool_decide_eq_true in H
       end.
  all: destruct target as [t|]; [|done]; exists t; split_and!; try done.
  all: by apply Hfound.
Qed.

Lemma master_target_is_current_witness :
  ∃ t, (handle_master_is_target example_cmpfun example_session).1.2 = Some t ∧
       current_master (handle_master_is_target example_cmpfun example_session).2
         = Some t.
Proof.
  destruct (master_target_is_current example_cmpfun example_session)
    as (t & Ht & Hcm & _); [by vm_compute|by vm_compute|].
  by exists t.
Defined.

(** ** Routing by a hint *)

#[local] Arguments get_hinted_backend : simpl never.

Lemma handle_hints_named hints named rlag s :
  (handle_hints hints named rlag s).1.1 =
  foldl (λ named hint,
           if bool_decide (hint_type hint = HINT_ROUTE_TO_NAMED_SERVER)
           then Some (hint_data hint) else named)
        named hints.
Proof.
  revert named rlag s. induction hints as [|hint hints IH]; intros named rlag s;
    [done|].
  cbn [handle_hints foldl].
  destruct (bool_decide (hint_type hint = HINT_ROUTE_TO_NAMED_SERVER)).
  - unfold bind, MXS_INFO, mxs_log_message, modify. cbn. apply IH.
  - destruct (_ && _).
    + destruct (strtol (hint_value hint)) as [v out].
      unfold bind, when, gets, modify, MXS_INFO, mxs_log_message.
      destruct out; cbn; destruct (_ || _); cbn; apply IH.
    + apply IH.
Qed.

(** X17.  Outside a pinned read-only transaction, a statement with a hint
    that names a server is routed by [handle_hinted_target] to the backend
    that [get_hinted_backend] finds for the name of the last such hint.
    The route target and the replication lag play no part: neither the
    lag of the named server, nor a hinted or configured limit. *)
Theorem named_hint_routing cmp querybuf route_target s name :
  last_named_server (gwbuf_hint querybuf) = Some name →
  target_node s = None ∨
  session_trx_is_read_only (session (client_dcb s)) = false →
  (handle_hinted_target cmp querybuf route_target s).1 = get_hinted_backend name s.
Proof.
  intros Hname Hfree. unfold last_named_server in Hname.
  unfold handle_hinted_target.
  pose proof (handle_hints_named (gwbuf_hint querybuf) None MAX_RLAG_UNDEFINED s)
    as Hnamed.
  destruct (handle_hints_process (gwbuf_hint querybuf) None MAX_RLAG_UNDEFINED s)
    as [p Hp].
  unfold bind at 1.
  destruct (handle_hints (gwbuf_hint querybuf) None MAX_RLAG_UNDEFINED s)
    as [[named rlag] s1].
  cbn in Hnamed, Hp. subst s1. rewrite Hname in Hnamed. subst named.
  assert (bool_decide (target_node s ≠ None) &&
          session_trx_is_read_only (session (client_dcb s)) = false) as Hpin.
  { destruct Hfree as [-> | ->]; [done|by rewrite andb_false_r]. }
  unfold get_target_backend. run_goal.
  destruct (bool_decide (rlag = MAX_RLAG_UNDEFINED)); cbn; rewrite Hpin; cbn.
  all: change (get_hinted_backend name (set_process p s))
         with (get_hinted_backend name s).
  all: destruct (get_hinted_backend name s); cbn; [done|].
  all: destruct (TARGET_IS_NAMED_SERVER route_target); cbn; [done|].
  all: by destruct (TARGET_IS_RLAG_MAX route_target).
Qed.

Lemma named_hint_routing_witness :
  (handle_hinted_target example_cmpfun hinted_select TARGET_NAMED_SERVER
     session_slave_limit).1 = get_hinted_backend "Server2" session_slave_limit ∧
  get_hinted_backend "Server2" session_slave_limit = Some 1%nat ∧
  rlag (b_server (backend_at session_slave_limit 1)) = 100%Z.
Proof.
  split; [|by vm_compute].
  apply (named_hint_routing example_cmpfun hinted_select TARGET_NAMED_SERVER
           session_slave_limit "Server2"); [by vm_compute|by left].
Defined.

(** ** The stored responses of purged commands *)

(** [purge_history] leaves the session as it is, or it removes one command
    of the history, which has the payload of the new command and follows
    an earlier one with that payload, together with the response stored
    for its position. *)
Lemma purge_history_cases sescmd s :
  (purge_history sescmd s).2 = s ∨
  ∃ j old,
    sescmd_list s !! j = Some old ∧
    payload old = payload sescmd ∧
    (∃ i first, (i < j)%nat ∧ sescmd_list s !! i = Some first ∧
                payload first = payload sescmd) ∧
    (purge_history sescmd s).2 =
      set_sescmd_list (delete j (sescmd_list s))
        (set_sescmd_responses (delete (get_position old) (sescmd_responses s)) s).
Proof.
  unfold purge_history. destruct (bool_decide _); [|by left].
  run_monad.
  destruct (list_find _ (sescmd_list s)) as [[i first]|] eqn:Hfirst; [|by left].
  destruct (list_find _ (drop _ _)) as [[off old]|] eqn:Hsecond; [|by left].
  right. cbn.
  apply list_find_Some in Hfirst as (Hi & Hpi & _).
  apply list_find_Some in Hsecond as (Hj & Hpj & _).
  rewrite lookup_drop in Hj.
  exists (S (i + off)), old. split_and!; [done|done| |done].
  exists i, first. split_and!; [lia|done|done].
Qed.

(** X18.  [purge_history] keeps the stored responses in step with the
    history: if the commands of the history have distinct positions and
    every stored response belongs to a command of the history, this is
    still so afterwards, and no response is left for a command that was
    removed. *)
Theorem purge_history_responses sescmd s :
  let s' := (purge_history sescmd s).2 in
  NoDup (get_position <$> sescmd_list s) →
  responses_in_history s →
  NoDup (get_position <$> sescmd_list s') ∧
  responses_in_history s' ∧
  (∀ c, c ∈ sescmd_list s → c ∉ sescmd_list s' →
        sescmd_responses s' !! get_position c = None).
Proof.
  intros s' Hnodup Hresp. subst s'.
  destruct (purge_history_cases sescmd s)
    as [->|(j & old & Hj & _ & _ & ->)]; [by split_and!|].
  unfold responses_in_history in *. cbn. split_and!.
  - rewrite list_fmap_delete. eapply sublist_NoDup; [done|apply sublist_delete].
  - intros k Hk. apply lookup_delete_is_Some in Hk as [Hne Hk].
    destruct (Hresp k Hk) as (c & Hc & Hpos).
    exists c. split; [|done].
    apply list_elem_of_lookup in Hc as [i Hi].
    assert (i ≠ j) as Hij.
    { intros ->. rewrite Hj in Hi. injection Hi as ->. done. }
    destruct (decide (i < j)%nat).
    + apply (list_elem_of_lookup_2 _ i). by rewrite list_lookup_delete_lt.
    + apply (list_elem_of_lookup_2 _ (i - 1)).
      rewrite list_lookup_delete_ge by lia. by replace (S (i - 1)) with i by lia.
  - intros c Hc Hgone.
    apply list_elem_of_lookup in Hc as [i Hi].
    destruct (decide (i = j)) as [->|Hij].
    + rewrite Hj in Hi. injection Hi as ->. apply lookup_delete_eq.
    + exfalso. apply Hgone.
      destruct (decide (i < j)%nat).
      * apply (list_elem_of_lookup_2 _ i). by rewrite list_lookup_delete_lt.
      * apply (list_elem_of_lookup_2 _ (i - 1)).
        rewrite list_lookup_delete_ge by lia. by replace (S (i - 1)) with i by lia.
Qed.


Lemma purge_history_responses_witness :
  let s := set_sescmd_responses {[ 1%N := ok_packet; 3%N := ok_packet ]}
             session_use_set_use in
  let s' := (purge_history {| m_buffer := use_test; m_pos := 4 |} s).2 in
  NoDup (get_position <$> sescmd_list s') ∧ responses_in_history s' ∧
  sescmd_responses s' !! 3%N = None.
Proof.
  cbv zeta.
  destruct (purge_history_responses {| m_buffer := use_test; m_pos := 4 |}
              (set_sescmd_responses {[ 1%N := ok_packet; 3%N := ok_packet ]}
                 session_use_set_use))
    as (Hnodup & Hresp & Hgone).
  - apply (bool_decide_unpack _). by vm_compute.
  - intros k [v Hk]. cbn in Hk.
    apply lookup_insert_Some in Hk as [[<- _]|[_ Hk]].
    + exists {| m_buffer := use_test; m_pos := 1 |}. split; [|done].
      apply (list_elem_of_lookup_2 _ 0%nat). by vm_compute.
    + apply lookup_singleton_Some in Hk as [<- _].
      exists {| m_buffer := use_test; m_pos := 3 |}. split; [|done].
      apply (list_elem_of_lookup_2 _ 2%nat). by vm_compute.
  - split_and!; [done|done|].
    apply (Hgone {| m_buffer := use_test; m_pos := 3 |}).
    + apply (list_elem_of_lookup_2 _ 2%nat). by vm_compute.
    + intros Hin. apply (list_elem_of_fmap_2 get_position) in Hin.
      revert Hin. apply (bool_decide_unpack _). by vm_compute.
Defined.

(** ** The forced node in relaxed multi-statement mode *)

Lemma prepare_target_current_master target route_target s :
  current_master (prepare_target target route_target s).2 = current_master s.
Proof.
  assert (∃ r, r = prepare_target target route_target s) as [r Hr] by by eexists.
  rewrite <- Hr. unfold prepare_target in Hr. run_in Hr.
  repeat step_in Hr; by subst r.
Qed.

Lemma handle_master_is_target_config cmp s :
  let r := handle_master_is_target cmp s in
  rses_config r.2 = rses_config s ∧ target_node r.2 = target_node s.
Proof.
  intros r. assert (Hr : r = handle_master_is_target cmp s) by done. clearbody r.
  unfold handle_master_is_target in Hr. run_in Hr.
  destruct (get_target_backend_process cmp BE_MASTER None MAX_RLAG_UNDEFINED s)
    as [p Hp].
  destruct (get_target_backend cmp BE_MASTER None MAX_RLAG_UNDEFINED s)
    as [target s1].
  cbn in Hp. subst s1. run_in Hr.
  repeat step_in Hr; by subst r.
Qed.

(** Outside a read-only transaction, routing to a target that was found
    changes neither the master of the session nor its forced node. *)
Lemma route_single_stmt_dispatch_master querybuf info not_locked t store s :
  let r := route_single_stmt_dispatch querybuf info not_locked t store s in
  session_trx_is_read_only (session (client_dcb s)) = false →
  current_master r.2 = current_master s ∧ target_node r.2 = target_node s.
Proof.
  intros r Hro.
  assert (Hr : r = route_single_stmt_dispatch querybuf info not_locked t store s)
    by done.
  clearbody r. unfold route_single_stmt_dispatch in Hr. run_in Hr.
  pose proof (prepare_target_current_master t (ri_target info) s) as Hcm1.
  destruct (prepare_target_fields t (ri_target info) s)
    as (_ & _ & _ & _ & _ & Htn1 & Hdcb1 & _).
  destruct (prepare_target t (ri_target info) s) as [prepared s1].
  cbn in Hcm1, Htn1, Hdcb1. run_in Hr.
  destruct prepared; run_in Hr; [|by subst r].
  destruct (Backend.have_session_commands _); run_in Hr; [by subst r|].
  destruct (handle_got_target_fields querybuf t store s1)
    as (_ & _ & _ & _ & Hcm2 & _ & _ & Htn2 & _).
  destruct (handle_got_target querybuf t store s1) as [succp s2].
  cbn in Hcm2, Htn2. rewrite Hdcb1, Hro, !andb_false_r in Htn2. cbn in Htn2.
  assert (target_node s2 = target_node s) as Htn.
  { rewrite Htn2. by destruct (succp && _). }
  run_in Hr. repeat step_in Hr; subst r; cbn; split; congruence.
Qed.

(** X19.  In relaxed multi-statement mode, with [strict_multi_stmt] and
    [strict_sp_calls] off, a statement that is routed to the master
    outside a read-only transaction never leaves the session locked to
    its master: afterwards the forced node is not the master of the
    session. *)
Theorem relaxed_mode_unlocks cmp querybuf info s :
  let r := route_single_stmt cmp querybuf info s in
  large_query s = false →
  TARGET_IS_ALL (ri_target info) = false →
  TARGET_IS_NAMED_SERVER (ri_target info) = false →
  TARGET_IS_RLAG_MAX (ri_target info) = false →
  TARGET_IS_SLAVE (ri_target info) = false →
  TARGET_IS_MASTER (ri_target info) = true →
  strict_multi_stmt (rses_config s) = false →
  strict_sp_calls (rses_config s) = false →
  session_trx_is_read_only (session (client_dcb s)) = false →
  ∀ m, current_master r.2 = Some m → target_node r.2 ≠ Some m.
Proof.
  intros r Hlarge Hall Hnamed Hrlag Hslave Hmaster Hmulti Hsp Hro.
  assert (Hr : r = route_single_stmt cmp querybuf info s) by done. clearbody r.
  unfold route_single_stmt, route_single_stmt_target in Hr. run_in Hr.
  fold (routed_buffer querybuf info s) in Hr.
  set (q := routed_buffer querybuf info s) in *.
  rewrite Hall, Hlarge, Hnamed, Hrlag, Hslave, Hmaster in Hr. run_in Hr.
  destruct (handle_master_is_target_config cmp s) as (Hcfg & _).
  destruct (handle_master_is_target_frame cmp s) as (_ & _ & _ & _ & _ & Hses & _).
  destruct (handle_master_is_target cmp s) as [[succp target] s0].
  cbn in Hcfg, Hses. run_in Hr.
  rewrite Hcfg, Hmulti, Hsp in Hr. run_in Hr.
  assert (Hend : ∀ (c succp' : bool) s1,
    r = (let '(_, s') :=
           (if c then handle_connection_keepalive target else λ s, (tt, s)) s1 in
         (succp', s')) →
    (∀ m, current_master s1 = Some m → target_node s1 ≠ Some m) →
    ∀ m, current_master r.2 = Some m → target_node r.2 ≠ Some m).
  { intros c succp' s1 -> Hs1. by destruct c. }
  assert (Hfree : ∀ s1,
    s1 = (if bool_decide (target_node s0 = current_master s0)
          then set_target_node None s0 else s0) →
    session_trx_is_read_only (session (client_dcb s1)) = false ∧
    ∀ m, current_master s1 = Some m → target_node s1 ≠ Some m).
  { intros s1 ->. case_bool_decide as Heq; cbn.
    - split; [by rewrite Hses|]. done.
    - split; [by rewrite Hses|]. intros m Hm Htn. apply Heq. congruence. }
  destruct (bool_decide (target_node s0 = current_master s0)); run_in Hr.
  all: destruct (Hfree _ eq_refl) as [Hro1 Hfree1]; clear Hfree.
  all: destruct target as [t|]; run_in Hr; [|by eapply Hend; [exact Hr|]].
  all: destruct succp; run_in Hr; [|by subst r].
  all: match type of Hr with
       | context [route_single_stmt_dispatch ?a ?b ?c ?d ?e ?f] =>
           destruct (route_single_stmt_dispatch_master a b c d e f Hro1)
             as (Hcm2 & Htn2);
           destruct (route_single_stmt_dispatch a b c d e f) as [succp s1]
       end.
  all: cbn in Hcm2, Htn2; run_in Hr.
  all: eapply Hend; [exact Hr|].
  all: intros m Hm; rewrite Htn2; apply Hfree1; cbn in *; congruence.
Qed.

Lemma relaxed_mode_unlocks_witness :
  let s := set_target_node (Some 0%nat) session_relaxed in
  let r := route_single_stmt example_cmpfun select_one write_info s in
  locked_to_master s = true ∧
  ∀ m, current_master r.2 = Some m → target_node r.2 ≠ Some m.
Proof.
  cbv zeta. split; [by vm_compute|].
  apply (relaxed_mode_unlocks example_cmpfun select_one write_info
           (set_target_node (Some 0%nat) session_relaxed)); by vm_compute.
Defined.

(** ** The replication lag of a hint *)

(** X20.  A hint [max_slave_replication_lag] whose value reads as zero, a
    zero or a text that is no number, sets the limit to zero only while
    [errno] is clear: [errno] is not reset before the value is read, so
    with an error left in [errno] by an earlier call the hint is ignored
    and the limit stays as it was. *)
Theorem zero_lag_hint hint named rlag s :
  hint_type hint = HINT_PARAMETER →
  strncasecmp_prefix (hint_data hint) "max_slave_replication_lag" = true →
  strtol (hint_value hint) = (0%Z, false) →
  (handle_hints [hint] named rlag s).1 =
    (named, if (errno (process s) =? 0)%Z then 0%Z else rlag).
Proof.
  intros Htype Hname Hval. cbn [handle_hints].
  rewrite Htype, Hname, Hval.
  rewrite (bool_decide_false (HINT_PARAMETER = HINT_ROUTE_TO_NAMED_SERVER)) by done.
  rewrite (bool_decide_true (HINT_PARAMETER = HINT_PARAMETER)) by done.
  run_goal. by destruct (errno (process s) =? 0)%Z.
Qed.

Lemma zero_lag_hint_witness :
  let hint := {| hint_type := HINT_PARAMETER;
                 hint_data := "max_slave_replication_lag"; hint_value := "0" |} in
  let stale := set_process (set_errno ERANGE example_process) example_session in
  (handle_hints [hint] None 5 example_session).1 = (None, 0%Z) ∧
  (handle_hints [hint] None 5 stale).1 = (None, 5%Z).
Proof.
  cbv zeta. split.
  - apply (zero_lag_hint _ None 5%Z example_session); by vm_compute.
  - apply (zero_lag_hint _ None 5%Z
             (set_process (set_errno ERANGE example_process) example_session));
      by vm_compute.
Defined.

(** ** The best slave *)

(** With [master_accept_reads] on and a candidate [r0] that is the best of
    the backends before the index [i], the loop of [get_slave_backend]
    returns the best of all the backends. *)
Lemma get_slave_backend_loop_best cmp s max_rlag i0 bs i r0 r :
  let sc := slave_selection_criteria (rses_config s) in
  let counts := get_slave_counts (backends s) (current_master s) in
  let best (r hi : nat) :=
    ∀ j b, (i0 ≤ j < hi)%nat → backends s !! j = Some b →
      slave_eligible b max_rlag = true →
      j = i0 ∨ Backend.in_use b = true ∨ slave_count_below_max s = true →
      (cmp sc (backend_at s r) b <= 0)%Z in
  (∀ a b, (cmp sc a b <= 0)%Z ∨ (cmp sc b a <= 0)%Z) →
  (∀ a b c, (cmp sc a b <= 0)%Z → (cmp sc b c <= 0)%Z → (cmp sc a c <= 0)%Z) →
  master_accept_reads (rses_config s) = true →
  (∀ k, bs !! k = backends s !! (i + k)%nat) →
  (i0 < i)%nat →
  best r0 i →
  get_slave_backend_loop cmp s max_rlag counts i bs (Some r0) = Some r →
  best r (i + length bs)%nat.
Proof.
  intros sc counts best Htotal Htrans Hreads.
  revert i r0. induction bs as [|b bs IH]; intros i r0 Hbs Hi Hbest Hloop.
  { cbn in Hloop. injection Hloop as <-. cbn. by rewrite Nat.add_0_r. }
  cbn [get_slave_backend_loop length] in *.
  assert (Hb : backends s !! i = Some b).
  { specialize (Hbs 0%nat). cbn in Hbs. by rewrite Nat.add_0_r in Hbs. }
  assert (Hrest : ∀ k, bs !! k = backends s !! (S i + k)%nat).
  { intros k. specialize (Hbs (S k)). cbn in Hbs.
    by rewrite Nat.add_succ_r in Hbs. }
  replace (i + S (length bs))%nat with (S i + length bs)%nat by lia.
  assert (Hstep : ∀ r1,
    best r1 i →
    (slave_eligible b max_rlag = true →
     Backend.in_use b = true ∨ slave_count_below_max s = true →
     (cmp sc (backend_at s r1) b <= 0)%Z) →
    best r1 (S i)).
  { intros r1 Hr1 Hnew j b' Hj Hb' Helig Hadm.
    destruct (decide (j = i)) as [->|Hne].
    - rewrite Hb in Hb'. injection Hb' as <-.
      apply Hnew; [done|]. destruct Hadm as [->|Hadm]; [lia|done].
    - apply (Hr1 j b'); [lia|done..]. }
  unfold get_slave_backend_step in Hloop. fold (slave_eligible b max_rlag) in Hloop.
  destruct (slave_eligible b max_rlag) eqn:Helig.
  2: { apply (IH (S i) r0); [done|lia| |done]. apply Hstep; [done|by intros [=]]. }
  fold counts in Hloop.
  change (counts.2 <? max_slave_count (router s))%Z
    with (slave_count_below_max s) in Hloop.
  destruct (Backend.in_use b || slave_count_below_max s) eqn:Hadm.
  2: { apply orb_false_iff in Hadm as [Hu Hc].
       apply (IH (S i) r0); [done|lia| |done]. apply Hstep; [done|].
       intros _ [?|?]; congruence. }
  rewrite Hreads in Hloop. cbn [negb andb] in Hloop.
  unfold compare_backends in Hloop. fold sc in Hloop.
  assert (backend_at s i = b) as Hbi by (unfold backend_at; by rewrite Hb).
  rewrite Hbi in Hloop.
  destruct (cmp sc (backend_at s r0) b <=? 0)%Z eqn:Hcmp.
  - apply Z.leb_le in Hcmp.
    apply (IH (S i) r0); [done|lia| |done]. by apply Hstep.
  - apply Z.leb_gt in Hcmp.
    assert (cmp sc b (backend_at s r0) <= 0)%Z as Hle
      by (destruct (Htotal b (backend_at s r0)); [done|lia]).
    apply (IH (S i) i); [done|lia| |done]. apply Hstep.
    + intros j b' Hj Hb' Helig' Hadm'. rewrite Hbi.
      apply (Htrans _ (backend_at s r0)); [done|]. by apply (Hbest j b').
    + intros _ _. rewrite Hbi. by destruct (Htotal b b).
Qed.

(** X21.  With [master_accept_reads] on and a comparator that is a total
    preorder, the backend that [get_slave_backend] returns is the best one
    by the selection criterion among the first candidate and every later
    backend that is a master or a slave within the lag limit and is in
    use, or any such backend while the slave count is below
    [max_slave_count]. *)
Theorem slave_backend_best cmp max_rlag s r :
  let sc := slave_selection_criteria (rses_config s) in
  (∀ a b, (cmp sc a b <= 0)%Z ∨ (cmp sc b a <= 0)%Z) →
  (∀ a b c, (cmp sc a b <= 0)%Z → (cmp sc b c <= 0)%Z → (cmp sc a c <= 0)%Z) →
  master_accept_reads (rses_config s) = true →
  get_slave_backend cmp max_rlag s = Some r →
  ∃ i0, first_candidate s max_rlag = Some i0 ∧
    ∀ j b, (i0 ≤ j)%nat → backends s !! j = Some b →
      slave_eligible b max_rlag = true →
      j = i0 ∨ Backend.in_use b = true ∨ slave_count_below_max s = true →
      (cmp sc (backend_at s r) b <= 0)%Z.
Proof.
  intros sc Htotal Htrans Hreads. unfold get_slave_backend, first_candidate.
  set (counts := get_slave_counts (backends s) (current_master s)).
  assert (Hfirst : ∀ bs i,
    (∀ k, bs !! k = backends s !! (i + k)%nat) →
    get_slave_backend_loop cmp s max_rlag counts i bs None = Some r →
    ∃ i0, first_candidate_from s max_rlag i bs = Some i0 ∧
      ∀ j b, (i0 ≤ j < i + length bs)%nat → backends s !! j = Some b →
        slave_eligible b max_rlag = true →
        j = i0 ∨ Backend.in_use b = true ∨ slave_count_below_max s = true →
        (cmp sc (backend_at s r) b <= 0)%Z).
  { induction bs as [|b bs IH]; intros i Hbs Hloop; [done|].
    cbn [get_slave_backend_loop first_candidate_from length] in *.
    assert (Hb : backends s !! i = Some b).
    { specialize (Hbs 0%nat). cbn in Hbs. by rewrite Nat.add_0_r in Hbs. }
    assert (Hrest : ∀ k, bs !! k = backends s !! (S i + k)%nat).
    { intros k. specialize (Hbs (S k)). cbn in Hbs.
      by rewrite Nat.add_succ_r in Hbs. }
    replace (i + S (length bs))%nat with (S i + length bs)%nat by lia.
    unfold get_slave_backend_step in Hloop.
    fold (slave_eligible b max_rlag) in Hloop.
    destruct (slave_eligible b max_rlag) eqn:Helig; cbn [andb].
    2: { by apply IH. }
    destruct ((Backend.is_master b && bool_decide (Some i = current_master s)) ||
              Backend.is_slave b) eqn:Hcand.
    2: { by apply IH. }
    exists i. split; [done|].
    apply (get_slave_backend_loop_best cmp s max_rlag i bs (S i) i r);
      [done|done|done|done|lia| |done].
    intros j b' Hj Hb' _ _. assert (j = i) as -> by lia.
    rewrite Hb in Hb'. injection Hb' as <-.
    assert (backend_at s i = b) as -> by (unfold backend_at; by rewrite Hb).
    by destruct (Htotal b b). }
  intros Hloop.
  destruct (Hfirst (backends s) 0%nat (λ k, eq_refl) Hloop) as (i0 & Hi0 & Hbest).
  exists i0. split; [done|].
  intros j b Hj Hb. apply (Hbest j b); [|done].
  apply lookup_lt_Some in Hb. lia.
Qed.

Lemma slave_backend_best_witness :
  let s := session_reads_on_master in
  ∃ i0, first_candidate s MAX_RLAG_UNDEFINED = Some i0 ∧
    ∀ j b, (i0 ≤ j)%nat → backends s !! j = Some b →
      slave_eligible b MAX_RLAG_UNDEFINED = true →
      j = i0 ∨ Backend.in_use b = true ∨ slave_count_below_max s = true →
      (example_cmpfun (slave_selection_criteria (rses_config s))
         (backend_at s 0) b <= 0)%Z.
Proof.
  apply (slave_backend_best example_cmpfun MAX_RLAG_UNDEFINED
           session_reads_on_master 0).
  - intros a b. unfold example_cmpfun. lia.
  - intros a b c. unfold example_cmpfun. lia.
  - reflexivity.
  - by vm_compute.
Defined.

(** ** Routing to a target that was found *)

(** A target that is in use needs no preparation. *)
Lemma prepare_target_in_use target route_target s :
  Backend.in_use (backend_at s target) = true →
  prepare_target target route_target s = (true, s).
Proof.
  intros Huse. unfold prepare_target. run_goal.
  unfold Backend.in_use in *. by rewrite Huse.
Qed.

(** [handle_got_target] leaves the server of the target, its queue of
    session commands and the state of its network alone. *)
Lemma handle_got_target_target querybuf target store s :
  let r := handle_got_target querybuf target store s in
  b_server (backend_at r.2 target) = b_server (backend_at s target) ∧
  b_session_commands (backend_at r.2 target) =
    b_session_commands (backend_at s target) ∧
  b_write_ok (backend_at r.2 target) = b_write_ok (backend_at s target).
Proof.
  intros r. assert (Hr : r = handle_got_target querybuf target store s) by done.
  clearbody r. unfold handle_got_target in Hr.
  unfold bind, gets, modify, when, ret in Hr. cbn beta in Hr.
  forced_node_step Hr. run_in Hr.
  unfold backend_at.
  destruct (backends s !! target) as [b|] eqn:Hlk; cbn in *.
  all: destruct (_ && negb (bool_decide (gtid_pos s = ""))) eqn:Hcausal; run_in Hr.
  all: unfold Backend.write in Hr; rewrite ?Hlk in Hr; cbn in Hr.
  all: try (destruct (b_in_use b) eqn:Huse; run_in Hr).
  all: try (destruct (b_write_ok b) eqn:Hwok; run_in Hr).
  all: rewrite ?Hlk in Hr; cbn in Hr.
  all: repeat step_got_target Hr.
  all: try forced_node_step Hr.
  all: subst r; unfold with_log; cbn.
  all: rewrite ?list_lookup_insert_eq
         by (rewrite ?length_insert; eapply lookup_lt_Some; eassumption).
  all: rewrite ?list_insert_ge by (by apply lookup_ge_None).
  all: rewrite ?Hlk; cbn; done.
Qed.

Lemma backend_ready_spec s t :
  backend_ready s t = true ↔
  Backend.in_use (backend_at s t) = true ∧
  b_write_ok (backend_at s t) = true ∧
  b_session_commands (backend_at s t) = [].
Proof.
  unfold backend_ready, Backend.have_session_commands.
  rewrite !andb_true_iff, negb_true_iff, negb_false_iff, bool_decide_eq_true.
  tauto.
Qed.

(** What routing to a target that was found does.  No backend but the
    target is written to.  Either nothing is written at all, and the map
    of executed statements and the state of a large query are left alone;
    or one packet is written to the target, which is ready afterwards, the
    state of a large query is set by the length of the packet and the
    target of a COM_STMT_EXECUTE is recorded.  A target that is ready is
    written to, and the forced node follows the read-only transaction. *)
Lemma route_single_stmt_dispatch_outcome querybuf info not_locked t store s :
  let r := route_single_stmt_dispatch querybuf info not_locked t store s in
  let written pkt :=
    r.1 = true ∧
    b_written (backend_at r.2 t) = b_written (backend_at s t) ++ [pkt] ∧
    backend_ready r.2 t = true ∧
    exec_map r.2 =
      (if bool_decide (ri_command info = MXS_COM_STMT_EXECUTE) && not_locked
       then <[ri_stmt_id info := t]> (exec_map s) else exec_map s) ∧
    large_query r.2 = is_large_query querybuf ∧
    prev_target r.2 = (if is_large_query querybuf then Some t else None) in
  (∀ i, i ≠ t → b_written (backend_at r.2 i) = b_written (backend_at s i)) ∧
  (((∀ i, b_written (backend_at r.2 i) = b_written (backend_at s i)) ∧
    exec_map r.2 = exec_map s ∧
    large_query r.2 = large_query s ∧
    prev_target r.2 = prev_target s) ∨
   ∃ pkt, written pkt) ∧
  (backend_ready s t = true →
   written (got_target_packet querybuf t s) ∧
   target_node r.2 = forced_node_after t s ∧
   session_trx_is_read_only (session (client_dcb r.2)) =
     session_trx_is_read_only (session (client_dcb s)) ∧
   session_trx_is_ending (session (client_dcb r.2)) =
     session_trx_is_ending (session (client_dcb s))).
Proof.
  intros r written.
  assert (Hr : r = route_single_stmt_dispatch querybuf info not_locked t store s)
    by done.
  clearbody r. unfold route_single_stmt_dispatch in Hr.
  unfold bind, gets, ret in Hr. cbn beta in Hr.
  (* the write, once the target is prepared and nothing is pending *)
  set (R1 := λ s1 : RWSplitSession,
    let '(succp, s2) := handle_got_target querybuf t store s1 in
    let '(_, s3) :=
      when (succp && bool_decide (ri_command info = MXS_COM_STMT_EXECUTE) &&
            not_locked)
        (modify (λ s, set_exec_map (<[ri_stmt_id info := t]> (exec_map s)) s) ;;;
         MXS_INFO "COM_STMT_EXECUTE on %s") s2 in
    (succp, s3)).
  assert (Hgot : ∀ s1,
    b_session_commands (backend_at s1 t) = [] →
    let r1 := R1 s1 in
    (∀ i, i ≠ t → b_written (backend_at r1.2 i) = b_written (backend_at s1 i)) ∧
    (r1.1 = false →
     (∀ i, b_written (backend_at r1.2 i) = b_written (backend_at s1 i)) ∧
     exec_map r1.2 = exec_map s1 ∧ large_query r1.2 = large_query s1 ∧
     prev_target r1.2 = prev_target s1) ∧
    (r1.1 = true →
     Backend.in_use (backend_at s1 t) = true ∧ b_write_ok (backend_at s1 t) = true ∧
     b_written (backend_at r1.2 t) =
       b_written (backend_at s1 t) ++ [got_target_packet querybuf t s1] ∧
     backend_ready r1.2 t = true ∧
     exec_map r1.2 =
       (if bool_decide (ri_command info = MXS_COM_STMT_EXECUTE) && not_locked
        then <[ri_stmt_id info := t]> (exec_map s1) else exec_map s1) ∧
     large_query r1.2 = is_large_query querybuf ∧
     prev_target r1.2 = (if is_large_query querybuf then Some t else None) ∧
     target_node r1.2 = forced_node_after t s1 ∧
     session_trx_is_read_only (session (client_dcb r1.2)) =
       session_trx_is_read_only (session (client_dcb s1)) ∧
     session_trx_is_ending (session (client_dcb r1.2)) =
       session_trx_is_ending (session (client_dcb s1))) ∧
    r1.1 = b_in_use (backend_at s1 t) && b_write_ok (backend_at s1 t)).
  { intros s1 Hnone r1. subst r1. unfold R1. clear R1.
    set (g := handle_got_target querybuf t store s1).
    destruct (handle_got_target_fields querybuf t store s1)
      as (Hres & Hx & _ & _ & _ & Hro & Hend & Htn & Hl & Hp & Hb).
    destruct (handle_got_target_effects querybuf t store s1)
      as (_ & _ & _ & _ & Hw & _ & Huse & _).
    destruct (handle_got_target_target querybuf t store s1) as (_ & Hsc & Hwok).
    fold g in Hres, Hx, Hro, Hend, Htn, Hl, Hp, Hb, Hw, Huse, Hsc, Hwok.
    destruct g as [succp s2]. cbn in Hres, Hx, Hro, Hend, Htn, Hl, Hp, Hb, Hw, Huse,
      Hsc, Hwok.
    assert (∀ s3 : RWSplitSession,
      backends s3 = backends s2 → large_query s3 = large_query s2 →
      prev_target s3 = prev_target s2 → target_node s3 = target_node s2 →
      client_dcb s3 = client_dcb s2 →
      (∀ i, i ≠ t → b_written (backend_at s3 i) = b_written (backend_at s1 i)) ∧
      (succp = false →
       (∀ i, b_written (backend_at s3 i) = b_written (backend_at s1 i)) ∧
       large_query s3 = large_query s1 ∧ prev_target s3 = prev_target s1) ∧
      (succp = true →
       Backend.in_use (backend_at s1 t) = true ∧ b_write_ok (backend_at s1 t) = true ∧
       b_written (backend_at s3 t) =
         b_written (backend_at s1 t) ++ [got_target_packet querybuf t s1] ∧
       backend_ready s3 t = true ∧
       large_query s3 = is_large_query querybuf ∧
       prev_target s3 = (if is_large_query querybuf then Some t else None) ∧
       target_node s3 = forced_node_after t s1 ∧
       session_trx_is_read_only (session (client_dcb s3)) =
         session_trx_is_read_only (session (client_dcb s1)) ∧
       session_trx_is_ending (session (client_dcb s3)) =
         session_trx_is_ending (session (client_dcb s1)))) as Hrest.
    { intros s3 Hb3 Hl3 Hp3 Htn3 Hc3.
      assert (∀ i, backend_at s3 i = backend_at s2 i) as Hat
        by (intros i; unfold backend_at; by rewrite Hb3).
      split_and!.
      - intros i Hne. by rewrite Hat, Hb.
      - intros ->. cbn in *. split_and!; [|congruence|congruence].
        intros i. rewrite Hat. destruct (decide (i = t)) as [->|Hne];
          [done|by rewrite Hb].
      - intros ->. cbn in *. symmetry in Hres.
        apply andb_true_iff in Hres as [Hu Hk].
        split_and!; [done|done|by rewrite Hat|..|congruence|congruence|
                     |by rewrite Hc3|by rewrite Hc3].
        + apply backend_ready_spec. rewrite Hat.
          split_and!; [done|congruence|congruence].
        + rewrite Htn3, Htn. unfold forced_node_after.
          by destruct (session_trx_is_read_only _ && session_trx_is_ending _). }
    destruct (succp && bool_decide (ri_command info = MXS_COM_STMT_EXECUTE) &&
              not_locked) eqn:Hrec; run_goal.
    - apply andb_true_iff in Hrec as [Hrec ->].
      apply andb_true_iff in Hrec as [-> Hcmd]. rewrite Hcmd. cbn.
      destruct (Hrest (set_process
                  (set_mxs_log (mxs_log (process s2) ++ [(LOG_INFO, "COM_STMT_EXECUTE on %s")])
                     (process s2))
                  (set_exec_map (<[ri_stmt_id info := t]> (exec_map s2)) s2)))
        as (H1 & _ & H3); [done..|].
      split_and!; [done|done| |done]. intros _.
      destruct (H3 eq_refl) as (? & ? & ? & ? & ? & ? & ? & ? & ?).
      split_and!; try done. cbn. by rewrite Hx.
    - destruct (Hrest s2) as (H1 & H2 & H3); [done..|].
      split_and!; [done| | |done].
      + intros ->. destruct (H2 eq_refl) as (? & ? & ?). done.
      + intros ->. destruct (H3 eq_refl) as (? & ? & ? & ? & ? & ? & ? & ? & ?).
        split_and!; try done. cbn in Hrec. by rewrite Hrec. }
  destruct (decide (Backend.in_use (backend_at s t) = true)) as [Huse|Huse].
  - (* the target is in use: nothing to prepare *)
    rewrite prepare_target_in_use in Hr by done. cbn [negb] in Hr.
    cbn beta iota in Hr.
    destruct (Backend.have_session_commands (backend_at s t)) eqn:Hpend;
      cbn beta iota in Hr.
    + run_at Hr. subst r. subst written. cbn. unfold backend_at in *. cbn.
      split_and!; [done|left; done|].
      intros Hready%backend_ready_spec. unfold Backend.have_session_commands in Hpend.
      destruct Hready as (_ & _ & Hnone). unfold backend_at in Hnone.
      by rewrite Hnone in Hpend.
    + assert (b_session_commands (backend_at s t) = []) as Hnone.
      { unfold Backend.have_session_commands in Hpend.
        apply negb_false_iff, bool_decide_eq_true in Hpend. done. }
      assert (r = R1 s) as Hr1 by exact Hr.
      specialize (Hgot s Hnone). cbv zeta in Hgot. rewrite <- Hr1 in Hgot.
      destruct Hgot as (H1 & H2 & H3 & Hres). subst written. cbv beta.
      split_and!; [done| |].
      * destruct r.1 eqn:Hres1.
        -- right. eexists. destruct (H3 eq_refl) as (_ & _ & ? & ? & ? & ? & ? & _).
           done.
        -- left. by apply H2.
      * intros Hready%backend_ready_spec. destruct Hready as (Hu & Hk & _).
        unfold Backend.in_use in Hu. rewrite Hu, Hk in Hres.
        destruct (H3 Hres) as (_ & _ & ? & ? & ? & ? & ? & ? & ? & ?). done.
  - (* the target is not in use *)
    assert (backend_ready s t = true → False) as Hnot.
    { intros Hready%backend_ready_spec. by destruct Hready. }
    destruct (prepare_target_fields t (ri_target info) s)
      as (Hx1 & _ & _ & Hl1 & Hp1 & _ & _ & _ & Hw1).
    destruct (prepare_target t (ri_target info) s) as [prepared s1].
    cbn in Hx1, Hl1, Hp1, Hw1.
    destruct prepared; cbn [negb] in Hr; cbn beta iota in Hr.
    2: { subst r. subst written. cbn. split_and!; [done|by left|done]. }
    destruct (Backend.have_session_commands (backend_at s1 t)) eqn:Hpend;
      cbn beta iota in Hr.
    { run_at Hr. subst r. subst written. cbn.
      assert (∀ i, b_written (backend_at (set_query_queue
                (gwbuf_append (query_queue s1) (gwbuf_clone querybuf))
                (set_expected_responses (expected_responses s1 + 1) s1)) i) =
              b_written (backend_at s i)) as Hall
        by (intros i; unfold backend_at in *; cbn; apply Hw1).
      split_and!; [done|by left|done]. }
    assert (b_session_commands (backend_at s1 t) = []) as Hnone.
    { unfold Backend.have_session_commands in Hpend.
      apply negb_false_iff, bool_decide_eq_true in Hpend. done. }
    assert (r = R1 s1) as Hr1 by exact Hr.
    specialize (Hgot s1 Hnone). cbv zeta in Hgot. rewrite <- Hr1 in Hgot.
    destruct Hgot as (H1 & H2 & H3 & Hres). subst written. cbv beta.
    split_and!; [|  |done].
    + intros i Hne. by rewrite H1, Hw1.
    + destruct r.1 eqn:Hres1.
      * right. eexists. destruct (H3 eq_refl) as (_ & _ & ? & ? & ? & ? & ? & _).
        rewrite <- Hw1, <- Hx1. done.
      * left. destruct (H2 eq_refl) as (? & ? & ? & ?).
        split_and!; [|congruence..]. intros i. by rewrite <- Hw1.
Qed.

(** [route_single_stmt], for a statement that is not routed to all
    servers, is the search of the target, the routing to the target that
    was found, and the keep-alive pings, which leave alone what was
    written, the target, the map of executed statements, the state of a
    large query and the forced node. *)
Lemma route_single_stmt_steps cmp querybuf info s :
  let q := routed_buffer querybuf info s in
  let r := route_single_stmt cmp querybuf info s in
  let f := route_single_stmt_target cmp q info s in
  let d := match f.1.1.2 with
           | Some t =>
               if f.1.1.1
               then route_single_stmt_dispatch q info (negb (locked_to_master s)) t
                      f.1.2 f.2
               else (false, f.2)
           | None => (f.1.1.1, f.2)
           end in
  TARGET_IS_ALL (ri_target info) = false →
  r.1 = d.1 ∧
  exec_map r.2 = exec_map d.2 ∧
  large_query r.2 = large_query d.2 ∧
  prev_target r.2 = prev_target d.2 ∧
  target_node r.2 = target_node d.2 ∧
  client_dcb r.2 = client_dcb d.2 ∧
  (∀ i, b_written (backend_at r.2 i) = b_written (backend_at d.2 i)) ∧
  (∀ t, f.1.1.2 = Some t → backend_at r.2 t = backend_at d.2 t) ∧
  ∃ new, mxs_log (process r.2) = mxs_log (process d.2) ++ new.
Proof.
  intros q r f d Hall.
  assert (Hr : r = route_single_stmt cmp querybuf info s) by done. clearbody r.
  unfold route_single_stmt in Hr. run_in Hr.
  fold (routed_buffer querybuf info s) in Hr. fold q in Hr.
  rewrite Hall in Hr. run_in Hr. fold f in Hr.
  destruct f as [[[succp target] store] s0]. cbn in d. run_in Hr.
  assert (Hrest : ∀ (c succp' : bool) s1,
    r = (let '(_, s') :=
           (if c then handle_connection_keepalive target else λ s, (tt, s)) s1 in
         (succp', s')) →
    r.1 = succp' ∧
    exec_map r.2 = exec_map s1 ∧
    large_query r.2 = large_query s1 ∧
    prev_target r.2 = prev_target s1 ∧
    target_node r.2 = target_node s1 ∧
    client_dcb r.2 = client_dcb s1 ∧
    (∀ i, b_written (backend_at r.2 i) = b_written (backend_at s1 i)) ∧
    (∀ t, target = Some t → backend_at r.2 t = backend_at s1 t) ∧
    ∃ new, mxs_log (process r.2) = mxs_log (process s1) ++ new).
  { intros c succp' s1 ->. destruct c; cbn.
    2: { split_and!; try done. exists []. by rewrite app_nil_r. }
    assert (∃ new, mxs_log (process (handle_connection_keepalive target s1).2) =
                   mxs_log (process s1) ++ new) as Hlog by by eexists.
    destruct (handle_connection_keepalive_fields target s1)
      as (Hx & _ & _ & Hl & Hp & Htn & Hc & Hw & Ht).
    destruct (handle_connection_keepalive target s1) as [[] s3]. done. }
  assert (Hnil : ∀ s1 : RWSplitSession,
            ∃ new, mxs_log (process s1) = mxs_log (process s1) ++ new)
    by (intros s1; exists []; by rewrite app_nil_r).
  destruct target as [t|]; run_in Hr.
  - destruct succp; run_in Hr.
    + destruct (route_single_stmt_dispatch q info (negb (locked_to_master s)) t store s0)
        as [succp s1]. run_in Hr. subst d. cbn.
      destruct succp; run_in Hr; [by eapply Hrest|subst r; cbn].
      split_and!; try done; apply Hnil.
    + subst r d. cbn. split_and!; try done; apply Hnil.
  - subst d. cbn. destruct succp; run_in Hr; [by eapply Hrest|subst r; cbn].
    split_and!; try done; apply Hnil.
Qed.

(** Preparing a target and routing to it add to the log and take nothing
    from it. *)
Lemma prepare_target_log target route_target s :
  ∃ new, mxs_log (process (prepare_target target route_target s).2) =
         mxs_log (process s) ++ new.
Proof.
  assert (∃ new, mxs_log (process s) = mxs_log (process s) ++ new) as Hnil
    by (exists []; by rewrite app_nil_r).
  unfold prepare_target. run_goal.
  destruct (negb _ && _); cbn; [|done].
  destruct (_ || _); cbn.
  - destruct (_ || _); cbn; [|by eexists].
    by destruct (Backend.connect _ _).
  - destruct (TARGET_IS_MASTER route_target); cbn; [by eexists|done].
Qed.

Lemma route_single_stmt_dispatch_log querybuf info not_locked t store s :
  ∃ new,
    mxs_log (process (route_single_stmt_dispatch querybuf info not_locked t store s).2) =
    mxs_log (process s) ++ new.
Proof.
  unfold route_single_stmt_dispatch. unfold bind, gets, ret. cbn beta.
  destruct (prepare_target_log t (ri_target info) s) as [new1 Hlog1].
  destruct (prepare_target t (ri_target info) s) as [prepared s1]. cbn in Hlog1.
  destruct prepared; cbn [negb]; cbn beta iota; [|by eexists].
  destruct (Backend.have_session_commands (backend_at s1 t)); cbn beta iota.
  { run_goal. by eexists. }
  destruct (handle_got_target_effects querybuf t store s1)
    as (_ & _ & _ & _ & _ & _ & _ & _ & new2 & Hlog2 & _).
  destruct (handle_got_target querybuf t store s1) as [succp s2]. cbn in Hlog2.
  destruct (succp && _ && not_locked); run_goal;
    rewrite Hlog2, Hlog1, <- ?app_assoc; by eexists.
Qed.

(** What [route_single_stmt] does with a statement whose target was
    found: see [route_single_stmt_dispatch_outcome]. *)
Lemma route_single_stmt_found cmp querybuf info s t store s0 :
  let q := routed_buffer querybuf info s in
  let r := route_single_stmt cmp querybuf info s in
  let written pkt :=
    r.1 = true ∧
    b_written (backend_at r.2 t) = b_written (backend_at s t) ++ [pkt] ∧
    backend_ready r.2 t = true ∧
    exec_map r.2 =
      (if execute_recorded info s
       then <[ri_stmt_id info := t]> (exec_map s) else exec_map s) ∧
    large_query r.2 = is_large_query q ∧
    prev_target r.2 = (if is_large_query q then Some t else None) in
  TARGET_IS_ALL (ri_target info) = false →
  route_single_stmt_target cmp q info s = ((true, Some t, store), s0) →
  (∀ i, i ≠ t → b_written (backend_at r.2 i) = b_written (backend_at s i)) ∧
  (((∀ i, b_written (backend_at r.2 i) = b_written (backend_at s i)) ∧
    exec_map r.2 = exec_map s ∧
    large_query r.2 = large_query s ∧
    prev_target r.2 = prev_target s) ∨
   ∃ pkt, written pkt) ∧
  (backend_ready s0 t = true →
   written (got_target_packet q t s0) ∧
   target_node r.2 = forced_node_after t s0 ∧
   session_trx_is_read_only (session (client_dcb r.2)) =
     session_trx_is_read_only (session (client_dcb s0)) ∧
   session_trx_is_ending (session (client_dcb r.2)) =
     session_trx_is_ending (session (client_dcb s0))).
Proof.
  intros q r written Hall Hfound.
  destruct (route_single_stmt_steps cmp querybuf info s Hall)
    as (Hres & Hx & Hl & Hp & Htn & Hc & Hw & Ht & _).
  fold q r in Hres, Hx, Hl, Hp, Htn, Hc, Hw, Ht.
  pose proof (route_single_stmt_target_frame cmp q info s) as Hframe.
  rewrite Hfound in Hres, Hx, Hl, Hp, Htn, Hc, Hw, Ht, Hframe.
  cbn in Hres, Hx, Hl, Hp, Htn, Hc, Hw, Ht, Hframe.
  destruct Hframe as (Hx0 & _ & _ & Hl0 & Hp0 & _ & Hw0).
  specialize (Ht t eq_refl).
  destruct (route_single_stmt_dispatch_outcome q info (negb (locked_to_master s)) t
              store s0) as (Hother & Hcases & Hready).
  set (d := route_single_stmt_dispatch q info (negb (locked_to_master s)) t store s0)
    in *.
  assert (backend_ready r.2 t = backend_ready d.2 t) as Hrd
    by (unfold backend_ready; by rewrite Ht).
  subst written. cbv beta in *. unfold execute_recorded.
  rewrite Hx0 in Hcases, Hready.
  split_and!.
  - intros i Hne. by rewrite Hw, Hother, Hw0.
  - destruct Hcases as [(Hk & ? & ? & ?)|(pkt & ? & Hpkt & ? & ? & ? & ?)].
    + left. split_and!; [|congruence..]. intros i. by rewrite Hw, Hk, Hw0.
    + right. exists pkt. split_and!; [congruence| |congruence|congruence..].
      by rewrite Hw, Hpkt, Hw0.
  - intros Hr0. destruct (Hready Hr0) as ((? & Hpkt & ? & ? & ? & ?) & ? & ? & ?).
    split_and!; [congruence| |congruence..].
    by rewrite Hw, Hpkt, Hw0.
Qed.

(** [route_single_stmt] writes nothing when no target was found. *)
Lemma route_single_stmt_not_found cmp querybuf info s :
  let q := routed_buffer querybuf info s in
  let r := route_single_stmt cmp querybuf info s in
  let f := route_single_stmt_target cmp q info s in
  TARGET_IS_ALL (ri_target info) = false →
  f.1.1.2 = None ∨ f.1.1.1 = false →
  r.1 = f.1.1.1 ∧
  (∀ i, b_written (backend_at r.2 i) = b_written (backend_at s i)) ∧
  exec_map r.2 = exec_map s ∧
  large_query r.2 = large_query s ∧
  prev_target r.2 = prev_target s.
Proof.
  intros q r f Hall Hnot.
  destruct (route_single_stmt_steps cmp querybuf info s Hall)
    as (Hres & Hx & Hl & Hp & _ & _ & Hw & _ & _).
  fold q r f in Hres, Hx, Hl, Hp, Hw.
  pose proof (route_single_stmt_target_frame cmp q info s) as Hframe.
  fold f in Hframe.
  destruct f as [[[succp target] store] s0]. cbn in *.
  destruct Hframe as (Hx0 & _ & _ & Hl0 & Hp0 & _ & Hw0).
  assert (match target with
          | Some t =>
              if succp
              then route_single_stmt_dispatch q info (negb (locked_to_master s)) t
                     store s0
              else (false, s0)
          | None => (succp, s0)
          end = (succp, s0)) as Heq.
  { destruct Hnot as [->| ->]; [done|by destruct target]. }
  rewrite Heq in *. cbn in *.
  split_and!; [done| |congruence..]. intros i. by rewrite Hw, Hw0.
Qed.

(** What [route_single_stmt] logs while it searches the target stays in
    the log. *)
Lemma route_single_stmt_log cmp querybuf info s :
  let q := routed_buffer querybuf info s in
  let r := route_single_stmt cmp querybuf info s in
  let f := route_single_stmt_target cmp q info s in
  TARGET_IS_ALL (ri_target info) = false →
  ∃ new, mxs_log (process r.2) = mxs_log (process f.2) ++ new.
Proof.
  intros q r f Hall.
  destruct (route_single_stmt_steps cmp querybuf info s Hall)
    as (_ & _ & _ & _ & _ & _ & _ & _ & new & Hlog).
  fold q r f in Hlog. rewrite Hlog.
  destruct f as [[[succp target] store] s0]. cbn.
  destruct target as [t|]; [|exists new; by cbn].
  destruct succp; [|exists new; by cbn].
  destruct (route_single_stmt_dispatch_log q info (negb (locked_to_master s)) t store s0)
    as [new' ->].
  rewrite <- app_assoc. by eexists.
Qed.

(** ** Statements that are routed to a slave *)

(** What the search of the target changes, the log and the counters of
    the router, changes neither the packet that is written, nor whether a
    backend is ready, nor the forced node after the write. *)
Lemma routing_state_log_stats l s (counted : bool) :
  let s0 := (if counted then add_n_slave else id) (with_log l s) in
  (∀ i, backend_at s0 i = backend_at s i) ∧
  (∀ t, backend_ready s0 t = backend_ready s t) ∧
  (∀ q t, got_target_packet q t s0 = got_target_packet q t s) ∧
  (∀ t, forced_node_after t s0 = forced_node_after t s) ∧
  session (client_dcb s0) = session (client_dcb s).
Proof. by destruct counted. Qed.

(** The target of a statement that is routed to a slave: the backend
    recorded for a COM_STMT_FETCH, and else the backend that
    [get_target_backend] finds for a slave. *)
Lemma handle_slave_is_target_spec cmp cmd stmt_id s :
  let r := handle_slave_is_target cmp cmd stmt_id s in
  let entry := if bool_decide (cmd = MXS_COM_STMT_FETCH)
               then exec_map s !! stmt_id else None in
  r.1 = match entry with
        | Some t => Some t
        | None => (get_target_backend cmp BE_SLAVE None (get_max_replication_lag s) s).1
        end ∧
  ∃ l, r.2 = (if bool_decide (r.1 ≠ None) then add_n_slave else id)
               (with_log (mxs_log (process s) ++ l) s) ∧
       (cmd = MXS_COM_STMT_FETCH → exec_map s !! stmt_id = None →
        (LOG_WARNING, "Unknown statement ID %u used in COM_STMT_FETCH") ∈ l).
Proof.
  intros r entry. subst entry.
  assert (Hr : r = handle_slave_is_target cmp cmd stmt_id s) by done.
  clearbody r. unfold handle_slave_is_target in Hr. run_in Hr.
  assert (Hfall : ∀ l0 s1 r',
    s1 = set_process (set_mxs_log (mxs_log (process s) ++ l0) (process s)) s →
    r' = (let '(a, s') :=
            get_target_backend cmp BE_SLAVE None (get_max_replication_lag s) s1 in
          let '(_, s'0) :=
            match a with
            | Some _ => λ s0, ((), add_n_slave s0)
            | None => λ s0, ((),
                set_process
                  (set_mxs_log
                     (mxs_log (process s0) ++
                      [(LOG_INFO, "Was supposed to route to slave but finding suitable one failed.")])
                     (process s0)) s0)
            end s' in (a, s'0)) →
    r'.1 = (get_target_backend cmp BE_SLAVE None (get_max_replication_lag s) s).1 ∧
    ∃ l, r'.2 = (if bool_decide (r'.1 ≠ None) then add_n_slave else id)
                  (with_log (mxs_log (process s) ++ l) s) ∧
         ∀ x, x ∈ l0 → x ∈ l).
  { intros l0 s1 r' -> ->.
    match goal with
    | |- context [get_target_backend cmp ?bt ?nm ?rl (set_process ?p s)] =>
        pose proof (get_target_backend_process_result cmp bt nm rl p s) as Hres;
        destruct (get_target_backend_log cmp bt nm rl (set_process p s))
          as (new & Hlog & _);
        destruct (get_target_backend cmp bt nm rl (set_process p s)) as [target s1]
    end.
    cbn in Hres, Hlog. subst s1. unfold with_log. cbn.
    destruct target; cbn; (split; [done|]);
      eexists; (split; [cbn; rewrite <- ?app_assoc; reflexivity|]);
      intros x Hx; rewrite ?elem_of_app; tauto. }
  destruct (bool_decide (cmd = MXS_COM_STMT_FETCH)) eqn:Hcmd; run_in Hr.
  - destruct (exec_map s !! stmt_id) as [t|] eqn:Hmap; run_in Hr.
    + subst r. cbn. split; [done|]. eexists. split; [done|]. intros _ [=].
    + destruct (Hfall [(LOG_WARNING, "Unknown statement ID %u used in COM_STMT_FETCH")]
                  _ r eq_refl Hr) as (? & l & ? & Hin).
      split; [done|]. exists l. split; [done|]. intros _ _. apply Hin. by left.
  - assert (set_process (set_mxs_log (mxs_log (process s) ++ []) (process s)) s = s)
      as Hid.
    { rewrite app_nil_r. by destruct s as [? ? ? ? ? ? ? ? ? ? ? ? ? ? ? ? ? ? ? ? ? ? []]. }
    destruct (Hfall [] s r (eq_sym Hid) Hr) as (? & l & ? & _).
    split; [done|]. exists l. split; [done|].
    intros ->. by rewrite bool_decide_true in Hcmd.
Qed.

Lemma routed_to_slave_spec info :
  routed_to_slave info = true ↔
  TARGET_IS_SLAVE (ri_target info) = true ∧
  TARGET_IS_ALL (ri_target info) = false ∧
  TARGET_IS_NAMED_SERVER (ri_target info) = false ∧
  TARGET_IS_RLAG_MAX (ri_target info) = false.
Proof.
  unfold routed_to_slave. rewrite !andb_true_iff, !negb_true_iff. tauto.
Qed.

(** What [route_single_stmt] does with a statement that is routed to a
    slave while no large query is in progress.  The target is the backend
    recorded for a COM_STMT_FETCH, and else the backend that
    [get_target_backend] finds for a slave; no other backend is written
    to, and the target is written to when it is ready. *)
Lemma route_single_stmt_slave cmp querybuf info s :
  let q := routed_buffer querybuf info s in
  let r := route_single_stmt cmp querybuf info s in
  let target :=
    match fetch_target info s with
    | Some t => Some t
    | None => (get_target_backend cmp BE_SLAVE None (get_max_replication_lag s) s).1
    end in
  routed_to_slave info = true →
  large_query s = false →
  (∀ i, target ≠ Some i → b_written (backend_at r.2 i) = b_written (backend_at s i)) ∧
  (target = None → r.1 = false) ∧
  (∀ t, target = Some t → backend_ready s t = true →
     r.1 = true ∧
     b_written (backend_at r.2 t) =
       b_written (backend_at s t) ++ [got_target_packet q t s] ∧
     backend_ready r.2 t = true ∧
     exec_map r.2 =
       (if execute_recorded info s
        then <[ri_stmt_id info := t]> (exec_map s) else exec_map s) ∧
     large_query r.2 = is_large_query q ∧
     prev_target r.2 = (if is_large_query q then Some t else None) ∧
     target_node r.2 = forced_node_after t s ∧
     session_trx_is_read_only (session (client_dcb r.2)) =
       session_trx_is_read_only (session (client_dcb s)) ∧
     session_trx_is_ending (session (client_dcb r.2)) =
       session_trx_is_ending (session (client_dcb s))) ∧
  (ri_command info = MXS_COM_STMT_FETCH → exec_map s !! ri_stmt_id info = None →
   (LOG_WARNING, "Unknown statement ID %u used in COM_STMT_FETCH") ∈ logged s r.2).
Proof.
  intros q r target Hslave Hlarge.
  apply routed_to_slave_spec in Hslave as (Hslave & Hall & Hnamed & Hrlag).
  destruct (handle_slave_is_target_spec cmp (ri_command info) (ri_stmt_id info) s)
    as (Htarget & l & Hstate & Hwarn).
  fold (fetch_target info s) in Htarget. fold target in Htarget.
  destruct (route_single_stmt_log cmp querybuf info s Hall) as [new Hlog].
  fold q r in Hlog.
  assert (∃ store, route_single_stmt_target cmp q info s =
            ((bool_decide (target ≠ None), target, store),
             (if bool_decide (target ≠ None) then add_n_slave else id)
               (with_log (mxs_log (process s) ++ l) s))) as [store Hfound].
  { unfold route_single_stmt_target. run_goal.
    rewrite Hlarge, Hnamed, Hrlag, Hslave. cbn.
    destruct (handle_slave_is_target cmp (ri_command info) (ri_stmt_id info) s)
      as [tg s0]. cbn in Htarget, Hstate. subst tg s0.
    destruct target; cbn; by eexists. }
  rewrite Hfound in Hlog. cbn in Hlog.
  assert (mxs_log (process r.2) = mxs_log (process s) ++ l ++ new) as Hlog'.
  { rewrite Hlog, app_assoc. f_equal. by destruct (bool_decide (target ≠ None)). }
  assert (ri_command info = MXS_COM_STMT_FETCH → exec_map s !! ri_stmt_id info = None →
          (LOG_WARNING, "Unknown statement ID %u used in COM_STMT_FETCH") ∈ logged s r.2)
    as Hlogged.
  { intros Hcmd Hmap. rewrite (logged_app _ _ _ Hlog'). apply elem_of_app. left.
    by apply Hwarn. }
  destruct target as [t|] eqn:Ht.
  - rewrite bool_decide_true in Hfound by done.
    destruct (routing_state_log_stats (mxs_log (process s) ++ l) s true)
      as (_ & Hrd & Hpkt & Hfn & Hses).
    cbv zeta in Hrd, Hpkt, Hfn, Hses.
    destruct (route_single_stmt_found cmp querybuf info s t store _ Hall Hfound)
      as (Hother & _ & Hready).
    fold q r in Hother, Hready.
    rewrite Hrd, Hpkt, Hfn, Hses in Hready.
    split_and!; [|done| |done].
    + intros i Hne. apply Hother. congruence.
    + intros t' [= <-] Hr. destruct (Hready Hr) as ((? & ? & ? & ? & ? & ?) & ? & ? & ?).
      done.
  - rewrite bool_decide_false in Hfound by (by intros []).
    destruct (route_single_stmt_not_found cmp querybuf info s Hall) as (Hres & Hk & _).
    { fold q. rewrite Hfound. by left. }
    fold q r in Hres, Hk. rewrite Hfound in Hres. cbn in Hres.
    split_and!; [done|done| |done]. intros t' [=].
Qed.

(** Replacing the statement id does not make a packet one of the maximum
    length, nor one of another length. *)
Lemma is_large_query_routed_eq querybuf info s :
  is_large_query (routed_buffer querybuf info s) = is_large_query querybuf.
Proof.
  destruct (is_large_query querybuf) eqn:Hlarge.
  { by apply is_large_query_routed. }
  unfold routed_buffer. destruct (_ && _); [|done].
  unfold is_large_query, gwbuf_length, replace_binary_ps_id in *. cbn [gwbuf_data].
  destruct (decide (9 ≤ length (gwbuf_data querybuf))%nat) as [Hlen|Hlen].
  - rewrite overwrite_length; [done|].
    change (N.to_nat MYSQL_HEADER_LEN + 1 + length (gw_mysql_set_byte4 (ri_stmt_id info)))%nat
      with 9%nat. done.
  - apply N.eqb_neq. unfold overwrite.
    rewrite !length_app, length_take, length_drop.
    change (length (gw_mysql_set_byte4 (ri_stmt_id info))) with 4%nat.
    change (N.to_nat MYSQL_HEADER_LEN + 1)%nat with 5%nat.
    unfold wrap32. rewrite N.mod_small.
    + change (MYSQL_HEADER_LEN + GW_MYSQL_MAX_PACKET_LEN)%N with 16777219%N. lia.
    + change UINT32_MOD with 4294967296%N. lia.
Qed.

(** A statement that is not routed to all servers is written to no
    backend, and then the map of executed statements and the state of a
    large query are left alone, or it is written to one backend, which is
    recorded if the statement is a COM_STMT_EXECUTE, remembered if the
    packet is of the maximum length, and ready afterwards. *)
Lemma route_single_stmt_outcome cmp querybuf info s :
  let r := route_single_stmt cmp querybuf info s in
  TARGET_IS_ALL (ri_target info) = false →
  ((∀ i, b_written (backend_at r.2 i) = b_written (backend_at s i)) ∧
   exec_map r.2 = exec_map s ∧
   large_query r.2 = large_query s ∧
   prev_target r.2 = prev_target s) ∨
  ∃ t pkt,
    r.1 = true ∧
    b_written (backend_at r.2 t) = b_written (backend_at s t) ++ [pkt] ∧
    (∀ i, i ≠ t → b_written (backend_at r.2 i) = b_written (backend_at s i)) ∧
    backend_ready r.2 t = true ∧
    exec_map r.2 =
      (if execute_recorded info s
       then <[ri_stmt_id info := t]> (exec_map s) else exec_map s) ∧
    large_query r.2 = is_large_query (routed_buffer querybuf info s) ∧
    prev_target r.2 =
      (if is_large_query (routed_buffer querybuf info s) then Some t else None).
Proof.
  intros r Hall.
  destruct (route_single_stmt_target cmp (routed_buffer querybuf info s) info s)
    as [[[succp target] store] s0] eqn:Hfound.
  assert (target = None ∨ succp = false ∨ (succp = true ∧ ∃ t, target = Some t))
    as [->|[->|[-> [t ->]]]].
  { destruct target; [|by left]. destruct succp; [|by right; left].
    right. right. split; [done|by eexists]. }
  1, 2: left;
    destruct (route_single_stmt_not_found cmp querybuf info s Hall) as (_ & Hk);
    [rewrite Hfound; cbn; first [by left|by right]|apply Hk].
  destruct (route_single_stmt_found cmp querybuf info s t store s0 Hall Hfound)
    as (Hother & [Hk|(pkt & ? & ? & ? & ? & ? & ?)] & _); [by left|].
  right. by exists t, pkt.
Qed.

(** ** The forced node *)




(** ** Statements within a read-only transaction that is pinned *)



(** ** No valid master for a statement that targets the master *)




(** ** The candidates of [get_slave_backend] *)

(** While it has no candidate, an iteration of the loop of
    [get_slave_backend] accepts the backend that [first_candidate_from]
    accepts. *)
Lemma get_slave_backend_step_None cmp s max_rlag counts i b :
  get_slave_backend_step cmp s max_rlag counts None i b =
  if slave_eligible b max_rlag &&
     ((Backend.is_master b && bool_decide (Some i = current_master s)) ||
      Backend.is_slave b)
  then Some i else None.
Proof.
  unfold get_slave_backend_step, slave_eligible.
  by destruct (_ && rpl_lag_is_ok b max_rlag), (_ || Backend.is_slave b).
Qed.

(** A backend that is not eligible, or that is not admitted, leaves the
    candidate alone. *)
Lemma get_slave_backend_step_skip cmp s max_rlag r i b :
  (slave_eligible b max_rlag = true →
   Backend.in_use b || slave_count_below_max s = false) →
  get_slave_backend_step cmp s max_rlag
    (get_slave_counts (backends s) (current_master s)) (Some r) i b = Some r.
Proof.
  unfold get_slave_backend_step, slave_eligible, slave_count_below_max.
  destruct (_ && rpl_lag_is_ok b max_rlag); [|done].
  intros Hadm. by rewrite Hadm.
Qed.

(** The loop of [get_slave_backend], started without a candidate, returns
    the first candidate or a later backend, and nothing when there is no
    first candidate. *)
Lemma get_slave_backend_loop_first cmp s max_rlag i0 bs :
  let counts := get_slave_counts (backends s) (current_master s) in
  match get_slave_backend_loop cmp s max_rlag counts i0 bs None with
  | None => first_candidate_from s max_rlag i0 bs = None
  | Some i => ∃ c, first_candidate_from s max_rlag i0 bs = Some c ∧ (c ≤ i)%nat
  end.
Proof.
  cbv zeta. revert i0. induction bs as [|b bs IH]; intros i0; [done|].
  cbn [get_slave_backend_loop first_candidate_from].
  rewrite get_slave_backend_step_None.
  destruct (slave_eligible b max_rlag && _); [|apply IH].
  destruct (get_slave_backend_loop_Some cmp s max_rlag
              (get_slave_counts (backends s) (current_master s)) (S i0) bs i0)
    as [i Hi].
  rewrite Hi. exists i0. split; [done|].
  apply get_slave_backend_loop_spec in Hi as [[= ->]|(_ & _ & Hle & _)]; lia.
Qed.

(** A candidate stays to the end of the loop of [get_slave_backend] when
    no backend that follows is eligible and admitted. *)
Lemma get_slave_backend_loop_stays cmp s max_rlag i0 bs r :
  let counts := get_slave_counts (backends s) (current_master s) in
  (∀ b, b ∈ bs → slave_eligible b max_rlag = true →
        Backend.in_use b || slave_count_below_max s = false) →
  get_slave_backend_loop cmp s max_rlag counts i0 bs (Some r) = Some r.
Proof.
  cbv zeta. revert i0. induction bs as [|b bs IH]; intros i0 Hnone; [done|].
  cbn [get_slave_backend_loop].
  rewrite get_slave_backend_step_skip.
  - apply IH. intros b' Hb'. apply Hnone. by right.
  - apply Hnone. by left.
Qed.

(** With [master_accept_reads] off, a master is the result of the loop of
    [get_slave_backend] only if no backend after it is eligible and
    admitted. *)
Lemma get_slave_backend_loop_gives_way cmp s max_rlag i0 bs rval i :
  let counts := get_slave_counts (backends s) (current_master s) in
  master_accept_reads (rses_config s) = false →
  Backend.is_master (backend_at s i) = true →
  get_slave_backend_loop cmp s max_rlag counts i0 bs rval = Some i →
  ∀ j b, bs !! j = Some b → (i < i0 + j)%nat →
    slave_eligible b max_rlag = true →
    Backend.in_use b || slave_count_below_max s = false.
Proof.
  cbv zeta. intros Hreads Hmaster. revert i0 rval.
  induction bs as [|b0 bs IH]; intros i0 rval Hloop j b Hb Hlt Helig; [done|].
  pose proof Hloop as Hwhole.
  cbn [get_slave_backend_loop] in Hloop.
  destruct j as [|j]; cbn in Hb.
  - injection Hb as ->.
    apply get_slave_backend_loop_spec in Hwhole as [->|(_ & _ & Hle & _)]; [|lia].
    destruct (Backend.in_use b || slave_count_below_max s) eqn:Hadm; [|done].
    exfalso. revert Hloop.
    unfold get_slave_backend_step. fold (slave_eligible b max_rlag).
    rewrite Helig.
    change ((get_slave_counts (backends s) (current_master s)).2 <?
            max_slave_count (router s))%Z with (slave_count_below_max s).
    rewrite Hadm, Hreads, Hmaster. cbn [negb andb]. intros Hloop.
    apply get_slave_backend_loop_spec in Hloop as [[= ->]|(_ & _ & Hle & _)]; lia.
  - apply (IH (S i0) _ Hloop j b); [done|lia|done].
Qed.

(** Without a later backend that is eligible and admitted, the first
    candidate is the result of the loop of [get_slave_backend]. *)
Lemma get_slave_backend_loop_alone cmp s max_rlag i0 bs c :
  let counts := get_slave_counts (backends s) (current_master s) in
  first_candidate_from s max_rlag i0 bs = Some c →
  (∀ j b, bs !! j = Some b → (c < i0 + j)%nat →
     slave_eligible b max_rlag = true →
     Backend.in_use b || slave_count_below_max s = false) →
  get_slave_backend_loop cmp s max_rlag counts i0 bs None = Some c.
Proof.
  cbv zeta. revert i0. induction bs as [|b bs IH]; intros i0 Hfirst Hnone; [done|].
  cbn [get_slave_backend_loop first_candidate_from] in *.
  rewrite get_slave_backend_step_None.
  destruct (slave_eligible b max_rlag && _).
  - injection Hfirst as <-. apply get_slave_backend_loop_stays.
    intros b' Hb' Helig. apply list_elem_of_lookup in Hb' as [j Hj].
    apply (Hnone (S j) b'); [done|lia|done].
  - apply IH; [done|]. intros j b' Hb' Hlt.
    apply (Hnone (S j) b'); [done|lia].
Qed.

(** C10 (amended).  [get_slave_backend] returns no backend exactly when
    there is no first candidate, an eligible backend that is a slave or
    the current master; being eligible is being a master or a slave whose
    replication lag is within the maximum (unlimited when the maximum is
    undefined).  The backend it returns is eligible, and it is the first
    candidate, whatever [master_accept_reads], its connection state and
    the slave count are, or a backend after the first candidate that is in
    use or was admitted because the slave count is below
    [max_slave_count].  With [master_accept_reads] off a master is
    returned only if no eligible backend that is in use or admitted
    follows it: a master held as the candidate gives way.  The first
    candidate is returned when no eligible backend that is in use or
    admitted follows it. *)
Theorem slave_backend_choice cmp max_rlag s :
  let admitted b := Backend.in_use b || slave_count_below_max s in
  (get_slave_backend cmp max_rlag s = None ↔ first_candidate s max_rlag = None) ∧
  (∀ i0,
     first_candidate s max_rlag = Some i0 →
     (∀ j b, (i0 < j)%nat → backends s !! j = Some b →
        slave_eligible b max_rlag = true → admitted b = false) →
     get_slave_backend cmp max_rlag s = Some i0) ∧
  ∀ i,
    get_slave_backend cmp max_rlag s = Some i →
    ∃ b i0,
      backends s !! i = Some b ∧
      (Backend.is_master b || Backend.is_slave b) = true ∧
      (max_rlag = MAX_RLAG_UNDEFINED ∨
       (rlag (Backend.server b) ≠ MAX_RLAG_NOT_AVAILABLE ∧
        (rlag (Backend.server b) <= max_rlag)%Z)) ∧
      first_candidate s max_rlag = Some i0 ∧
      (i0 ≤ i)%nat ∧
      (i ≠ i0 → admitted b = true) ∧
      (master_accept_reads (rses_config s) = false →
       Backend.is_master b = true →
       ∀ j b', (i < j)%nat → backends s !! j = Some b' →
         slave_eligible b' max_rlag = true → admitted b' = false).
Proof.
  intros admitted. subst admitted. cbv beta.
  pose proof (get_slave_backend_loop_first cmp s max_rlag 0 (backends s)) as Hfirst.
  cbv zeta in Hfirst. fold (get_slave_backend cmp max_rlag s) in Hfirst.
  fold (first_candidate s max_rlag) in Hfirst.
  split_and!.
  - destruct (get_slave_backend cmp max_rlag s) as [i|].
    + destruct Hfirst as (c & Hc & _). rewrite Hc. done.
    + done.
  - intros i0 Hi0 Hnone.
    apply get_slave_backend_loop_alone; [done|].
    intros j b Hb Hlt. by apply (Hnone j).
  - intros i Hres. rewrite Hres in Hfirst. destruct Hfirst as (i0 & Hi0 & Hle).
    pose proof Hres as Hspec. unfold get_slave_backend in Hspec.
    apply get_slave_backend_loop_spec in Hspec as [|(b & Hb & _ & Hel & Hadm)];
      [done|].
    rewrite Nat.sub_0_r in Hb. exists b, i0.
    pose proof Hel as Hel'.
    apply andb_true_iff in Hel' as [Hrole Hlag].
    apply rpl_lag_is_ok_spec in Hlag.
    split_and!; [done..| |].
    + intros Hne. destruct (Backend.in_use b) eqn:Huse; [done|].
      destruct (Hadm eq_refl) as [[_ Hc]|Hcount]; [|done].
      fold (first_candidate s max_rlag) in Hc. congruence.
    + intros Hreads Hmaster j b' Hj Hb' Helig.
      apply (get_slave_backend_loop_gives_way cmp s max_rlag 0 (backends s) None i
               Hreads) with j; [|done|done|done|done].
      unfold backend_at. by rewrite Hb.
Qed.

Lemma slave_backend_choice_witness :
  let s := example_session in
  ∃ b i0,
    backends s !! 1%nat = Some b ∧
    (Backend.is_master b || Backend.is_slave b) = true ∧
    (MAX_RLAG_UNDEFINED = MAX_RLAG_UNDEFINED ∨
     (rlag (Backend.server b) ≠ MAX_RLAG_NOT_AVAILABLE ∧
      (rlag (Backend.server b) <= MAX_RLAG_UNDEFINED)%Z)) ∧
    first_candidate s MAX_RLAG_UNDEFINED = Some i0 ∧
    (i0 ≤ 1)%nat ∧
    (1%nat ≠ i0 → Backend.in_use b || slave_count_below_max s = true) ∧
    (master_accept_reads (rses_config s) = false →
     Backend.is_master b = true →
     ∀ j b', (1 < j)%nat → backends s !! j = Some b' →
       slave_eligible b' MAX_RLAG_UNDEFINED = true →
       Backend.in_use b' || slave_count_below_max s = false).
Proof.
  apply (proj2 (proj2 (slave_backend_choice example_cmpfun MAX_RLAG_UNDEFINED
                         example_session)) 1%nat).
  by vm_compute.
Defined.

(** C10, as stated, fails twice.  A session at its slave limit, one
    connected slave being the limit, whose connected slave lags too much,
    gets the slave that is not connected.  A session with
    [master_accept_reads] off that has no slave gets its master. *)
Lemma slave_backend_choice_counterexample :
  (get_slave_backend example_cmpfun 10 session_slave_limit = Some 0%nat ∧
   Backend.in_use (backend_at session_slave_limit 0) = false ∧
   (get_slave_counts (backends session_slave_limit)
      (current_master session_slave_limit)).2 = 1%Z ∧
   max_slave_count (router session_slave_limit) = 1%Z) ∧
  (get_slave_backend example_cmpfun MAX_RLAG_UNDEFINED session_master_only = Some 0%nat ∧
   Backend.is_master (backend_at session_master_only 0) = true ∧
   Backend.is_slave (backend_at session_master_only 0) = false ∧
   master_accept_reads (rses_config session_master_only) = false).
Proof. split_and!; by vm_compute. Qed.

(** ** Large queries: the packets of one query reach one backend *)

(** C6 (amended).  A statement that is not routed to all servers and
    that [route_single_stmt] has written to a backend sets the state of a
    large query: if the packet that was written is of the MySQL maximum
    length, the large-query flag is set and the backend is remembered as
    [prev_target]; a shorter packet clears both.  While the flag is set, a
    packet that is not routed to all servers is written to no backend but
    the remembered one, and is written to it, as the next packet it
    receives, when that backend is ready: in use, with a network that lets
    the write through, and with no session command waiting; the backend is
    ready afterwards.  So the packets of a large query that follow the
    first, none of them routed to all servers, all of the maximum length
    but the last, are delivered in their order to the remembered backend
    and to no other one, and the last, shorter packet clears the flag and
    [prev_target]. *)
Theorem large_query_affinity cmp :
  (∀ querybuf info s t,
     let r := route_single_stmt cmp querybuf info s in
     TARGET_IS_ALL (ri_target info) = false →
     b_written (backend_at r.2 t) ≠ b_written (backend_at s t) →
     large_query r.2 = is_large_query querybuf ∧
     prev_target r.2 = (if is_large_query querybuf then Some t else None)) ∧
  (∀ querybuf info s t,
     let r := route_single_stmt cmp querybuf info s in
     large_query s = true →
     prev_target s = Some t →
     TARGET_IS_ALL (ri_target info) = false →
     (∀ i, i ≠ t → b_written (backend_at r.2 i) = b_written (backend_at s i)) ∧
     (backend_ready s t = true →
      r.1 = true ∧
      b_written (backend_at r.2 t) =
        b_written (backend_at s t) ++
        [got_target_packet (routed_buffer querybuf info s) t s] ∧
      backend_ready r.2 t = true ∧
      large_query r.2 = is_large_query querybuf ∧
      prev_target r.2 = (if is_large_query querybuf then Some t else None))) ∧
  (∀ pkts last s t,
     let s' := route_packets cmp (pkts ++ [last]) s in
     large_query s = true →
     prev_target s = Some t →
     backend_ready s t = true →
     Forall (λ p, is_large_query p.1 = true ∧
                  TARGET_IS_ALL (ri_target p.2) = false) pkts →
     TARGET_IS_ALL (ri_target last.2) = false →
     b_written (backend_at s' t) =
       b_written (backend_at s t) ++ continuation_packets cmp (pkts ++ [last]) t s ∧
     (∀ i, i ≠ t → b_written (backend_at s' i) = b_written (backend_at s i)) ∧
     large_query s' = is_large_query last.1 ∧
     prev_target s' = (if is_large_query last.1 then Some t else None)).
Proof.
  assert (Hcont : ∀ querybuf info s t,
     let r := route_single_stmt cmp querybuf info s in
     large_query s = true →
     prev_target s = Some t →
     TARGET_IS_ALL (ri_target info) = false →
     (∀ i, i ≠ t → b_written (backend_at r.2 i) = b_written (backend_at s i)) ∧
     (backend_ready s t = true →
      r.1 = true ∧
      b_written (backend_at r.2 t) =
        b_written (backend_at s t) ++
        [got_target_packet (routed_buffer querybuf info s) t s] ∧
      backend_ready r.2 t = true ∧
      large_query r.2 = is_large_query querybuf ∧
      prev_target r.2 = (if is_large_query querybuf then Some t else None))).
  { intros querybuf info s t r Hlarge Hprev Hall.
    pose proof (route_single_stmt_target_large cmp (routed_buffer querybuf info s)
                  info s Hlarge) as Hfound.
    rewrite Hprev in Hfound.
    destruct (route_single_stmt_found cmp querybuf info s t false s Hall Hfound)
      as (Hother & _ & Hready).
    fold r in Hother, Hready. rewrite is_large_query_routed_eq in Hready.
    split; [done|]. intros Hr.
    destruct (Hready Hr) as ((? & ? & ? & _ & ? & ?) & _). done. }
  split_and!.
  - intros querybuf info s t r Hall Hwritten.
    destruct (route_single_stmt_target cmp (routed_buffer querybuf info s) info s)
      as [[[succp target] store] s0] eqn:Hfound.
    assert (target = None ∨ succp = false ∨ (succp = true ∧ ∃ t', target = Some t'))
      as [->|[->|[-> [t' ->]]]].
    { destruct target; [|by left]. destruct succp; [|by right; left].
      right. right. split; [done|by eexists]. }
    1, 2: exfalso; apply Hwritten;
      destruct (route_single_stmt_not_found cmp querybuf info s Hall) as (_ & Hk & _);
      [rewrite Hfound; cbn; first [by left|by right]|apply Hk].
    destruct (route_single_stmt_found cmp querybuf info s t' store s0 Hall Hfound)
      as (Hother & Hcases & _).
    fold r in Hother, Hcases. rewrite is_large_query_routed_eq in Hcases.
    destruct (decide (t = t')) as [->|Hne]; [|exfalso; by apply Hwritten, Hother].
    destruct Hcases as [(Hk & _)|(pkt & _ & _ & _ & _ & ? & ?)]; [|done].
    exfalso. apply Hwritten, Hk.
  - exact Hcont.
  - intros pkts [lastbuf lastinfo] s t s' Hlarge Hprev Hready Hpkts Hlast.
    subst s'. revert s Hlarge Hprev Hready.
    induction Hpkts as [|[querybuf info] pkts [Hq Hall] _ IH];
      intros s Hlarge Hprev Hready.
    + cbn [app route_packets continuation_packets].
      destruct (Hcont lastbuf lastinfo s t Hlarge Hprev Hlast) as (Hother & Hw).
      destruct (Hw Hready) as (_ & ? & _ & ? & ?). done.
    + cbn [app route_packets continuation_packets].
      destruct (Hcont querybuf info s t Hlarge Hprev Hall) as (Hother & Hw).
      destruct (Hw Hready) as (_ & Hpkt & Hready' & Hlarge' & Hprev').
      cbn in Hq. rewrite Hq in Hlarge', Hprev'.
      destruct (IH _ Hlarge' Hprev' Hready') as (Hw' & Hother' & ? & ?).
      split_and!; [|  |done|done].
      * rewrite Hw', Hpkt, <- app_assoc. done.
      * intros i Hne. by rewrite Hother', Hother.
Qed.

Lemma large_query_affinity_witness :
  let s := session_large_query in
  let pkts := [(max_packet, read_info)] in
  let last := (select_one, read_info) in
  let s' := route_packets example_cmpfun (pkts ++ [last]) s in
  b_written (backend_at s' 1) =
    b_written (backend_at s 1) ++
    continuation_packets example_cmpfun (pkts ++ [last]) 1 s ∧
  (∀ i, i ≠ 1%nat → b_written (backend_at s' i) = b_written (backend_at s i)) ∧
  large_query s' = is_large_query last.1 ∧
  prev_target s' = (if is_large_query last.1 then Some 1%nat else None).
Proof.
  apply (proj2 (proj2 (large_query_affinity example_cmpfun))
           [(max_packet, read_info)] (select_one, read_info)
           session_large_query 1%nat).
  - by vm_compute.
  - by vm_compute.
  - by vm_compute.
  - constructor; [|constructor].
    split; [apply is_large_query_max_packet|reflexivity].
  - by vm_compute.
Defined.

(** C6, as stated, fails: in the middle of a large query that goes to
    server2, a continuation packet that is classified as a session write is
    routed to all servers and written to the master, server1. *)
Lemma large_query_affinity_counterexample :
  let s := session_large_query in
  let r := route_single_stmt example_cmpfun use_test continuation_info s in
  large_query s = true ∧
  prev_target s = Some 1%nat ∧
  r.1 = true ∧
  b_written (backend_at s 0) = [] ∧
  b_written (backend_at r.2 0) = [(use_test, EXPECT_RESPONSE)].
Proof. cbv zeta. split_and!; by vm_compute. Qed.

(** ** Prepared statements: a COM_STMT_FETCH follows its COM_STMT_EXECUTE *)

(** C7 (amended).  A COM_STMT_FETCH that is routed to a slave, without a
    hint and not to all servers, while no large query is in progress, is
    routed to the backend that the map of executed statements records for
    its statement id: it is written to no other backend, and it is
    written to that backend when the backend is ready.  If the map has no
    entry for the id, a warning is logged and the target is the one of the
    slave selection, [get_target_backend] for a slave.  A COM_STMT_FETCH
    does not change the map.  The map records the backend that a
    COM_STMT_EXECUTE has been written to, unless the statement is routed
    to all servers, only while the session is not locked to the master.
    So a COM_STMT_FETCH that follows a COM_STMT_EXECUTE of the same id,
    which was written to a backend in one packet while the session was not
    locked to the master, is written to that same backend. *)
Theorem fetch_affinity cmp :
  (∀ querybuf info s t,
     let r := route_single_stmt cmp querybuf info s in
     ri_command info = MXS_COM_STMT_FETCH →
     routed_to_slave info = true →
     large_query s = false →
     exec_map s !! ri_stmt_id info = Some t →
     (∀ i, i ≠ t → b_written (backend_at r.2 i) = b_written (backend_at s i)) ∧
     exec_map r.2 = exec_map s ∧
     (backend_ready s t = true →
      r.1 = true ∧
      b_written (backend_at r.2 t) =
        b_written (backend_at s t) ++
        [got_target_packet (routed_buffer querybuf info s) t s])) ∧
  (∀ querybuf info s,
     let r := route_single_stmt cmp querybuf info s in
     let fallback :=
       (get_target_backend cmp BE_SLAVE None (get_max_replication_lag s) s).1 in
     ri_command info = MXS_COM_STMT_FETCH →
     routed_to_slave info = true →
     large_query s = false →
     exec_map s !! ri_stmt_id info = None →
     (LOG_WARNING, "Unknown statement ID %u used in COM_STMT_FETCH") ∈ logged s r.2 ∧
     exec_map r.2 = exec_map s ∧
     (∀ i, fallback ≠ Some i →
        b_written (backend_at r.2 i) = b_written (backend_at s i)) ∧
     (fallback = None → r.1 = false) ∧
     (∀ t, fallback = Some t → backend_ready s t = true →
        r.1 = true ∧
        b_written (backend_at r.2 t) =
          b_written (backend_at s t) ++
          [got_target_packet (routed_buffer querybuf info s) t s])) ∧
  (∀ querybuf info s,
     let r := route_single_stmt cmp querybuf info s in
     TARGET_IS_ALL (ri_target info) = false →
     (∀ t, b_written (backend_at r.2 t) ≠ b_written (backend_at s t) →
        exec_map r.2 =
          (if bool_decide (ri_command info = MXS_COM_STMT_EXECUTE) &&
              negb (locked_to_master s)
           then <[ri_stmt_id info := t]> (exec_map s) else exec_map s)) ∧
     ((∀ i, b_written (backend_at r.2 i) = b_written (backend_at s i)) →
      exec_map r.2 = exec_map s)) ∧
  (∀ execbuf einfo fetchbuf finfo s t,
     let r1 := route_single_stmt cmp execbuf einfo s in
     let r2 := route_single_stmt cmp fetchbuf finfo r1.2 in
     ri_command einfo = MXS_COM_STMT_EXECUTE →
     TARGET_IS_ALL (ri_target einfo) = false →
     locked_to_master s = false →
     is_large_query execbuf = false →
     b_written (backend_at r1.2 t) ≠ b_written (backend_at s t) →
     ri_command finfo = MXS_COM_STMT_FETCH →
     routed_to_slave finfo = true →
     ri_stmt_id finfo = ri_stmt_id einfo →
     r2.1 = true ∧
     b_written (backend_at r2.2 t) =
       b_written (backend_at r1.2 t) ++
       [got_target_packet (routed_buffer fetchbuf finfo r1.2) t r1.2] ∧
     (∀ i, i ≠ t → b_written (backend_at r2.2 i) = b_written (backend_at r1.2 i))).
Proof.
  assert (Hfetch : ∀ info s,
    ri_command info = MXS_COM_STMT_FETCH → execute_recorded info s = false).
  { intros info s Hcmd. unfold execute_recorded. rewrite Hcmd. done. }
  assert (Hmap : ∀ querybuf info s,
    ri_command info = MXS_COM_STMT_FETCH →
    TARGET_IS_ALL (ri_target info) = false →
    exec_map (route_single_stmt cmp querybuf info s).2 = exec_map s).
  { intros querybuf info s Hcmd Hall.
    destruct (route_single_stmt_outcome cmp querybuf info s Hall)
      as [(_ & ? & _)|(t & pkt & _ & _ & _ & _ & Hx & _)]; [done|].
    by rewrite (Hfetch info s Hcmd) in Hx. }
  assert (Hentry : ∀ querybuf info s t,
     let r := route_single_stmt cmp querybuf info s in
     ri_command info = MXS_COM_STMT_FETCH →
     routed_to_slave info = true →
     large_query s = false →
     exec_map s !! ri_stmt_id info = Some t →
     (∀ i, i ≠ t → b_written (backend_at r.2 i) = b_written (backend_at s i)) ∧
     exec_map r.2 = exec_map s ∧
     (backend_ready s t = true →
      r.1 = true ∧
      b_written (backend_at r.2 t) =
        b_written (backend_at s t) ++
        [got_target_packet (routed_buffer querybuf info s) t s])).
  { intros querybuf info s t r Hcmd Hslave Hlarge Hlookup.
    destruct (route_single_stmt_slave cmp querybuf info s Hslave Hlarge)
      as (Hother & _ & Hready & _).
    fold r in Hother, Hready. unfold fetch_target in Hother, Hready.
    rewrite Hcmd, bool_decide_true, Hlookup in Hother, Hready by done.
    apply routed_to_slave_spec in Hslave as (_ & Hall & _).
    split_and!.
    - intros i Hne. apply Hother. congruence.
    - by apply Hmap.
    - intros Hr. destruct (Hready t eq_refl Hr) as (? & ? & _). done. }
  split_and!.
  - exact Hentry.
  - intros querybuf info s r fallback Hcmd Hslave Hlarge Hlookup.
    destruct (route_single_stmt_slave cmp querybuf info s Hslave Hlarge)
      as (Hother & Hnone & Hready & Hwarn).
    fold r in Hother, Hnone, Hready, Hwarn.
    unfold fetch_target in Hother, Hnone, Hready.
    rewrite Hcmd, bool_decide_true, Hlookup in Hother, Hnone, Hready by done.
    apply routed_to_slave_spec in Hslave as (_ & Hall & _).
    split_and!; [by apply Hwarn|by apply Hmap|done|done|].
    intros t Ht Hr. destruct (Hready t Ht Hr) as (? & ? & _). done.
  - intros querybuf info s r Hall.
    destruct (route_single_stmt_outcome cmp querybuf info s Hall)
      as [(Hk & ? & _)|(t & pkt & _ & Hpkt & Hother & _ & Hx & _)];
      fold r in Hk || fold r in Hpkt, Hother, Hx.
    + split; [|done]. intros t Hw. exfalso. apply Hw, Hk.
    + split.
      * intros t' Hw. destruct (decide (t' = t)) as [->|Hne]; [done|].
        exfalso. by apply Hw, Hother.
      * intros Hk. exfalso. specialize (Hk t). rewrite Hpkt in Hk.
        apply (f_equal length) in Hk. rewrite length_app in Hk. cbn in Hk. lia.
  - intros execbuf einfo fetchbuf finfo s t r1 r2 Hcmd Hall Hlocked Hshort Hw
      Hfcmd Hslave Hid.
    destruct (route_single_stmt_outcome cmp execbuf einfo s Hall)
      as [(Hk & _)|(t' & pkt & _ & Hpkt & Hother & Hready & Hx & Hl & _)];
      fold r1 in Hk || fold r1 in Hpkt, Hother, Hready, Hx, Hl.
    { exfalso. apply Hw, Hk. }
    assert (t' = t) as ->.
    { destruct (decide (t' = t)) as [|Hne]; [done|].
      exfalso. apply Hw, Hother. congruence. }
    rewrite is_large_query_routed_eq, Hshort in Hl.
    unfold execute_recorded in Hx.
    rewrite Hcmd, Hlocked, bool_decide_true in Hx by done. cbn in Hx.
    assert (exec_map r1.2 !! ri_stmt_id finfo = Some t) as Hlookup
      by (rewrite Hx, Hid; apply lookup_insert_eq).
    destruct (Hentry fetchbuf finfo r1.2 t Hfcmd Hslave Hl Hlookup)
      as (Hother2 & _ & Hwritten).
    fold r2 in Hother2, Hwritten.
    destruct (Hwritten Hready) as (? & ?). done.
Qed.

Lemma fetch_affinity_witness :
  let r1 := route_single_stmt example_cmpfun execute_stmt execute_info example_session in
  let r2 := route_single_stmt example_cmpfun fetch_stmt (fetch_info TARGET_SLAVE) r1.2 in
  r2.1 = true ∧
  b_written (backend_at r2.2 1) =
    b_written (backend_at r1.2 1) ++
    [got_target_packet (routed_buffer fetch_stmt (fetch_info TARGET_SLAVE) r1.2) 1 r1.2] ∧
  (∀ i, i ≠ 1%nat → b_written (backend_at r2.2 i) = b_written (backend_at r1.2 i)).
Proof.
  apply (proj2 (proj2 (proj2 (fetch_affinity example_cmpfun)))
           execute_stmt execute_info fetch_stmt (fetch_info TARGET_SLAVE)
           example_session 1%nat); by vm_compute.
Defined.

(** C7, as stated, fails twice.  A COM_STMT_FETCH that is routed to the
    master is written to the master, server1, though the map of executed
    statements records server2 for its statement id.  In a session that is
    locked to the master, a COM_STMT_EXECUTE is written to the master,
    server1, and is not recorded; the COM_STMT_FETCH that follows and is
    routed to a slave finds no entry, and is written to server2. *)
Lemma fetch_affinity_counterexample :
  (let s := session_executed 1 in
   let r := route_single_stmt example_cmpfun fetch_stmt (fetch_info TARGET_MASTER) s in
   exec_map s !! 5%N = Some 1%nat ∧
   r.1 = true ∧
   b_written (backend_at r.2 0) =
     [(replace_binary_ps_id fetch_stmt 5, EXPECT_RESPONSE)] ∧
   b_written (backend_at r.2 1) = []) ∧
  (let s := session_locked in
   let r1 := route_single_stmt example_cmpfun execute_stmt execute_info_master s in
   let r2 := route_single_stmt example_cmpfun fetch_stmt (fetch_info TARGET_SLAVE) r1.2 in
   locked_to_master s = true ∧
   r1.1 = true ∧
   b_written (backend_at r1.2 0) = [(execute_stmt, EXPECT_RESPONSE)] ∧
   exec_map r1.2 !! 5%N = None ∧
   r2.1 = true ∧
   b_written (backend_at r2.2 0) = [(execute_stmt, EXPECT_RESPONSE)] ∧
   b_written (backend_at r2.2 1) = [(fetch_stmt, EXPECT_RESPONSE)] ∧
   (LOG_WARNING, "Unknown statement ID %u used in COM_STMT_FETCH") ∈ logged r1.2 r2.2).
Proof.
  cbv zeta. split_and!; try by vm_compute.
  apply (bool_decide_unpack _). by vm_compute.
Qed.

(** ** Read-only transactions: the statements follow the pinned backend *)



